(** * Glue DevEndpoint bootstrap for a SageMaker notebook

    A shallow embedding of [sagemaker/assets/bootstrap.py]: the connect and
    disconnect protocol, the ready-wait loop and the two reconciliation
    daemons ([reconnect_daemon], [switch_daemon]).

    The Python code talks to four external collaborators: the local file
    system, the Glue and SageMaker APIs (boto3 clients), the [autossh]
    upstart job and the local Livy HTTP endpoint.  They are modelled by an
    explicit [World] that every function threads through; whatever the
    program cannot control (HTTP reachability, the asynchronous
    [LastUpdateStatus] of an endpoint, API faults, the key material made by
    [ssh-keygen], the time every action takes) is read from an [Oracle], a
    family of functions indexed by the number of calls made so far.  Python
    exceptions are the [Raise] results of a small state-and-error monad. *)

From Stdlib Require Import ZArith QArith Lia String Ascii List Bool.
From stdpp Require Import base option list gmap sets strings pretty.

Local Open Scope string_scope.
Local Open Scope Z_scope.

(** ** Module constants *)

Definition RECONNECT_INTERVAL_IN_SEC : Z := 300.
Definition SWITCH_INTERVAL_IN_SEC : Z := 30.
Definition MAX_FAIL_DURATION_IN_HOUR : Z := 48.
Definition HOUR_IN_SEC : Z := 3600.
Definition DEV_ENDPOINT_HEARTBEAT_INTERVAL_IN_SEC : Z := 3600.

(** Python's [/] on two ints is true division and yields a float; the
    quotients here (12 and 120) and their products with 48 are small
    integers, exactly representable, so rationals compute the same values. *)
Definition RECONNECT_MAX_FAIL_COUNT : Q :=
  ((inject_Z HOUR_IN_SEC / inject_Z RECONNECT_INTERVAL_IN_SEC) *
   inject_Z MAX_FAIL_DURATION_IN_HOUR)%Q.
Definition SWITCH_MAX_FAIL_COUNT : Q :=
  ((inject_Z HOUR_IN_SEC / inject_Z SWITCH_INTERVAL_IN_SEC) *
   inject_Z MAX_FAIL_DURATION_IN_HOUR)%Q.

Definition UPDATE_DEV_ENDPOINT_TIMEOUT_IN_SEC : Z := 600.
Definition LIVY_SERVER_TIMEOUT_IN_SEC : Z := 300.
Definition LIVY_PING_TIMEOUT_IN_SEC : Z := 10.
Definition WAIT_DEV_ENDPOINT_READY_INTERVAL_IN_SEC : Z := 5.

Definition SSH_KEY_DIR : string := "/home/ec2-user/glue/ssh/".
Definition SSH_KEY_NAME : string := "glue_key".
Definition SSH_KEY_PRIVATE_PATH : string := SSH_KEY_DIR +:+ SSH_KEY_NAME.
Definition SSH_KEY_PUBLIC_PATH : string := SSH_KEY_PRIVATE_PATH +:+ ".pub".
Definition AUTO_SSH_HOST_PATH : string := "/home/ec2-user/glue/autossh.host".
Definition CURRENT_DEV_ENDPOINT_PATH : string :=
  "/home/ec2-user/glue/current_dev_endpoint".
Definition LIVY_SERVER_URL : string := "http://localhost:8998".

Definition COMPLETED : string := "COMPLETED".
Definition FAILED : string := "FAILED".

(** ** Exceptions and results *)

(** The exception classes the code can meet; all are subclasses of
    [Exception].  [IOError] is Python 3's [OSError]. *)
Inductive exn : Type :=
  | IOError (path : string)
  | ValueError (msg : string)
  | KeyError (key : string)
  | ConnectionError
  | RequestException
  | ClientError (operation : string)
  | CalledProcessError (command : string).

(** [except IOError]: besides the file errors it also matches the
    exceptions of [requests], which derive from [IOError]. *)
Definition is_IOError (e : exn) : bool :=
  match e with
  | IOError _ | ConnectionError | RequestException => true
  | _ => false
  end.

(** [except requests.exceptions.ConnectionError] *)
Definition is_ConnectionError (e : exn) : bool :=
  match e with ConnectionError => true | _ => false end.

(** [Diverge] is not a Python outcome: it marks a loop of the model that ran
    out of fuel, and no [try] catches it. *)
Inductive result (A : Type) : Type :=
  | Ok (a : A)
  | Raise (e : exn)
  | Diverge.
Arguments Ok {A} a.
Arguments Raise {A} e.
Arguments Diverge {A}.

Definition is_ok {A} (r : result A) : bool :=
  match r with Ok _ => true | _ => false end.
Definition is_raise {A} (r : result A) : bool :=
  match r with Raise _ => true | _ => false end.

(** ** The world *)

(** The dict returned under ["DevEndpoint"] by [get_dev_endpoint], restricted
    to the keys the code reads; an absent key is [None]. *)
Record DevEndpoint : Type := mkDevEndpoint {
  PublicKey : option string;
  PublicKeys : option (list string);
  LastUpdateStatus : option string;
  PrivateAddress : option string;
  PublicAddress : option string
}.

(** What the Glue service stores for an endpoint.  The update status is not
    stored: it changes on the service's side and is read from the oracle at
    every call. *)
Record RemoteEndpoint : Type := mkRemoteEndpoint {
  remote_key : option string;
  remote_keys : option (list string);
  remote_private_address : option string;
  remote_public_address : option string
}.

Inductive livy_outcome : Type :=
  | LivyResponse          (* any HTTP response, error statuses included *)
  | LivyRefused           (* requests.exceptions.ConnectionError *)
  | LivyOtherError.       (* any other requests exception, e.g. ReadTimeout *)

Record Oracle : Type := mkOracle {
  livy : nat -> livy_outcome;           (* outcome of the k-th requests.get *)
  glue_status : nat -> option string;   (* LastUpdateStatus seen by the k-th Glue call *)
  glue_fault : nat -> bool;             (* the k-th Glue call raises *)
  sm_fault : nat -> bool;               (* the k-th SageMaker call raises *)
  keygen : nat -> string;               (* key material of the k-th ssh-keygen *)
  duration : nat -> N                   (* seconds the k-th action takes *)
}.

Inductive level : Type := INFO | WARNING | ERROR.

(** The actions the program takes on its collaborators.  An action that can
    go either way records how it went ([ok]). *)
Inductive event : Type :=
  | EvLog (l : level) (msg : string)
  | EvSleep (seconds : Z)
  | EvRead (path : string)
  | EvWrite (path content : string)
  | EvRemove (path : string)
  | EvMkdir (path : string)
  | EvChmod (path : string)
  | EvIOFail (path : string)
  | EvKeygen (path comment : string) (ok : bool)
  | EvSubprocess (args : list string)
  | EvProbe (timeout : Z) (o : livy_outcome)
  | EvGetDevEndpoint (name : string)
  | EvUpdateDevEndpoint (name : string) (add del : list string) (ok : bool)
  | EvListTags
  | EvAddTags (key value : string) (ok : bool).

Record World : Type := mkWorld {
  oracle : Oracle;
  clock : Z;                         (* time.time(), in seconds *)
  fs : gmap string string;           (* regular files and their contents *)
  dirs : gset string;                (* directories *)
  io_faulty : gset string;           (* paths on which open and remove fail *)
  write_faulty : gset string;        (* paths that open for writing, and then fail
                                        to take the text (a full disk) *)
  endpoints : gmap string RemoteEndpoint;
  notebook_tags : list (string * string);
  autossh_running : bool;
  glue_calls : nat;
  sm_calls : nat;
  probes : nat;
  keygens : nat;
  actions : nat;                     (* number of actions taken so far *)
  trace : list event                 (* newest event first *)
}.

Definition emit (e : event) (w : World) : World :=
  mkWorld (oracle w) (clock w) (fs w) (dirs w) (io_faulty w) (write_faulty w)
          (endpoints w) (notebook_tags w) (autossh_running w) (glue_calls w)
          (sm_calls w) (probes w) (keygens w) (S (actions w)) (e :: trace w).

Definition set_clock (t : Z) (w : World) : World :=
  mkWorld (oracle w) t (fs w) (dirs w) (io_faulty w) (write_faulty w)
          (endpoints w) (notebook_tags w) (autossh_running w) (glue_calls w)
          (sm_calls w) (probes w) (keygens w) (actions w) (trace w).

Definition set_fs (f : gmap string string) (w : World) : World :=
  mkWorld (oracle w) (clock w) f (dirs w) (io_faulty w) (write_faulty w)
          (endpoints w) (notebook_tags w) (autossh_running w) (glue_calls w)
          (sm_calls w) (probes w) (keygens w) (actions w) (trace w).

Definition set_dirs (d : gset string) (w : World) : World :=
  mkWorld (oracle w) (clock w) (fs w) d (io_faulty w) (write_faulty w)
          (endpoints w) (notebook_tags w) (autossh_running w) (glue_calls w)
          (sm_calls w) (probes w) (keygens w) (actions w) (trace w).

Definition set_endpoints (m : gmap string RemoteEndpoint) (w : World) : World :=
  mkWorld (oracle w) (clock w) (fs w) (dirs w) (io_faulty w) (write_faulty w) m
          (notebook_tags w) (autossh_running w) (glue_calls w) (sm_calls w)
          (probes w) (keygens w) (actions w) (trace w).

Definition set_notebook_tags (t : list (string * string)) (w : World) : World :=
  mkWorld (oracle w) (clock w) (fs w) (dirs w) (io_faulty w) (write_faulty w)
          (endpoints w) t (autossh_running w) (glue_calls w) (sm_calls w)
          (probes w) (keygens w) (actions w) (trace w).

Definition set_autossh_running (b : bool) (w : World) : World :=
  mkWorld (oracle w) (clock w) (fs w) (dirs w) (io_faulty w) (write_faulty w)
          (endpoints w) (notebook_tags w) b (glue_calls w) (sm_calls w)
          (probes w) (keygens w) (actions w) (trace w).

Definition tick_glue_calls (w : World) : World :=
  mkWorld (oracle w) (clock w) (fs w) (dirs w) (io_faulty w) (write_faulty w)
          (endpoints w) (notebook_tags w) (autossh_running w) (S (glue_calls w))
          (sm_calls w) (probes w) (keygens w) (actions w) (trace w).

Definition tick_sm_calls (w : World) : World :=
  mkWorld (oracle w) (clock w) (fs w) (dirs w) (io_faulty w) (write_faulty w)
          (endpoints w) (notebook_tags w) (autossh_running w) (glue_calls w)
          (S (sm_calls w)) (probes w) (keygens w) (actions w) (trace w).

Definition tick_probes (w : World) : World :=
  mkWorld (oracle w) (clock w) (fs w) (dirs w) (io_faulty w) (write_faulty w)
          (endpoints w) (notebook_tags w) (autossh_running w) (glue_calls w)
          (sm_calls w) (S (probes w)) (keygens w) (actions w) (trace w).

Definition tick_keygens (w : World) : World :=
  mkWorld (oracle w) (clock w) (fs w) (dirs w) (io_faulty w) (write_faulty w)
          (endpoints w) (notebook_tags w) (autossh_running w) (glue_calls w)
          (sm_calls w) (probes w) (S (keygens w)) (actions w) (trace w).

Definition newline : string := String (ascii_of_nat 10) EmptyString.

Definition str_mem (s : string) (l : list string) : bool :=
  existsb (String.eqb s) l.

(** The service's reaction to [UpdateDevEndpoint]: the keys to delete leave
    the registered keys, the keys to add join them (once). *)
Definition apply_update (add del : list string) (r : RemoteEndpoint) : RemoteEndpoint :=
  let kept := List.filter (fun k => negb (str_mem k del)) (default [] (remote_keys r)) in
  let added := List.filter (fun k => negb (str_mem k kept)) add in
  mkRemoteEndpoint
    (match remote_key r with
     | Some k => if str_mem k del then None else Some k
     | None => None
     end)
    (match remote_keys r, add with
     | None, [] => None
     | _, _ => Some (kept ++ added)%list
     end)
    (remote_private_address r) (remote_public_address r).

(** The line [ssh-keygen] writes to the [.pub] file: type, key, comment. *)
Definition public_key_line (material comment : string) : string :=
  "ssh-rsa " +:+ material +:+ " " +:+ comment +:+ newline.

(** What an action changes in the world. *)
Definition effect (e : event) (w : World) : World :=
  match e with
  | EvSleep seconds => set_clock (clock w + seconds) w
  | EvWrite path content => set_fs (<[path := content]> (fs w)) w
  | EvRemove path => set_fs (delete path (fs w)) w
  | EvMkdir path => set_dirs ({[path]} ∪ dirs w) w
  | EvKeygen path comment true =>
      let material := keygen (oracle w) (keygens w) in
      tick_keygens
        (set_fs (<[path +:+ ".pub" := public_key_line material comment]>
                   (<[path := material]> (fs w))) w)
  | EvSubprocess args =>
      if bool_decide (args = ["/usr/bin/sudo"; "/sbin/initctl"; "start"; "autossh"])
      then set_autossh_running true w
      else if bool_decide (args = ["/usr/bin/sudo"; "/sbin/initctl"; "stop"; "autossh"])
      then set_autossh_running false w
      else w
  | EvProbe _ _ => tick_probes w
  | EvGetDevEndpoint _ => tick_glue_calls w
  | EvUpdateDevEndpoint name add del ok =>
      tick_glue_calls
        (if ok then set_endpoints (alter (apply_update add del) name (endpoints w)) w
         else w)
  | EvListTags => tick_sm_calls w
  | EvAddTags key value ok =>
      tick_sm_calls
        (if ok then
           set_notebook_tags
             ((key, value) ::
              List.filter (fun kv => negb (String.eqb (fst kv) key)) (notebook_tags w)) w
         else w)
  | _ => w
  end.

(** Every action takes time, as much as the oracle says: [time.time()] is
    the wall clock, which also moves while a call is under way. *)
Definition elapse (w : World) : World :=
  set_clock (clock w + Z.of_N (duration (oracle w) (actions w))) w.

(** Taking an action: time passes, the world changes and the action is
    recorded. *)
Definition perform (e : event) (w : World) : World := emit e (effect e (elapse w)).

(** ** The monad: state passing over [World], with exceptions *)

Definition M (A : Type) : Type := World -> result A * World.

Definition ret {A} (a : A) : M A := fun w => (Ok a, w).
Definition raise {A} (e : exn) : M A := fun w => (Raise e, w).
Definition diverge {A} : M A := fun w => (Diverge, w).

Definition bind {A B} (m : M A) (k : A -> M B) : M B :=
  fun w =>
    match m w with
    | (Ok a, w') => k a w'
    | (Raise e, w') => (Raise e, w')
    | (Diverge, w') => (Diverge, w')
    end.

(** [try: m except <class>: h], where [catches] says whether the raised
    exception is an instance of the class.  [raise] with no argument inside
    the handler is [raise e]. *)
Definition try_except {A} (m : M A) (catches : exn -> bool) (h : exn -> M A) : M A :=
  fun w =>
    match m w with
    | (Raise e, w') => if catches e then h e w' else (Raise e, w')
    | rw => rw
    end.

(** [except Exception] *)
Definition is_Exception (e : exn) : bool := true.

Declare Scope monad_scope.
Delimit Scope monad_scope with monad.
Notation "x <- m ;; k" := (bind m (fun x => k))
  (at level 100, m at next level, right associativity) : monad_scope.
Notation "m ;; k" := (bind m (fun _ => k))
  (at level 100, right associativity) : monad_scope.
Local Open Scope monad_scope.

(** ** Primitives: the external collaborators *)

Definition logger (l : level) (msg : string) : M unit :=
  fun w => (Ok tt, perform (EvLog l msg) w).

Definition time_time : M Z := fun w => (Ok (clock w), w).

(** [time.sleep(seconds)]: at least [seconds] pass. *)
Definition time_sleep (seconds : Z) : M unit :=
  fun w => (Ok tt, perform (EvSleep seconds) w).

Definition os_path_exists (path : string) : M bool :=
  fun w => (Ok (bool_decide (is_Some (fs w !! path)) || bool_decide (path ∈ dirs w)), w).

Definition io_fail {A} (path : string) : M A :=
  fun w => (Raise (IOError path), perform (EvIOFail path) w).

(** [with open(path) as file: file.read()].  The files read whole are those
    this program and [ssh-keygen] write: texts of characters below 256 with
    no carriage return, which the text mode hands over as they are. *)
Definition open_read (path : string) : M string :=
  fun w =>
    if bool_decide (path ∈ io_faulty w) then io_fail path w
    else match fs w !! path with
         | Some content => (Ok content, perform (EvRead path) w)
         | None => io_fail path w
         end.

(** [with open(path, "w") as file: file.write(content)]: [open] truncates
    the file (or creates it, empty) before anything is written, so a write
    that fails after [open] has succeeded leaves an empty file behind.  The
    texts written here are a name or an address, far below the size of the
    buffer, which is flushed in one piece when the file is closed. *)
Definition open_write (path content : string) : M unit :=
  fun w =>
    if bool_decide (path ∈ io_faulty w) then io_fail path w
    else if bool_decide (path ∈ write_faulty w) then
      (Raise (IOError path), perform (EvIOFail path) (perform (EvWrite path "") w))
    else (Ok tt, perform (EvWrite path content) w).

Definition os_remove (path : string) : M unit :=
  fun w =>
    if bool_decide (path ∈ io_faulty w) then io_fail path w
    else match fs w !! path with
         | Some _ => (Ok tt, perform (EvRemove path) w)
         | None => io_fail path w
         end.

(** [pathlib.Path(path).mkdir(parents=True)] *)
Definition pathlib_mkdir (path : string) : M unit :=
  fun w =>
    if bool_decide (path ∈ io_faulty w) || bool_decide (path ∈ dirs w) then io_fail path w
    else (Ok tt, perform (EvMkdir path) w).

Definition os_chmod (path : string) : M unit :=
  fun w =>
    match fs w !! path with
    | Some _ => (Ok tt, perform (EvChmod path) w)
    | None => io_fail path w
    end.

(** [subprocess.check_output(['/usr/bin/ssh-keygen', '-f', path, '-C',
    comment, '-N', ''])]: writes the private key and, next to it, the public
    key, whose last field is the comment.  It refuses to overwrite an
    existing private key (no terminal to confirm on), which
    [check_output] turns into [CalledProcessError]. *)
Definition ssh_keygen (path comment : string) : M string :=
  fun w =>
    match fs w !! path with
    | Some _ =>
        (Raise (CalledProcessError "ssh-keygen"), perform (EvKeygen path comment false) w)
    | None =>
        (Ok ("Your public key has been saved in " +:+ path +:+ ".pub"),
         perform (EvKeygen path comment true) w)
    end.

(** [subprocess.call(args)]: the exit code is returned, and ignored by the
    callers; no exception. *)
Definition subprocess_call (args : list string) : M Z :=
  fun w => (Ok 0, perform (EvSubprocess args) w).

(** [requests.get(url=LIVY_SERVER_URL, timeout=timeout)] *)
Definition requests_get (timeout : Z) : M unit :=
  fun w =>
    let o := livy (oracle w) (probes w) in
    (match o with
     | LivyResponse => Ok tt
     | LivyRefused => Raise ConnectionError
     | LivyOtherError => Raise RequestException
     end, perform (EvProbe timeout o) w).

(** [glue_client.get_dev_endpoint(EndpointName=name)["DevEndpoint"]] *)
Definition glue_get_dev_endpoint (name : string) : M DevEndpoint :=
  fun w =>
    let k := glue_calls w in
    (if glue_fault (oracle w) k then Raise (ClientError "GetDevEndpoint")
     else match endpoints w !! name with
          | None => Raise (ClientError "GetDevEndpoint")
          | Some r =>
              Ok (mkDevEndpoint (remote_key r) (remote_keys r)
                    (glue_status (oracle w) k)
                    (remote_private_address r) (remote_public_address r))
          end,
     perform (EvGetDevEndpoint name) w).

(** [glue_client.update_dev_endpoint(EndpointName=name, AddPublicKeys=add,
    DeletePublicKeys=del)] *)
Definition glue_update_dev_endpoint (name : string) (add del : list string) : M unit :=
  fun w =>
    let ok := negb (glue_fault (oracle w) (glue_calls w))
              && bool_decide (is_Some (endpoints w !! name)) in
    (if ok then Ok tt else Raise (ClientError "UpdateDevEndpoint"),
     perform (EvUpdateDevEndpoint name add del ok) w).

(** [sagemaker_client.list_tags(ResourceArn=arn).get('Tags')] *)
Definition sagemaker_list_tags (arn : string) : M (list (string * string)) :=
  fun w =>
    (if sm_fault (oracle w) (sm_calls w) then Raise (ClientError "ListTags")
     else Ok (notebook_tags w),
     perform EvListTags w).

(** [sagemaker_client.add_tags(ResourceArn=arn, Tags=[{Key, Value}])] *)
Definition sagemaker_add_tags (arn key value : string) : M unit :=
  fun w =>
    let ok := negb (sm_fault (oracle w) (sm_calls w)) in
    (if ok then Ok tt else Raise (ClientError "AddTags"),
     perform (EvAddTags key value ok) w).

(** ** Python values in the model *)

(** Truth value of a string: empty is false. *)
Definition truthy (s : string) : bool := negb (String.eqb s "").

(** Truth value of [None] or a string. *)
Definition truthy_opt (o : option string) : bool :=
  match o with Some s => truthy s | None => false end.

(** [needle in hay] on strings: substring containment. *)
Fixpoint str_in (needle hay : string) : bool :=
  String.prefix needle hay ||
  match hay with
  | EmptyString => false
  | String _ hay' => str_in needle hay'
  end.

(** Renderings used by the f-strings of the log messages. *)
Definition show_opt (o : option string) : string := default "None" o.
Definition show_list (l : list string) : string :=
  "[" +:+ String.concat ", " (map (fun s => "'" +:+ s +:+ "'") l) +:+ "]".
Definition show_dev_endpoint (d : DevEndpoint) : string :=
  "{PublicKey: " +:+ show_opt (PublicKey d) +:+
  ", PublicKeys: " +:+ show_list (default [] (PublicKeys d)) +:+
  ", LastUpdateStatus: " +:+ show_opt (LastUpdateStatus d) +:+
  ", PrivateAddress: " +:+ show_opt (PrivateAddress d) +:+
  ", PublicAddress: " +:+ show_opt (PublicAddress d) +:+ "}".

(** [x < y] for an int [x] and a float [y] holding a rational. *)
Definition Qltb (x y : Q) : bool := (Qnum x * QDen y <? Qnum y * QDen x)%Z.
Definition int_lt_float (n : nat) (y : Q) : bool := Qltb (inject_Z (Z.of_nat n)) y.

(** ** bootstrap.py *)

Section Bootstrap.

(** The module globals [notebook_arn] and [notebook_name], read once from
    the resource metadata at import ([notebook_name] may be replaced by the
    command line before the first connect). *)
Variable notebook_arn : string.
Variable notebook_name : string.

Definition get_autossh_host : M string :=
  try_except
    (autossh_host <- open_read AUTO_SSH_HOST_PATH ;;
     if truthy autossh_host then ret autossh_host
     else raise (ValueError "autossh_host is empty"))
    is_IOError
    (fun e =>
       logger ERROR ("Failed to read autossh_host from " +:+ AUTO_SSH_HOST_PATH) ;;
       raise e).

Definition get_public_key : M string :=
  try_except
    (public_key <- open_read SSH_KEY_PUBLIC_PATH ;;
     if truthy public_key then ret public_key
     else raise (ValueError "SSH public_key is empty"))
    is_IOError
    (fun e =>
       logger ERROR ("Failed to read SSH public_key from " +:+ SSH_KEY_PUBLIC_PATH) ;;
       raise e).

Definition get_current_dev_endpoint : M (option string) :=
  try_except
    (present <- os_path_exists CURRENT_DEV_ENDPOINT_PATH ;;
     if (present : bool) then
       content <- open_read CURRENT_DEV_ENDPOINT_PATH ;;
       ret (Some content)
     else ret None)
    is_IOError
    (fun _ =>
       logger WARNING "Failed to load current_dev_endpoint" ;;
       ret None).

Definition save_current_dev_endpoint (dev_endpoint_name : string) : M unit :=
  logger INFO ("Saving current_dev_endpoint=" +:+ dev_endpoint_name) ;;
  try_except
    (open_write CURRENT_DEV_ENDPOINT_PATH dev_endpoint_name ;;
     logger INFO ("Saved current_dev_endpoint=" +:+ dev_endpoint_name))
    is_IOError
    (fun e =>
       logger ERROR ("Failed to save current_dev_endpoint=" +:+ dev_endpoint_name) ;;
       raise e).

Definition remove_dev_endpoint (dev_endpoint_name : string) : M unit :=
  present <- os_path_exists CURRENT_DEV_ENDPOINT_PATH ;;
  if (present : bool) then
    logger INFO ("Removing current_dev_endpoint=" +:+ dev_endpoint_name) ;;
    try_except
      (os_remove CURRENT_DEV_ENDPOINT_PATH ;;
       logger INFO ("Removed current_dev_endpoint=" +:+ dev_endpoint_name))
      is_IOError
      (fun e =>
         logger ERROR ("Failed to remove current_dev_endpoint=" +:+ dev_endpoint_name) ;;
         raise e)
  else
    logger INFO ("current_dev_endpoint=" +:+ dev_endpoint_name +:+ " absent").

Definition get_latest_dev_endpoint : M string :=
  dev_endpoint_tags <- sagemaker_list_tags notebook_arn ;;
  let dev_endpoint_names :=
    List.filter (fun x => String.eqb (fst x) "aws-glue-dev-endpoint") dev_endpoint_tags in
  match dev_endpoint_names with
  | (_, dev_endpoint_name) :: _ => ret dev_endpoint_name
  | [] => raise (ValueError "Unable to get latest DevEndpoint from notebook tag")
  end.

Definition start_autossh : M unit :=
  autossh_host <- get_autossh_host ;;
  logger INFO ("Starting autossh tunnel to Livy " +:+ autossh_host) ;;
  subprocess_call ["/usr/bin/sudo"; "/sbin/initctl"; "reload-configuration"] ;;
  subprocess_call ["/usr/bin/sudo"; "/sbin/initctl"; "start"; "autossh"] ;;
  logger INFO ("Started autossh tunnel to Livy " +:+ autossh_host).

Definition stop_autossh : M unit :=
  autossh_host <- get_autossh_host ;;
  logger INFO ("Stopping autossh tunnel from Livy " +:+ autossh_host) ;;
  subprocess_call ["/usr/bin/sudo"; "/sbin/initctl"; "stop"; "autossh"] ;;
  logger INFO ("Stopped autossh tunnel from Livy " +:+ autossh_host).

Definition ping_livy : M unit :=
  logger INFO "Pinging Livy..." ;;
  requests_get LIVY_SERVER_TIMEOUT_IN_SEC ;;
  logger INFO "Pinged Livy".

Definition generate_ssh_keypair : M unit :=
  logger INFO ("Generating SSH keypair at " +:+ SSH_KEY_PRIVATE_PATH) ;;
  dir_present <- os_path_exists SSH_KEY_DIR ;;
  (if (dir_present : bool) then
     key_present <- os_path_exists SSH_KEY_PRIVATE_PATH ;;
     if (key_present : bool) then
       public_key <- get_public_key ;;
       logger WARNING ("Removing current SSH keypair " +:+ public_key) ;;
       os_remove SSH_KEY_PRIVATE_PATH ;;
       logger WARNING ("Removed current SSH keypair " +:+ public_key)
     else ret tt
   else
     logger INFO ("Creating directory at " +:+ SSH_KEY_DIR) ;;
     pathlib_mkdir SSH_KEY_DIR ;;
     logger INFO ("Created directory at " +:+ SSH_KEY_DIR)) ;;
  output <- ssh_keygen SSH_KEY_PRIVATE_PATH notebook_name ;;
  logger INFO output ;;
  os_chmod SSH_KEY_PRIVATE_PATH ;;
  public_key <- get_public_key ;;
  logger INFO ("Generated SSH keypair " +:+ public_key).

(** The [while ... else] of [wait_dev_endpoint_ready]; [fuel] bounds the
    number of iterations. *)
Fixpoint wait_dev_endpoint_ready_loop (fuel : nat) (dev_endpoint_name : string)
    (start : Z) : M unit :=
  now <- time_time ;;
  if now - start <? UPDATE_DEV_ENDPOINT_TIMEOUT_IN_SEC then
    match fuel with
    | O => diverge
    | S fuel' =>
        logger INFO ("Waiting dev_endpoint=" +:+ dev_endpoint_name +:+ " ready") ;;
        time_sleep WAIT_DEV_ENDPOINT_READY_INTERVAL_IN_SEC ;;
        dev_endpoint <- glue_get_dev_endpoint dev_endpoint_name ;;
        match LastUpdateStatus dev_endpoint with
        | None => ret tt
        | Some status =>
            if String.eqb status COMPLETED then
              logger INFO ("dev_endpoint=" +:+ dev_endpoint_name +:+ " ready")
            else if String.eqb status FAILED then
              raise (ValueError ("LastUpdateStatus is FAILED, dev_endpoint="
                                 +:+ dev_endpoint_name))
            else wait_dev_endpoint_ready_loop fuel' dev_endpoint_name start
        end
    end
  else
    logger ERROR ("Wait dev_endpoint=" +:+ dev_endpoint_name +:+ " ready timeout").

(** Every iteration sleeps [WAIT_DEV_ENDPOINT_READY_INTERVAL_IN_SEC]
    seconds at least, so the timeout allows this many of them at most. *)
Definition wait_fuel : nat :=
  Z.to_nat (UPDATE_DEV_ENDPOINT_TIMEOUT_IN_SEC / WAIT_DEV_ENDPOINT_READY_INTERVAL_IN_SEC).

Definition wait_dev_endpoint_ready (dev_endpoint_name : string) : M unit :=
  start <- time_time ;;
  wait_dev_endpoint_ready_loop wait_fuel dev_endpoint_name start.

Definition add_public_key (dev_endpoint_name : string) : M unit :=
  public_key <- get_public_key ;;
  wait_dev_endpoint_ready dev_endpoint_name ;;
  logger INFO ("Adding public_key=" +:+ public_key +:+ " to dev_endpoint="
               +:+ dev_endpoint_name) ;;
  glue_update_dev_endpoint dev_endpoint_name [public_key] [] ;;
  wait_dev_endpoint_ready dev_endpoint_name ;;
  logger INFO ("Added public_key=" +:+ public_key +:+ " to dev_endpoint="
               +:+ dev_endpoint_name) ;;
  dev_endpoint <- glue_get_dev_endpoint dev_endpoint_name ;;
  logger INFO ("Dev endpoint details are " +:+ show_dev_endpoint dev_endpoint) ;;
  typed_address <-
    match PrivateAddress dev_endpoint with
    | Some address => ret ("PrivateAddress", address)
    | None =>
        match PublicAddress dev_endpoint with
        | Some address => ret ("PublicAddress", address)
        | None => raise (KeyError "PublicAddress")
        end
    end ;;
  let dev_endpoint_type : string := fst typed_address in
  let dev_endpoint_address : string := snd typed_address in
  logger INFO ("Saving dev_endpoint=" +:+ dev_endpoint_name +:+ " " +:+ dev_endpoint_type
               +:+ " " +:+ dev_endpoint_address +:+ " to " +:+ AUTO_SSH_HOST_PATH) ;;
  open_write AUTO_SSH_HOST_PATH dev_endpoint_address ;;
  logger INFO ("Saved dev_endpoint=" +:+ dev_endpoint_name +:+ " " +:+ dev_endpoint_type
               +:+ " " +:+ dev_endpoint_address +:+ " to " +:+ AUTO_SSH_HOST_PATH).

Definition delete_public_keys (dev_endpoint_name : string)
    (public_keys_to_delete : list string) : M unit :=
  wait_dev_endpoint_ready dev_endpoint_name ;;
  match public_keys_to_delete with
  | _ :: _ =>
      logger INFO ("Deleting public_keys=" +:+ show_list public_keys_to_delete
                   +:+ " from dev_endpoint=" +:+ dev_endpoint_name) ;;
      glue_update_dev_endpoint dev_endpoint_name [] public_keys_to_delete ;;
      wait_dev_endpoint_ready dev_endpoint_name ;;
      logger INFO ("Deleted public_keys=" +:+ show_list public_keys_to_delete
                   +:+ " from dev_endpoint=" +:+ dev_endpoint_name)
  | [] =>
      logger INFO ("No Public Keys to delete from dev_endpoint=" +:+ dev_endpoint_name)
  end.

(** The list [public_keys_to_delete] that [delete_public_keys_if_has] builds
    from the endpoint it has fetched. *)
Definition public_keys_to_delete (dev_endpoint : DevEndpoint) : list string :=
  (match PublicKey dev_endpoint with
   | Some public_key => [public_key]
   | None => []
   end ++
   match PublicKeys dev_endpoint with
   | Some public_keys => List.filter (fun public_key => str_in notebook_name public_key) public_keys
   | None => []
   end)%list.

Definition delete_public_keys_if_has (dev_endpoint_name : string) : M unit :=
  try_except
    (dev_endpoint <- glue_get_dev_endpoint dev_endpoint_name ;;
     delete_public_keys dev_endpoint_name (public_keys_to_delete dev_endpoint))
    is_Exception
    (fun _ =>
       logger ERROR ("Failed to delete Public Keys from dev_endpoint=" +:+ dev_endpoint_name)).

Definition has_public_key (dev_endpoint : DevEndpoint) : M bool :=
  current_public_key <- get_public_key ;;
  if match PublicKey dev_endpoint with
     | Some public_key => str_in current_public_key public_key
     | None => false
     end
  then ret true
  else
    match PublicKeys dev_endpoint with
    | Some public_keys => ret (existsb (fun public_key => str_in current_public_key public_key) public_keys)
    | None => ret false
    end.

Definition is_dev_endpoint_connected : M bool :=
  try_except
    (requests_get LIVY_PING_TIMEOUT_IN_SEC ;; ret true)
    is_ConnectionError
    (fun _ => ret false).

Definition is_dev_endpoint_updating (dev_endpoint : DevEndpoint) : bool :=
  match LastUpdateStatus dev_endpoint with
  | Some status => negb (String.eqb status COMPLETED) && negb (String.eqb status FAILED)
  | None => false
  end.

Definition update_connection_tag (tag_value : string) : M unit :=
  try_except
    (sagemaker_add_tags notebook_arn "aws-glue-dev-endpoint-connection" tag_value)
    is_Exception
    (fun _ => logger ERROR ("Failed to update connection tag to " +:+ tag_value)).

Definition connect_dev_endpoint (dev_endpoint_name : string) : M unit :=
  logger INFO ("Connecting to dev_endpoint=" +:+ dev_endpoint_name) ;;
  delete_public_keys_if_has dev_endpoint_name ;;
  generate_ssh_keypair ;;
  add_public_key dev_endpoint_name ;;
  start_autossh ;;
  logger INFO ("Waiting " +:+ pretty LIVY_PING_TIMEOUT_IN_SEC +:+ " seconds for tunnel ready") ;;
  time_sleep LIVY_PING_TIMEOUT_IN_SEC ;;
  ping_livy ;;
  save_current_dev_endpoint dev_endpoint_name ;;
  update_connection_tag "ready" ;;
  logger INFO ("Connected to dev_endpoint=" +:+ dev_endpoint_name).

Definition disconnect_dev_endpoint (dev_endpoint_name : string) : M unit :=
  logger INFO ("Disconnecting from dev_endpoint=" +:+ dev_endpoint_name) ;;
  delete_public_keys_if_has dev_endpoint_name ;;
  stop_autossh ;;
  update_connection_tag "disconnected" ;;
  logger INFO ("Disconnected from dev_endpoint=" +:+ dev_endpoint_name).

(** The tail of [reconnect_dev_endpoint], reached when the key is absent or
    restarting the tunnel did not help. *)
Definition reconnect_fully (public_key_present : bool) (dev_endpoint_name : string) : M unit :=
  (if negb public_key_present then
     logger INFO ("Public Key is not in dev_endpoint=" +:+ dev_endpoint_name
                  +:+ ", reconnecting...")
   else ret tt) ;;
  disconnect_dev_endpoint dev_endpoint_name ;;
  connect_dev_endpoint dev_endpoint_name ;;
  logger INFO ("dev_endpoint=" +:+ dev_endpoint_name +:+ " reconnected now").

Definition reconnect_dev_endpoint (current : option string) : M unit :=
  if negb (truthy_opt current) then
    logger WARNING "current_dev_endpoint absent"
  else
    let dev_endpoint_name := default "" current in
    connected <- is_dev_endpoint_connected ;;
    if negb connected then
      logger WARNING ("dev_endpoint=" +:+ dev_endpoint_name
                      +:+ " disconnected, trying to reconnect...") ;;
      dev_endpoint <- glue_get_dev_endpoint dev_endpoint_name ;;
      if is_dev_endpoint_updating dev_endpoint then
        logger WARNING ("dev_endpoint=" +:+ dev_endpoint_name
                        +:+ " is updating, re-check in next round")
      else
        public_key_present <- has_public_key dev_endpoint ;;
        if (public_key_present : bool) then
          logger INFO ("Public Key is in dev_endpoint=" +:+ dev_endpoint_name
                       +:+ ", restarting autossh...") ;;
          stop_autossh ;;
          start_autossh ;;
          reconnected <- is_dev_endpoint_connected ;;
          if (reconnected : bool) then
            logger INFO ("dev_endpoint=" +:+ dev_endpoint_name +:+ " reconnected now")
          else
            logger WARNING ("dev_endpoint=" +:+ dev_endpoint_name
                            +:+ " still disconnected after restarting autossh, reconnecting...") ;;
            reconnect_fully public_key_present dev_endpoint_name
        else
          reconnect_fully public_key_present dev_endpoint_name
    else
      logger INFO ("dev_endpoint=" +:+ dev_endpoint_name +:+ " is connected").

(** The [try] block of one [reconnect_daemon] iteration. *)
Definition reconnect_daemon_tick : M unit :=
  current_dev_endpoint <- get_current_dev_endpoint ;;
  reconnect_dev_endpoint current_dev_endpoint.

(** The body of the [while] of [reconnect_daemon]; the result is the new
    [failed_count]. *)
Definition reconnect_daemon_iteration (failed_count : nat) : M nat :=
  logger INFO "reconnect_daemon checking" ;;
  failed_count <-
    try_except
      (reconnect_daemon_tick ;; ret 0%nat)
      is_Exception
      (fun _ =>
         let failed_count := (failed_count + 1)%nat in
         logger ERROR ("reconnect_daemon failed_count=" +:+ pretty failed_count) ;;
         ret failed_count) ;;
  time_sleep RECONNECT_INTERVAL_IN_SEC ;;
  ret failed_count.

Fixpoint reconnect_daemon_loop (fuel : nat) (failed_count : nat) : M nat :=
  if int_lt_float failed_count RECONNECT_MAX_FAIL_COUNT then
    match fuel with
    | O => diverge
    | S fuel' =>
        failed_count <- reconnect_daemon_iteration failed_count ;;
        reconnect_daemon_loop fuel' failed_count
    end
  else ret failed_count.

(** [fuel] is the number of iterations the daemon is given; the Python loop
    has no such bound. *)
Definition reconnect_daemon (fuel : nat) : M unit :=
  logger INFO "reconnect_daemon started" ;;
  failed_count <- reconnect_daemon_loop fuel 0%nat ;;
  logger ERROR ("reconnect_daemon stopped, failed_count=" +:+ pretty failed_count).

(** The [try] block of one [switch_daemon] iteration. *)
Definition switch_daemon_tick : M unit :=
  current_dev_endpoint <- get_current_dev_endpoint ;;
  latest_dev_endpoint <- get_latest_dev_endpoint ;;
  let is_changed := negb (bool_decide (current_dev_endpoint = Some latest_dev_endpoint)) in
  (if is_changed then
     logger INFO ("dev_endpoint changing from " +:+ show_opt current_dev_endpoint
                  +:+ " to " +:+ latest_dev_endpoint) ;;
     (if truthy_opt current_dev_endpoint then
        remove_dev_endpoint (default "" current_dev_endpoint) ;;
        disconnect_dev_endpoint (default "" current_dev_endpoint)
      else ret tt) ;;
     (if truthy latest_dev_endpoint then
        connect_dev_endpoint latest_dev_endpoint
      else ret tt) ;;
     logger INFO ("dev_endpoint changed from " +:+ show_opt current_dev_endpoint
                  +:+ " to " +:+ latest_dev_endpoint)
   else
     logger INFO ("dev_endpoint=" +:+ latest_dev_endpoint +:+ " not changed")).

Definition switch_daemon_iteration (failed_count : nat) : M nat :=
  logger INFO "switch_daemon checking" ;;
  failed_count <-
    try_except
      (switch_daemon_tick ;; ret 0%nat)
      is_Exception
      (fun _ =>
         let failed_count := (failed_count + 1)%nat in
         logger ERROR ("switch_daemon failed_count=" +:+ pretty failed_count) ;;
         ret failed_count) ;;
  time_sleep SWITCH_INTERVAL_IN_SEC ;;
  ret failed_count.

Fixpoint switch_daemon_loop (fuel : nat) (failed_count : nat) : M nat :=
  if int_lt_float failed_count SWITCH_MAX_FAIL_COUNT then
    match fuel with
    | O => diverge
    | S fuel' =>
        failed_count <- switch_daemon_iteration failed_count ;;
        switch_daemon_loop fuel' failed_count
    end
  else ret failed_count.

Definition switch_daemon (fuel : nat) : M unit :=
  logger INFO "switch_daemon started" ;;
  failed_count <- switch_daemon_loop fuel 0%nat ;;
  logger ERROR ("switch_daemon stopped, failed_count=" +:+ pretty failed_count).

End Bootstrap.


(** ** bootstrap.py: the functions outside the connection protocol *)

Definition GLUE_ENDPOINT_PATH : string := "/home/ec2-user/glue/glue_endpoint.txt".

(** Whitespace for [str.strip()].  A character of the model is a code point
    below 256; of these, [str.isspace()] holds of tab, line feed, vertical
    tab, form feed, carriage return, the four separators 28-31, space,
    next line (133) and no-break space (160). *)
Definition is_space (c : ascii) : bool :=
  let n := nat_of_ascii c in
  ((9 <=? n) && (n <=? 13) || (28 <=? n) && (n <=? 32)
   || (n =? 133) || (n =? 160))%nat.

Fixpoint lstrip (s : string) : string :=
  match s with
  | String c s' => if is_space c then lstrip s' else s
  | EmptyString => EmptyString
  end.

(** Drops trailing whitespace: a character goes when it is a space and
    nothing is left after it. *)
Fixpoint rstrip (s : string) : string :=
  match s with
  | String c s' =>
      match rstrip s' with
      | EmptyString => if is_space c then EmptyString else String c EmptyString
      | rest => String c rest
      end
  | EmptyString => EmptyString
  end.

(** [s.strip()] *)
Definition strip (s : string) : string := rstrip (lstrip s).

Definition is_line_end (c : ascii) : bool :=
  let n := nat_of_ascii c in ((n =? 10) || (n =? 13))%nat.

(** [file.readline()] on a file just opened in text mode: the first line,
    with its line end (a line feed or a carriage return, read as a line
    feed) when it has one. *)
Fixpoint readline (content : string) : string :=
  match content with
  | String c rest => if is_line_end c then newline else String c (readline rest)
  | EmptyString => EmptyString
  end.

Definition get_glue_endpoint : M string :=
  content <- open_read GLUE_ENDPOINT_PATH ;;
  let result := strip (readline content) in
  if truthy result then ret result
  else raise (ValueError ("Glue endpoint is not set in " +:+ GLUE_ENDPOINT_PATH)).

Definition dev_endpoint_heartbeat (dev_endpoint_name : string) (last_checked_time : Z) : M Z :=
  current_time <- time_time ;;
  if DEV_ENDPOINT_HEARTBEAT_INTERVAL_IN_SEC <? current_time - last_checked_time then
    glue_get_dev_endpoint dev_endpoint_name ;;
    ret current_time
  else ret last_checked_time.

(** ** dev_endpoint_connection_checker.py *)

Module Checker.

Definition LIVY_SERVER_TIMEOUT_IN_SEC : Z := 1800.
Definition LIVY_PING_TIMEOUT_IN_SEC : Z := 5.

(** [print(msg)]: standard output is not part of the world. *)
Definition print (msg : string) : M unit := ret tt.

(** The [while] of [wait_for_livy_connection]; the result tells whether the
    function returned from inside the loop ([true]) or the loop ran out
    ([false]).  [fuel] bounds the number of iterations. *)
Fixpoint wait_for_livy_connection_loop (fuel : nat) (start : Z) : M bool :=
  now <- time_time ;;
  if now - start <? LIVY_SERVER_TIMEOUT_IN_SEC then
    match fuel with
    | O => diverge
    | S fuel' =>
        connected <-
          try_except
            (requests_get LIVY_PING_TIMEOUT_IN_SEC ;;
             print "Livy connection OK" ;;
             ret true)
            is_ConnectionError
            (fun _ =>
               print ("Livy connection failed, sleeping for "
                      +:+ pretty LIVY_PING_TIMEOUT_IN_SEC +:+ " seconds.") ;;
               time_sleep LIVY_PING_TIMEOUT_IN_SEC ;;
               ret false) ;;
        if (connected : bool) then ret true
        else wait_for_livy_connection_loop fuel' start
    end
  else ret false.

(** Every failed attempt sleeps [LIVY_PING_TIMEOUT_IN_SEC] seconds at
    least, so the timeout allows this many of them at most. *)
Definition wait_fuel : nat :=
  Z.to_nat (LIVY_SERVER_TIMEOUT_IN_SEC / LIVY_PING_TIMEOUT_IN_SEC).

Definition wait_for_livy_connection : M unit :=
  print "Waiting for livy connection" ;;
  start <- time_time ;;
  connected <- wait_for_livy_connection_loop wait_fuel start ;;
  if (connected : bool) then ret tt
  else
    let error_msg := "Livy connection timeout after "
                     +:+ pretty LIVY_SERVER_TIMEOUT_IN_SEC +:+ " seconds" in
    print error_msg ;;
    print "Please follow below approaches to debug failure reason" ;;
    raise (ValueError error_msg).

End Checker.
(** * Vocabulary of the statements *)

(** The world after the actions [t] (newest first) were taken from [w]. *)
Fixpoint replay (t : list event) (w : World) : World :=
  match t with
  | [] => w
  | e :: t' => perform e (replay t' w)
  end.

(** Actions that change the file [p]. *)
Definition touches (p : string) (e : event) : bool :=
  match e with
  | EvWrite q _ | EvRemove q => String.eqb q p
  | EvKeygen q _ true => String.eqb q p || String.eqb (q +:+ ".pub") p
  | _ => false
  end.

Definition is_probe (e : event) : bool :=
  match e with EvProbe _ _ => true | _ => false end.

Definition is_glue_call (e : event) : bool :=
  match e with EvGetDevEndpoint _ | EvUpdateDevEndpoint _ _ _ _ => true | _ => false end.

Definition is_update (e : event) : bool :=
  match e with EvUpdateDevEndpoint _ _ _ _ => true | _ => false end.

(** The seconds an action asks to sleep, and the time slept in a run of
    actions. *)
Definition sleep_of (e : event) : Z :=
  match e with EvSleep seconds => seconds | _ => 0 end.

Definition time_slept (t : list event) : Z :=
  foldr (fun e total => sleep_of e + total) 0 t.

(** [sat P m]: from every world, [m] comes to an end (it returns or raises)
    and all it does to the world is a run of actions that satisfy [P]. *)
Definition sat (P : event -> Prop) {A} (m : M A) : Prop :=
  forall w, fst (m w) <> Diverge /\
            exists t, snd (m w) = replay t w /\ Forall P t.

(** The footprint that allows every action: [sat anything m] only says that
    [m] comes to an end. *)
Definition anything (e : event) : Prop := True.

(** The guards of the two [while] loops, on the integers. *)
Definition RECONNECT_THRESHOLD : nat := Z.to_nat 576.
Definition SWITCH_THRESHOLD : nat := Z.to_nat 5760.

(** What it is for a daemon loop to carry on after an iteration that left
    the count [failed_count'] and the world [w'], where [outcome] is what
    the loop comes to when it is given [fuel] more iterations and [guard]
    is its [while] condition on [failed_count']: no exception gets out of
    the loop; all it does comes after [w']; if the condition holds and an
    iteration is allowed, the next thing it does is to log the start of the
    next tick; if the condition fails, it does nothing more and returns
    the count. *)
Definition carries_on (guard : bool) (checking : string) (fuel : nat)
    (failed_count' : nat) (w' : World) (outcome : result nat * World) : Prop :=
  (forall e, fst outcome <> Raise e) /\
  exists t, snd outcome = replay t w' /\
    if guard then
      fuel <> 0%nat -> exists t', t = (t' ++ [EvLog INFO checking])%list
    else t = [] /\ fst outcome = Ok failed_count'.

(** The state of the [switch_daemon] loop between two iterations:
    [failed_count] and the world. *)
Definition switch_daemon_step arn nb (s : nat * World) : nat * World :=
  match switch_daemon_iteration arn nb (fst s) (snd s) with
  | (Ok failed_count, w') => (failed_count, w')
  | (_, w') => (fst s, w')
  end.

(** The state after [n] iterations. *)
Definition switch_daemon_run arn nb (n : nat) (s : nat * World) : nat * World :=
  Nat.iter n (switch_daemon_step arn nb) s.

(** The next [n] ticks all raise. *)
Fixpoint switch_ticks_fail arn nb (n : nat) (s : nat * World) : bool :=
  match n with
  | O => true
  | S n' =>
      is_raise (fst (switch_daemon_tick arn nb (snd (logger INFO "switch_daemon checking" (snd s)))))
      && switch_ticks_fail arn nb n' (switch_daemon_step arn nb s)
  end.

(** The state in which [switch_daemon] enters its loop. *)
Definition switch_daemon_start (w : World) : nat * World :=
  (0%nat, snd (logger INFO "switch_daemon started" w)).

(** ** Sample worlds *)

(** A healthy setting: Livy answers, the endpoint [epA] reports
    [COMPLETED], no call fails. *)
Definition healthy_oracle : Oracle :=
  mkOracle (fun _ => LivyResponse) (fun _ => Some COMPLETED)
           (fun _ => false) (fun _ => false) (fun k => "AAAAB3NzaC1yc2E" +:+ pretty k)
           (fun _ => 0%N).

Definition sample_endpoints : gmap string RemoteEndpoint :=
  {[ "epA" := mkRemoteEndpoint None None (Some "10.0.0.1") None ]}.

Definition world_of (o : Oracle) (files : gmap string string) : World :=
  mkWorld o 0 files ∅ ∅ ∅ sample_endpoints [("aws-glue-dev-endpoint", "epA")]
          false 0 0 0 0 0 [].

Definition healthy_world : World := world_of healthy_oracle ∅.

(** The SageMaker API is down: every [list_tags] raises. *)
Definition outage_world : World :=
  world_of (mkOracle (fun _ => LivyResponse) (fun _ => Some COMPLETED)
                     (fun _ => false) (fun _ => true) (fun _ => "AAAAB3NzaC1yc2E") (fun _ => 0%N)) ∅.

(** ** Kinds of actions *)

(** Actions that change something outside the log: remote updates, tag
    writes, commands run, files changed. *)
Definition is_mutating (e : event) : bool :=
  match e with
  | EvUpdateDevEndpoint _ _ _ _ | EvAddTags _ _ _ | EvSubprocess _
  | EvWrite _ _ | EvRemove _ | EvMkdir _ | EvChmod _ | EvKeygen _ _ _ => true
  | _ => false
  end.

(** The actions of [wait_dev_endpoint_ready]. *)
Definition wait_event (e : event) : bool :=
  match e with
  | EvLog _ _ | EvSleep _ | EvGetDevEndpoint _ => true
  | _ => false
  end.

(** The Glue API answers every call, and no update of an endpoint fails. *)
Definition glue_healthy (o : Oracle) : Prop :=
  (forall k, glue_fault o k = false) /\ (forall k, glue_status o k <> Some FAILED).

(** [needle] occurs in [hay]. *)
Definition substring_of (needle hay : string) : Prop :=
  exists before after, hay = before +:+ needle +:+ after.

(** The binding file exists but cannot be read or written. *)
Definition unreadable_binding_world : World :=
  mkWorld healthy_oracle 0
          {[ CURRENT_DEV_ENDPOINT_PATH := "epA" ]} ∅
          {[ CURRENT_DEV_ENDPOINT_PATH; SSH_KEY_PUBLIC_PATH; AUTO_SSH_HOST_PATH ]} ∅
          sample_endpoints [("aws-glue-dev-endpoint", "epA")] true 0 0 0 0 0 [].

(** The notebook [nb] holds a fresh key pair; the endpoint still carries the
    public key of an earlier pair of the same notebook. *)
Definition old_key : string := public_key_line "AAAAold" "nb".
Definition new_key : string := public_key_line "AAAAnew" "nb".

Definition rotated_world : World :=
  world_of healthy_oracle {[ SSH_KEY_PUBLIC_PATH := new_key ]}.

Definition stale_endpoint : DevEndpoint :=
  mkDevEndpoint None (Some [old_key]) (Some COMPLETED) (Some "10.0.0.1") None.

(** An endpoint created with a foreign key in its singular [PublicKey]. *)
Definition foreign_key : string := public_key_line "AAAAforeign" "somebody-else".

Definition foreign_key_world : World :=
  mkWorld healthy_oracle 0 ∅ ∅ ∅ ∅
          {[ "epA" := mkRemoteEndpoint (Some foreign_key) (Some [foreign_key; old_key])
                        (Some "10.0.0.1") None ]}
          [("aws-glue-dev-endpoint", "epA")] false 0 0 0 0 0 [].

(** The actions of [delete_public_keys_if_has]: those of the ready-wait,
    and the one update that deletes [del] from [name]. *)
Definition deletion_event (name : string) (del : list string) (e : event) : Prop :=
  wait_event e = true \/ e = EvUpdateDevEndpoint name [] del true.

(** The keys [delete_public_keys_if_has] asks to delete, from what the
    service stores. *)
Definition deleted_keys (nb : string) (r : RemoteEndpoint) : list string :=
  public_keys_to_delete nb
    (mkDevEndpoint (remote_key r) (remote_keys r) None
                   (remote_private_address r) (remote_public_address r)).

(** All the keys registered on an endpoint. *)
Definition registered_keys (r : RemoteEndpoint) : list string :=
  (match remote_key r with Some k => [k] | None => [] end
   ++ default [] (remote_keys r))%list.

(** ** The polls of the ready-wait *)

(** A status that keeps [wait_dev_endpoint_ready] polling: present, and
    neither [COMPLETED] nor [FAILED]. *)
Definition still_updating (status : option string) : bool :=
  match status with
  | Some s => negb (String.eqb s COMPLETED) && negb (String.eqb s FAILED)
  | None => false
  end.

(** The world after one poll: the log line, the sleep, the describe call. *)
Definition poll_world (name : string) (w : World) : World :=
  replay [EvGetDevEndpoint name;
          EvSleep WAIT_DEV_ENDPOINT_READY_INTERVAL_IN_SEC;
          EvLog INFO ("Waiting dev_endpoint=" +:+ name +:+ " ready")] w.

(** The world after [n] polls. *)
Fixpoint wait_polls (n : nat) (name : string) (w : World) : World :=
  match n with
  | O => w
  | S n' => poll_world name (wait_polls n' name w)
  end.

(** From the next describe call on, the status changes to [final] after
    [n] polls that see [PENDING]. *)
Definition status_after (n : nat) (final : option string) : Oracle :=
  mkOracle (fun _ => LivyResponse)
           (fun k => if (k <? n)%nat then Some "PENDING" else final)
           (fun _ => false) (fun _ => false) (fun _ => "AAAAB3NzaC1yc2E") (fun _ => 0%N).

(** The same oracle, with every action taking [seconds] seconds. *)
Definition slow (seconds : N) (o : Oracle) : Oracle :=
  mkOracle (livy o) (glue_status o) (glue_fault o) (sm_fault o) (keygen o)
           (fun _ => seconds).

(** ** The parts of connect *)

(** [connect_dev_endpoint] up to the liveness probe: revoke, rotate the
    key, register, start the tunnel, let it settle. *)
Definition connect_prefix (nb dev_endpoint_name : string) : M unit :=
  logger INFO ("Connecting to dev_endpoint=" +:+ dev_endpoint_name) ;;
  delete_public_keys_if_has nb dev_endpoint_name ;;
  generate_ssh_keypair nb ;;
  add_public_key dev_endpoint_name ;;
  start_autossh ;;
  logger INFO ("Waiting " +:+ pretty LIVY_PING_TIMEOUT_IN_SEC +:+ " seconds for tunnel ready") ;;
  time_sleep LIVY_PING_TIMEOUT_IN_SEC.

(** [connect_dev_endpoint] after the liveness probe. *)
Definition connect_suffix (arn dev_endpoint_name : string) : M unit :=
  save_current_dev_endpoint dev_endpoint_name ;;
  update_connection_tag arn "ready" ;;
  logger INFO ("Connected to dev_endpoint=" +:+ dev_endpoint_name).

Definition is_tag_write (e : event) : bool :=
  match e with EvAddTags _ _ _ => true | _ => false end.

(** Actions that leave the binding file, the probe count and the notebook
    tags alone. *)
Definition quiet (e : event) : bool :=
  negb (touches CURRENT_DEV_ENDPOINT_PATH e) && negb (is_probe e) && negb (is_tag_write e).

(** The exception of a failed probe. *)
Definition probe_exn (o : livy_outcome) : exn :=
  match o with LivyRefused => ConnectionError | _ => RequestException end.

(** Livy refuses the connection; everything else is healthy. *)
Definition refused_world : World :=
  world_of (mkOracle (fun _ => LivyRefused) (fun _ => Some COMPLETED)
                     (fun _ => false) (fun _ => false) (fun _ => "AAAAB3NzaC1yc2E") (fun _ => 0%N)) ∅.

(** ** The parts of a switch *)

(** [disconnect_dev_endpoint] after its first log line. *)
Definition disconnect_after_log arn nb (dev_endpoint_name : string) : M unit :=
  delete_public_keys_if_has nb dev_endpoint_name ;;
  stop_autossh ;;
  update_connection_tag arn "disconnected" ;;
  logger INFO ("Disconnected from dev_endpoint=" +:+ dev_endpoint_name).

(** The switch tick after the disconnect of the old endpoint. *)
Definition switch_after_disconnect arn nb (current latest : string) : M unit :=
  (if truthy latest then connect_dev_endpoint arn nb latest else ret tt) ;;
  logger INFO ("dev_endpoint changed from " +:+ show_opt (Some current)
               +:+ " to " +:+ latest).

(** The action that clears the binding. *)
Definition is_unbind (e : event) : bool :=
  match e with
  | EvRemove path => String.eqb path CURRENT_DEV_ENDPOINT_PATH
  | _ => false
  end.

(** What a switch tick does before it calls disconnect (newest first). *)
Definition switch_before_disconnect (current latest : string) : list event :=
  [EvLog INFO ("Removed current_dev_endpoint=" +:+ current);
   EvRemove CURRENT_DEV_ENDPOINT_PATH;
   EvLog INFO ("Removing current_dev_endpoint=" +:+ current);
   EvLog INFO ("dev_endpoint changing from " +:+ show_opt (Some current)
               +:+ " to " +:+ latest);
   EvListTags;
   EvRead CURRENT_DEV_ENDPOINT_PATH].

(** The notebook is bound to [epA] and its tag now names [epB]. *)
Definition switching_world : World :=
  mkWorld healthy_oracle 0
          {[ CURRENT_DEV_ENDPOINT_PATH := "epA" ]} ∅ ∅ ∅
          sample_endpoints [("aws-glue-dev-endpoint", "epB")] true 0 0 0 0 0 [].

(** ** The parts of connect around the key rotation *)

(** [connect_dev_endpoint] up to and including the new key pair. *)
Definition connect_until_keygen (nb dev_endpoint_name : string) : M unit :=
  logger INFO ("Connecting to dev_endpoint=" +:+ dev_endpoint_name) ;;
  delete_public_keys_if_has nb dev_endpoint_name ;;
  generate_ssh_keypair nb.

(** [connect_dev_endpoint] from the registration of the new key to the
    liveness probe. *)
Definition connect_after_keygen (dev_endpoint_name : string) : M unit :=
  add_public_key dev_endpoint_name ;;
  start_autossh ;;
  logger INFO ("Waiting " +:+ pretty LIVY_PING_TIMEOUT_IN_SEC +:+ " seconds for tunnel ready") ;;
  time_sleep LIVY_PING_TIMEOUT_IN_SEC ;;
  ping_livy.

(** The tail of [generate_ssh_keypair], after [ssh-keygen] has run. *)
Definition after_ssh_keygen (output : string) : M unit :=
  logger INFO output ;;
  os_chmod SSH_KEY_PRIVATE_PATH ;;
  public_key <- get_public_key ;;
  logger INFO ("Generated SSH keypair " +:+ public_key).

(** [disconnect_dev_endpoint] after the keys were deleted. *)
Definition disconnect_after_keys arn (dev_endpoint_name : string) : M unit :=
  stop_autossh ;;
  update_connection_tag arn "disconnected" ;;
  logger INFO ("Disconnected from dev_endpoint=" +:+ dev_endpoint_name).

(** Actions that change some file. *)
Definition changes_files (e : event) : bool :=
  match e with
  | EvWrite _ _ | EvRemove _ | EvKeygen _ _ true => true
  | _ => false
  end.

(** * Vocabulary of the further properties *)

(** The actions of the key deletion: those of the ready-wait, and updates
    of the endpoint. *)
Definition glue_event (e : event) : bool := wait_event e || is_update e.

Definition is_keygen (e : event) : bool :=
  match e with EvKeygen _ _ _ => true | _ => false end.

Definition is_subprocess (e : event) : bool :=
  match e with EvSubprocess _ => true | _ => false end.

(** All the characters of a string are whitespace. *)
Fixpoint all_space (s : string) : bool :=
  match s with
  | String c s' => is_space c && all_space s'
  | EmptyString => true
  end.

(** The tunnel-target file is missing: the notebook has lost
    [autossh.host] while bound to [epA]. *)
Definition hostless_world : World :=
  mkWorld healthy_oracle 0
          {[ CURRENT_DEV_ENDPOINT_PATH := "epA" ]} ∅ ∅ ∅
          sample_endpoints [("aws-glue-dev-endpoint", "epA")] true 0 0 0 0 0 [].

(** The private key is there and its public half is gone. *)
Definition half_key_world : World :=
  mkWorld healthy_oracle 0
          {[ SSH_KEY_PRIVATE_PATH := "AAAAold" ]} {[ SSH_KEY_DIR ]} ∅ ∅
          sample_endpoints [("aws-glue-dev-endpoint", "epA")] false 0 0 0 0 0 [].

(** A file of settings whose first line is blank. *)
Definition blank_first_line_world : World :=
  world_of healthy_oracle
    {[ GLUE_ENDPOINT_PATH := "   " +:+ newline +:+ "https://glue.example" ]}.

Definition glue_endpoint_world : World :=
  world_of healthy_oracle
    {[ GLUE_ENDPOINT_PATH := "  https://glue.example " +:+ newline +:+ "ignored" ]}.

(** [add_public_key] up to the describe call that follows the
    registration; the result is the endpoint it describes. *)
Definition add_public_key_register (dev_endpoint_name : string) : M DevEndpoint :=
  public_key <- get_public_key ;;
  wait_dev_endpoint_ready dev_endpoint_name ;;
  logger INFO ("Adding public_key=" +:+ public_key +:+ " to dev_endpoint="
               +:+ dev_endpoint_name) ;;
  glue_update_dev_endpoint dev_endpoint_name [public_key] [] ;;
  wait_dev_endpoint_ready dev_endpoint_name ;;
  logger INFO ("Added public_key=" +:+ public_key +:+ " to dev_endpoint="
               +:+ dev_endpoint_name) ;;
  glue_get_dev_endpoint dev_endpoint_name.

(** The rest of [add_public_key]: choose the address and save it for the
    tunnel. *)
Definition add_public_key_save (dev_endpoint_name : string) (dev_endpoint : DevEndpoint)
    : M unit :=
  logger INFO ("Dev endpoint details are " +:+ show_dev_endpoint dev_endpoint) ;;
  typed_address <-
    match PrivateAddress dev_endpoint with
    | Some address => ret ("PrivateAddress", address)
    | None =>
        match PublicAddress dev_endpoint with
        | Some address => ret ("PublicAddress", address)
        | None => raise (KeyError "PublicAddress")
        end
    end ;;
  let dev_endpoint_type : string := fst typed_address in
  let dev_endpoint_address : string := snd typed_address in
  logger INFO ("Saving dev_endpoint=" +:+ dev_endpoint_name +:+ " " +:+ dev_endpoint_type
               +:+ " " +:+ dev_endpoint_address +:+ " to " +:+ AUTO_SSH_HOST_PATH) ;;
  open_write AUTO_SSH_HOST_PATH dev_endpoint_address ;;
  logger INFO ("Saved dev_endpoint=" +:+ dev_endpoint_name +:+ " " +:+ dev_endpoint_type
               +:+ " " +:+ dev_endpoint_address +:+ " to " +:+ AUTO_SSH_HOST_PATH).

(** The address [add_public_key] chooses for the tunnel. *)
Definition tunnel_address (r : RemoteEndpoint) : option string :=
  match remote_private_address r with
  | Some address => Some address
  | None => remote_public_address r
  end.

(** Reads and Glue actions. *)
Definition register_event (e : event) : bool :=
  glue_event e || match e with EvRead _ => true | _ => false end.

(** The notebook holds a key pair; [epA] has both addresses, [epP] only a
    public one, [epN] none. *)
Definition keyed_world : World :=
  mkWorld healthy_oracle 0
          {[ SSH_KEY_PUBLIC_PATH := new_key ]} ∅ ∅ ∅
          {[ "epA" := mkRemoteEndpoint None None (Some "10.0.0.1") (Some "203.0.113.7");
             "epP" := mkRemoteEndpoint None None None (Some "203.0.113.8");
             "epN" := mkRemoteEndpoint None None None None ]}
          [("aws-glue-dev-endpoint", "epA")] false 0 0 0 0 0 [].

(** The same notebook on a full disk: the tunnel-target file opens for
    writing and then takes no text. *)
Definition keyed_full_disk_world : World :=
  mkWorld healthy_oracle 0
          {[ SSH_KEY_PUBLIC_PATH := new_key; AUTO_SSH_HOST_PATH := "10.0.0.9" ]}
          ∅ ∅ {[ AUTO_SSH_HOST_PATH ]}
          {[ "epA" := mkRemoteEndpoint None None (Some "10.0.0.1") (Some "203.0.113.7") ]}
          [("aws-glue-dev-endpoint", "epA")] false 0 0 0 0 0 [].

(** The endpoint [epA] is stuck in [FAILED]. *)
Definition failed_world : World :=
  mkWorld (status_after 0 (Some FAILED)) 0 ∅ ∅ ∅ ∅
          {[ "epA" := mkRemoteEndpoint None (Some [old_key]) (Some "10.0.0.1") None ]}
          [("aws-glue-dev-endpoint", "epA")] false 0 0 0 0 0 [].

(** Actions that leave the binding file with the content [c]: they do not
    touch it, or they write [c] to it. *)
Definition keeps_binding (c : string) (e : event) : Prop :=
  touches CURRENT_DEV_ENDPOINT_PATH e = false \/ e = EvWrite CURRENT_DEV_ENDPOINT_PATH c.

(** Actions that leave the binding file with the content [c] or empty:
    the write of [c] may fail after [open] has truncated the file. *)
Definition keeps_or_empties_binding (c : string) (e : event) : Prop :=
  keeps_binding c e \/ e = EvWrite CURRENT_DEV_ENDPOINT_PATH "".

(** [sat_from I P m]: as [sat P m], from the worlds that satisfy [I]. *)
Definition sat_from (I : World -> Prop) (P : event -> Prop) {A} (m : M A) : Prop :=
  forall w, I w -> fst (m w) <> Diverge /\
                   exists t, snd (m w) = replay t w /\ Forall P t.

(** The binding file takes the text written to it. *)
Definition binding_writable (w : World) : Prop :=
  CURRENT_DEV_ENDPOINT_PATH ∉ write_faulty w.


(** The tunnel is down although the notebook is bound to [epA], whose
    registered keys include the notebook's; restarting the tunnel helps. *)
Definition tunnel_down_world : World :=
  mkWorld (mkOracle (fun k => if (k =? 0)%nat then LivyRefused else LivyResponse)
                    (fun _ => Some COMPLETED) (fun _ => false) (fun _ => false)
                    (fun _ => "AAAAB3NzaC1yc2E") (fun _ => 0%N))
          0
          {[ CURRENT_DEV_ENDPOINT_PATH := "epA";
             SSH_KEY_PUBLIC_PATH := new_key;
             AUTO_SSH_HOST_PATH := "10.0.0.1" ]} ∅ ∅ ∅
          {[ "epA" := mkRemoteEndpoint None (Some [old_key; new_key]) (Some "10.0.0.1") None ]}
          [("aws-glue-dev-endpoint", "epA")] true 0 0 0 0 0 [].

(** Livy is refusing and the endpoint is being updated by someone else. *)
Definition updating_world : World :=
  mkWorld (mkOracle (fun _ => LivyRefused) (fun _ => Some "PENDING")
                    (fun _ => false) (fun _ => false) (fun _ => "AAAAB3NzaC1yc2E") (fun _ => 0%N))
          0 {[ CURRENT_DEV_ENDPOINT_PATH := "epA" ]} ∅ ∅ ∅
          sample_endpoints [("aws-glue-dev-endpoint", "epA")] true 0 0 0 0 0 [].

(** The probe times out while reading, which is not a refused connection. *)
Definition timeout_world : World :=
  mkWorld (mkOracle (fun _ => LivyOtherError) (fun _ => Some COMPLETED)
                    (fun _ => false) (fun _ => false) (fun _ => "AAAAB3NzaC1yc2E") (fun _ => 0%N))
          0 {[ CURRENT_DEV_ENDPOINT_PATH := "epA" ]} ∅ ∅ ∅
          sample_endpoints [("aws-glue-dev-endpoint", "epA")] true 0 0 0 0 0 [].

(** ** The reconnect daemon between two iterations *)

Definition reconnect_daemon_step arn nb (s : nat * World) : nat * World :=
  match reconnect_daemon_iteration arn nb (fst s) (snd s) with
  | (Ok failed_count, w') => (failed_count, w')
  | (_, w') => (fst s, w')
  end.

Definition reconnect_daemon_run arn nb (n : nat) (s : nat * World) : nat * World :=
  Nat.iter n (reconnect_daemon_step arn nb) s.

(** The next [n] reconnect ticks all raise. *)
Fixpoint reconnect_ticks_fail arn nb (n : nat) (s : nat * World) : bool :=
  match n with
  | O => true
  | S n' =>
      is_raise (fst (reconnect_daemon_tick arn nb
                       (snd (logger INFO "reconnect_daemon checking" (snd s)))))
      && reconnect_ticks_fail arn nb n' (reconnect_daemon_step arn nb s)
  end.

Definition reconnect_daemon_start (w : World) : nat * World :=
  (0%nat, snd (logger INFO "reconnect_daemon started" w)).

(** The notebook's tag is gone while it is bound to [epA]. *)
Definition untagged_world : World :=
  mkWorld healthy_oracle 0
          {[ CURRENT_DEV_ENDPOINT_PATH := "epA" ]} ∅ ∅ ∅
          sample_endpoints [("aws-glue-dev-endpoint-connection", "ready")] true 0 0 0 0 0 [].

(** The notebook is bound to [epA], which its tag names. *)
Definition settled_world : World :=
  mkWorld healthy_oracle 0
          {[ CURRENT_DEV_ENDPOINT_PATH := "epA" ]} ∅ ∅ ∅
          sample_endpoints [("aws-glue-dev-endpoint", "epA")] true 0 0 0 0 0 [].

(** [k] refused attempts of the checker, newest first: each is a probe and
    the sleep that follows it. *)
Fixpoint refused_attempts (k : nat) : list event :=
  match k with
  | O => []
  | S k' =>
      (refused_attempts k'
       ++ [EvSleep Checker.LIVY_PING_TIMEOUT_IN_SEC;
           EvProbe Checker.LIVY_PING_TIMEOUT_IN_SEC LivyRefused])%list
  end.

(** What the checker returns for the outcome of the probe that ends its
    wait. *)
Definition checker_result (o : livy_outcome) : result unit :=
  match o with
  | LivyResponse => Ok tt
  | LivyRefused => Raise ConnectionError
  | LivyOtherError => Raise RequestException
  end.

(** Livy refuses three connections and then answers. *)
Definition slow_start_world : World :=
  world_of (mkOracle (fun k => if (k <? 3)%nat then LivyRefused else LivyResponse)
                     (fun _ => Some COMPLETED) (fun _ => false) (fun _ => false)
                     (fun _ => "AAAAB3NzaC1yc2E") (fun _ => 0%N)) ∅.

(** The same server behind a slow network: every action takes 10 seconds. *)
Definition slow_refusing_world : World :=
  world_of (slow 10 (oracle refused_world)) ∅.

(** The disk is full: the binding file opens for writing and then takes no
    text.  The notebook is bound to [epA] and everything else is healthy. *)
Definition full_disk_world : World :=
  mkWorld healthy_oracle 0
          {[ CURRENT_DEV_ENDPOINT_PATH := "epA" ]} ∅ ∅ {[ CURRENT_DEV_ENDPOINT_PATH ]}
          sample_endpoints [("aws-glue-dev-endpoint", "epA")] true 0 0 0 0 0 [].

(** The disk is full and the tunnel is down, on an endpoint that has lost
    the notebook's key: the reconnect tick goes through a full disconnect
    and connect. *)
Definition full_disk_tunnel_down_world : World :=
  mkWorld (oracle tunnel_down_world) 0
          {[ CURRENT_DEV_ENDPOINT_PATH := "epA";
             SSH_KEY_PUBLIC_PATH := new_key;
             AUTO_SSH_HOST_PATH := "10.0.0.1" ]} ∅ ∅ {[ CURRENT_DEV_ENDPOINT_PATH ]}
          sample_endpoints [("aws-glue-dev-endpoint", "epA")] true 0 0 0 0 0 [].

(** * Reasoning principles *)

(** ** Runs of actions *)

Lemma replay_app t1 t2 w : replay (t1 ++ t2) w = replay t1 (replay t2 w).
Proof. induction t1 as [|e t1 IH]; cbn; [done | by rewrite IH]. Qed.

Lemma trace_perform e w : trace (perform e w) = e :: trace w.
Proof.
  unfold perform. cbn. f_equal.
  destruct e; cbn; try done; repeat case_match; done.
Qed.

Lemma trace_replay t w : trace (replay t w) = (t ++ trace w)%list.
Proof. induction t as [|e t IH]; cbn [replay app]; [done | by rewrite trace_perform, IH]. Qed.

Lemma oracle_perform e w : oracle (perform e w) = oracle w.
Proof. destruct e; cbn; try done; repeat case_match; done. Qed.

Lemma oracle_replay t w : oracle (replay t w) = oracle w.
Proof. induction t as [|e t IH]; cbn [replay]; [done | by rewrite oracle_perform]. Qed.

Lemma io_faulty_perform e w : io_faulty (perform e w) = io_faulty w.
Proof. destruct e; cbn; try done; repeat case_match; done. Qed.

Lemma io_faulty_replay t w : io_faulty (replay t w) = io_faulty w.
Proof. induction t as [|e t IH]; cbn [replay]; [done | by rewrite io_faulty_perform]. Qed.

Lemma write_faulty_perform e w : write_faulty (perform e w) = write_faulty w.
Proof. destruct e; cbn; try done; repeat case_match; done. Qed.

Lemma write_faulty_replay t w : write_faulty (replay t w) = write_faulty w.
Proof. induction t as [|e t IH]; cbn [replay]; [done | by rewrite write_faulty_perform]. Qed.

Lemma fs_perform p e w : touches p e = false -> fs (perform e w) !! p = fs w !! p.
Proof.
  destruct e; cbn; try done.
  - intros H%String.eqb_neq. by rewrite lookup_insert_ne.
  - intros H%String.eqb_neq. by rewrite lookup_delete_ne.
  - destruct ok; cbn; [|done].
    intros [H1%String.eqb_neq H2%String.eqb_neq]%orb_false_elim.
    by rewrite !lookup_insert_ne.
  - repeat case_match; done.
  - by destruct ok.
  - by destruct ok.
Qed.

Lemma fs_replay p t w :
  Forall (fun e => touches p e = false) t -> fs (replay t w) !! p = fs w !! p.
Proof.
  induction 1 as [|e t He _ IH]; cbn [replay]; [done|]. by rewrite fs_perform.
Qed.

Lemma probes_perform e w : is_probe e = false -> probes (perform e w) = probes w.
Proof. destruct e; cbn; try done; repeat case_match; done. Qed.

Lemma probes_replay t w :
  Forall (fun e => is_probe e = false) t -> probes (replay t w) = probes w.
Proof.
  induction 1 as [|e t He _ IH]; cbn [replay]; [done|]. by rewrite probes_perform.
Qed.

Lemma endpoints_perform e w : is_update e = false -> endpoints (perform e w) = endpoints w.
Proof. destruct e; cbn; try done; repeat case_match; done. Qed.

Lemma endpoints_replay t w :
  Forall (fun e => is_update e = false) t -> endpoints (replay t w) = endpoints w.
Proof.
  induction 1 as [|e t He _ IH]; cbn [replay]; [done|]. by rewrite endpoints_perform.
Qed.

(** An action takes the time the oracle gives it, and a sleep its seconds
    on top. *)
Lemma clock_perform e w :
  clock (perform e w)
  = clock w + Z.of_N (duration (oracle w) (actions w)) + sleep_of e.
Proof. destruct e; cbn; try lia; repeat case_match; cbn; lia. Qed.

(** ** Footprints of computations *)

Section Sat.

Context (P : event -> Prop).

Lemma sat_ret {A} (a : A) : sat P (ret a).
Proof. intros w. split; [done|]. by exists []. Qed.

Lemma sat_raise {A} (e : exn) : sat P (@raise A e).
Proof. intros w. split; [done|]. by exists []. Qed.

Lemma sat_bind {A B} (m : M A) (k : A -> M B) :
  sat P m -> (forall a, sat P (k a)) -> sat P (bind m k).
Proof.
  intros Hm Hk w. unfold bind.
  destruct (Hm w) as [Hd (t & Hw & Ht)].
  destruct (m w) as [[a|e|] w1]; cbn in *.
  - destruct (Hk a w1) as [Hd' (t' & Hw' & Ht')]. split; [done|].
    exists (t' ++ t)%list. rewrite replay_app, <- Hw. split; [done|].
    by apply Forall_app.
  - split; [done|]. by exists t.
  - done.
Qed.

Lemma sat_try {A} (m : M A) (c : exn -> bool) (h : exn -> M A) :
  sat P m -> (forall e, sat P (h e)) -> sat P (try_except m c h).
Proof.
  intros Hm Hh w. unfold try_except.
  destruct (Hm w) as [Hd (t & Hw & Ht)].
  destruct (m w) as [[a|e|] w1]; cbn in *.
  - split; [done|]. by exists t.
  - destruct (c e); cbn.
    + destruct (Hh e w1) as [Hd' (t' & Hw' & Ht')]. split; [done|].
      exists (t' ++ t)%list. rewrite replay_app, <- Hw. split; [done|].
      by apply Forall_app.
    + split; [done|]. by exists t.
  - done.
Qed.

(** One action, whatever the result. *)
Lemma sat_perform {A} (r : World -> result A) (e : World -> event) :
  (forall w, r w <> Diverge) -> (forall w, P (e w)) ->
  sat P (fun w => (r w, perform (e w) w)).
Proof.
  intros Hr He w. split; [apply Hr|]. exists [e w]. split; [done|].
  by apply Forall_cons.
Qed.

Lemma sat_logger l msg : P (EvLog l msg) -> sat P (logger l msg).
Proof. intros H w. split; [done|]. exists [EvLog l msg]. by split; [|apply Forall_cons]. Qed.

Lemma sat_time_time : sat P time_time.
Proof. intros w. split; [done|]. by exists []. Qed.

Lemma sat_time_sleep d : P (EvSleep d) -> sat P (time_sleep d).
Proof. intros H w. split; [done|]. exists [EvSleep d]. by split; [|apply Forall_cons]. Qed.

Lemma sat_os_path_exists p : sat P (os_path_exists p).
Proof. intros w. split; [done|]. by exists []. Qed.

Lemma sat_io_fail {A} p : P (EvIOFail p) -> sat P (@io_fail A p).
Proof. intros H w. split; [done|]. exists [EvIOFail p]. by split; [|apply Forall_cons]. Qed.

Lemma sat_open_read p : P (EvRead p) -> P (EvIOFail p) -> sat P (open_read p).
Proof.
  intros H1 H2 w. unfold open_read.
  repeat case_match; try (by apply sat_io_fail).
  split; [done|]. exists [EvRead p]. by split; [|apply Forall_cons].
Qed.

(** A write that fails after [open] has left the file empty. *)
Lemma sat_open_write p c :
  P (EvWrite p c) -> P (EvWrite p "") -> P (EvIOFail p) -> sat P (open_write p c).
Proof.
  intros H1 H2 H3 w. unfold open_write.
  repeat case_match; try (by apply sat_io_fail).
  - split; [done|]. exists [EvIOFail p; EvWrite p ""]. split; [done|].
    by repeat constructor.
  - split; [done|]. exists [EvWrite p c]. by split; [|apply Forall_cons].
Qed.

Lemma sat_os_remove p : P (EvRemove p) -> P (EvIOFail p) -> sat P (os_remove p).
Proof.
  intros H1 H2 w. unfold os_remove.
  repeat case_match; try (by apply sat_io_fail).
  split; [done|]. exists [EvRemove p]. by split; [|apply Forall_cons].
Qed.

Lemma sat_pathlib_mkdir p : P (EvMkdir p) -> P (EvIOFail p) -> sat P (pathlib_mkdir p).
Proof.
  intros H1 H2 w. unfold pathlib_mkdir.
  repeat case_match; try (by apply sat_io_fail).
  split; [done|]. exists [EvMkdir p]. by split; [|apply Forall_cons].
Qed.

Lemma sat_os_chmod p : P (EvChmod p) -> P (EvIOFail p) -> sat P (os_chmod p).
Proof.
  intros H1 H2 w. unfold os_chmod.
  repeat case_match; try (by apply sat_io_fail).
  split; [done|]. exists [EvChmod p]. by split; [|apply Forall_cons].
Qed.

Lemma sat_ssh_keygen p c :
  P (EvKeygen p c true) -> P (EvKeygen p c false) -> sat P (ssh_keygen p c).
Proof.
  intros H1 H2 w. unfold ssh_keygen. case_match; (split; [done|]).
  - exists [EvKeygen p c false]. by split; [|apply Forall_cons].
  - exists [EvKeygen p c true]. by split; [|apply Forall_cons].
Qed.

Lemma sat_subprocess_call args : P (EvSubprocess args) -> sat P (subprocess_call args).
Proof. intros H w. split; [done|]. exists [EvSubprocess args]. by split; [|apply Forall_cons]. Qed.

Lemma sat_requests_get timeout : (forall o, P (EvProbe timeout o)) -> sat P (requests_get timeout).
Proof.
  intros H. unfold requests_get.
  apply (sat_perform (fun w => match livy (oracle w) (probes w) with
                               | LivyResponse => Ok tt
                               | LivyRefused => Raise ConnectionError
                               | LivyOtherError => Raise RequestException
                               end)
                     (fun w => EvProbe timeout (livy (oracle w) (probes w)))).
  - intros w. by case_match.
  - intros w. apply H.
Qed.

Lemma sat_glue_get_dev_endpoint name :
  P (EvGetDevEndpoint name) -> sat P (glue_get_dev_endpoint name).
Proof.
  intros H w. unfold glue_get_dev_endpoint. cbn. split.
  - repeat case_match; done.
  - exists [EvGetDevEndpoint name]. by split; [|apply Forall_cons].
Qed.

Lemma sat_glue_update_dev_endpoint name add del :
  (forall ok, P (EvUpdateDevEndpoint name add del ok)) ->
  sat P (glue_update_dev_endpoint name add del).
Proof.
  intros H w. unfold glue_update_dev_endpoint. cbn. split.
  - by case_match.
  - eexists [_]. split; [done|]. by apply Forall_cons.
Qed.

Lemma sat_sagemaker_list_tags arn : P EvListTags -> sat P (sagemaker_list_tags arn).
Proof.
  intros H w. unfold sagemaker_list_tags. cbn. split.
  - by case_match.
  - exists [EvListTags]. by split; [|apply Forall_cons].
Qed.

Lemma sat_sagemaker_add_tags arn key value :
  (forall ok, P (EvAddTags key value ok)) -> sat P (sagemaker_add_tags arn key value).
Proof.
  intros H w. unfold sagemaker_add_tags. cbn. split.
  - by case_match.
  - eexists [_]. split; [done|]. by apply Forall_cons.
Qed.

End Sat.

Lemma sat_mono (P Q : event -> Prop) {A} (m : M A) :
  (forall e, P e -> Q e) -> sat P m -> sat Q m.
Proof.
  intros HPQ Hm w. destruct (Hm w) as [Hd (t & Hw & Ht)]. split; [done|].
  exists t. split; [done|]. eapply Forall_impl; eauto.
Qed.

(** ** The ready-wait loop comes to an end *)

Lemma wait_dev_endpoint_ready_loop_unfold fuel name start w :
  wait_dev_endpoint_ready_loop fuel name start w =
  if clock w - start <? UPDATE_DEV_ENDPOINT_TIMEOUT_IN_SEC then
    match fuel with
    | O => (Diverge, w)
    | S fuel' =>
        let w1 := perform (EvSleep WAIT_DEV_ENDPOINT_READY_INTERVAL_IN_SEC)
                    (perform (EvLog INFO ("Waiting dev_endpoint=" +:+ name +:+ " ready")) w) in
        match glue_get_dev_endpoint name w1 with
        | (Ok dev_endpoint, w2) =>
            match LastUpdateStatus dev_endpoint with
            | None => (Ok tt, w2)
            | Some status =>
                if String.eqb status COMPLETED then
                  (Ok tt, perform (EvLog INFO ("dev_endpoint=" +:+ name +:+ " ready")) w2)
                else if String.eqb status FAILED then
                  (Raise (ValueError ("LastUpdateStatus is FAILED, dev_endpoint=" +:+ name)), w2)
                else wait_dev_endpoint_ready_loop fuel' name start w2
            end
        | (Raise e, w2) => (Raise e, w2)
        | (Diverge, w2) => (Diverge, w2)
        end
    end
  else
    (Ok tt, perform (EvLog ERROR ("Wait dev_endpoint=" +:+ name +:+ " ready timeout")) w).
Proof.
  destruct fuel; cbn [wait_dev_endpoint_ready_loop]; unfold bind, time_time;
    cbn [fst snd]; case_match; try done.
  unfold logger, time_sleep. cbn zeta.
  destruct (glue_get_dev_endpoint _ _) as [[d| |] w2]; try done.
  destruct (LastUpdateStatus d); [|done].
  repeat case_match; done.
Qed.

(** A poll takes its sleep at least. *)
Lemma clock_after_poll name w :
  clock w + WAIT_DEV_ENDPOINT_READY_INTERVAL_IN_SEC <=
  clock (snd (glue_get_dev_endpoint name
           (perform (EvSleep WAIT_DEV_ENDPOINT_READY_INTERVAL_IN_SEC)
              (perform (EvLog INFO ("Waiting dev_endpoint=" +:+ name +:+ " ready")) w)))).
Proof.
  change (snd (glue_get_dev_endpoint name ?x)) with (perform (EvGetDevEndpoint name) x).
  rewrite !clock_perform. cbn [sleep_of]. lia.
Qed.

Section SatWait.

Context (P : event -> Prop).
Hypothesis P_log : forall l msg, P (EvLog l msg).
Hypothesis P_sleep : forall d, P (EvSleep d).
Hypothesis P_get : forall name, P (EvGetDevEndpoint name).

Lemma sat_wait_dev_endpoint_ready_loop name start fuel : forall w,
  UPDATE_DEV_ENDPOINT_TIMEOUT_IN_SEC - (clock w - start)
    <= WAIT_DEV_ENDPOINT_READY_INTERVAL_IN_SEC * Z.of_nat fuel ->
  fst (wait_dev_endpoint_ready_loop fuel name start w) <> Diverge /\
  exists t, snd (wait_dev_endpoint_ready_loop fuel name start w) = replay t w /\ Forall P t.
Proof.
  induction fuel as [|fuel IH]; intros w Hfuel;
    rewrite wait_dev_endpoint_ready_loop_unfold;
    destruct (clock w - start <? UPDATE_DEV_ENDPOINT_TIMEOUT_IN_SEC) eqn:Hguard.
  - apply Z.ltb_lt in Hguard.
    unfold UPDATE_DEV_ENDPOINT_TIMEOUT_IN_SEC, WAIT_DEV_ENDPOINT_READY_INTERVAL_IN_SEC in *.
    lia.
  - split; [discriminate|]. eexists [_]. split; [reflexivity|]. repeat constructor; auto.
  - cbn zeta.
    pose proof (clock_after_poll name w) as Hclock.
    set (w1 := perform (EvSleep _) _) in *.
    assert (Hw2 : snd (glue_get_dev_endpoint name w1) = replay [EvGetDevEndpoint name] w1)
      by reflexivity.
    destruct (glue_get_dev_endpoint name w1) as [[d|e|] w2] eqn:Hget; cbn [snd] in *.
    + assert (Hbase : w2 = replay [EvGetDevEndpoint name;
                                    EvSleep WAIT_DEV_ENDPOINT_READY_INTERVAL_IN_SEC;
                                    EvLog INFO ("Waiting dev_endpoint=" +:+ name +:+ " ready")] w)
        by (rewrite Hw2; reflexivity).
      assert (Hall : Forall P [EvGetDevEndpoint name;
                               EvSleep WAIT_DEV_ENDPOINT_READY_INTERVAL_IN_SEC;
                               EvLog INFO ("Waiting dev_endpoint=" +:+ name +:+ " ready")])
        by (repeat constructor; auto).
      destruct (LastUpdateStatus d) as [status|].
      * destruct (String.eqb status COMPLETED).
        { split; [discriminate|]. eexists (_ :: _). split; [rewrite Hbase; reflexivity|].
          constructor; auto. }
        destruct (String.eqb status FAILED).
        { split; [discriminate|]. eexists. split; [exact Hbase | exact Hall]. }
        destruct (IH w2) as [Hd (t & Ht & HPt)].
        { unfold UPDATE_DEV_ENDPOINT_TIMEOUT_IN_SEC, WAIT_DEV_ENDPOINT_READY_INTERVAL_IN_SEC in *.
          lia. }
        split; [assumption|]. eexists (t ++ _)%list. rewrite replay_app, <- Hbase.
        split; [assumption|]. apply Forall_app; split; [exact HPt | exact Hall].
      * split; [discriminate|]. eexists. split; [exact Hbase | exact Hall].
    + split; [discriminate|]. eexists [_; _; _]. split; [rewrite Hw2; reflexivity|].
      repeat constructor; auto.
    + exfalso. unfold glue_get_dev_endpoint in Hget. repeat case_match; congruence.
  - split; [discriminate|]. eexists [_]. split; [reflexivity|]. repeat constructor; auto.
Qed.

Lemma sat_wait_dev_endpoint_ready name : sat P (wait_dev_endpoint_ready name).
Proof.
  intros w. unfold wait_dev_endpoint_ready, bind, time_time.
  apply sat_wait_dev_endpoint_ready_loop.
  cbn [fst snd]. change (Z.of_nat wait_fuel) with 120.
  unfold UPDATE_DEV_ENDPOINT_TIMEOUT_IN_SEC, WAIT_DEV_ENDPOINT_READY_INTERVAL_IN_SEC. lia.
Qed.

End SatWait.

(** ** Footprints of the functions of bootstrap.py *)

Ltac head_of t :=
  lazymatch t with
  | ?f _ => head_of f
  | _ => t
  end.

(** Walks through a computation built from the primitives and leaves the
    conditions on the actions it can take. *)
Ltac sat_walk :=
  repeat (intros; lazymatch goal with
    | |- sat _ (bind _ _) => apply sat_bind
    | |- sat _ (try_except _ _ _) => apply sat_try
    | |- sat _ (ret _) => apply sat_ret
    | |- sat _ (raise _) => apply sat_raise
    | |- sat _ (logger _ _) => apply sat_logger
    | |- sat _ time_time => apply sat_time_time
    | |- sat _ (time_sleep _) => apply sat_time_sleep
    | |- sat _ (os_path_exists _) => apply sat_os_path_exists
    | |- sat _ (open_read _) => apply sat_open_read
    | |- sat _ (open_write _ _) => apply sat_open_write
    | |- sat _ (os_remove _) => apply sat_os_remove
    | |- sat _ (pathlib_mkdir _) => apply sat_pathlib_mkdir
    | |- sat _ (os_chmod _) => apply sat_os_chmod
    | |- sat _ (ssh_keygen _ _) => apply sat_ssh_keygen
    | |- sat _ (subprocess_call _) => apply sat_subprocess_call
    | |- sat _ (requests_get _) => apply sat_requests_get
    | |- sat _ (glue_get_dev_endpoint _) => apply sat_glue_get_dev_endpoint
    | |- sat _ (glue_update_dev_endpoint _ _ _) => apply sat_glue_update_dev_endpoint
    | |- sat _ (sagemaker_list_tags _) => apply sat_sagemaker_list_tags
    | |- sat _ (sagemaker_add_tags _ _ _) => apply sat_sagemaker_add_tags
    | |- sat _ (wait_dev_endpoint_ready _) => apply sat_wait_dev_endpoint_ready
    | |- sat _ (if ?b then _ else _) => destruct b
    | |- sat _ (match ?x with _ => _ end) => destruct x
    | |- sat _ (let _ := _ in _) => cbv zeta
    | |- sat _ ?m => let h := head_of m in unfold h
    end).

(** Every function the daemons call in a tick comes to an end. *)
Lemma connect_dev_endpoint_ends arn nb name :
  sat anything (connect_dev_endpoint arn nb name).
Proof. sat_walk; intros; exact I. Qed.

Lemma disconnect_dev_endpoint_ends arn nb name :
  sat anything (disconnect_dev_endpoint arn nb name).
Proof. sat_walk; intros; exact I. Qed.

Lemma reconnect_daemon_tick_ends arn nb : sat anything (reconnect_daemon_tick arn nb).
Proof. sat_walk; intros; exact I. Qed.

Lemma switch_daemon_tick_ends arn nb : sat anything (switch_daemon_tick arn nb).
Proof. sat_walk; intros; exact I. Qed.

(** * The daemons: counted failures and the circuit breaker *)

Lemma reconnect_daemon_iteration_eq arn nb failed_count w :
  reconnect_daemon_iteration arn nb failed_count w =
  match reconnect_daemon_tick arn nb (perform (EvLog INFO "reconnect_daemon checking") w) with
  | (Ok _, w') => (Ok 0%nat, perform (EvSleep RECONNECT_INTERVAL_IN_SEC) w')
  | (Raise _, w') =>
      (Ok (failed_count + 1)%nat,
       perform (EvSleep RECONNECT_INTERVAL_IN_SEC)
         (perform (EvLog ERROR ("reconnect_daemon failed_count=" +:+ pretty (failed_count + 1)%nat)) w'))
  | (Diverge, w') => (Diverge, w')
  end.
Proof.
  unfold reconnect_daemon_iteration, bind, try_except, logger. cbn [fst snd].
  destruct (reconnect_daemon_tick arn nb _) as [[[]|e|] w']; reflexivity.
Qed.

Lemma switch_daemon_iteration_eq arn nb failed_count w :
  switch_daemon_iteration arn nb failed_count w =
  match switch_daemon_tick arn nb (perform (EvLog INFO "switch_daemon checking") w) with
  | (Ok _, w') => (Ok 0%nat, perform (EvSleep SWITCH_INTERVAL_IN_SEC) w')
  | (Raise _, w') =>
      (Ok (failed_count + 1)%nat,
       perform (EvSleep SWITCH_INTERVAL_IN_SEC)
         (perform (EvLog ERROR ("switch_daemon failed_count=" +:+ pretty (failed_count + 1)%nat)) w'))
  | (Diverge, w') => (Diverge, w')
  end.
Proof.
  unfold switch_daemon_iteration, bind, try_except, logger. cbn [fst snd].
  destruct (switch_daemon_tick arn nb _) as [[[]|e|] w']; reflexivity.
Qed.

Lemma reconnect_guard n :
  int_lt_float n RECONNECT_MAX_FAIL_COUNT = (n <? RECONNECT_THRESHOLD)%nat.
Proof.
  unfold int_lt_float, Qltb.
  change (Qnum RECONNECT_MAX_FAIL_COUNT) with 172800.
  change (QDen RECONNECT_MAX_FAIL_COUNT) with 300.
  cbn [Qnum Qden inject_Z].
  assert (H : Z.of_nat RECONNECT_THRESHOLD = 576) by reflexivity.
  destruct (Nat.ltb_spec n RECONNECT_THRESHOLD); [apply Z.ltb_lt | apply Z.ltb_ge]; lia.
Qed.

Lemma switch_guard n :
  int_lt_float n SWITCH_MAX_FAIL_COUNT = (n <? SWITCH_THRESHOLD)%nat.
Proof.
  unfold int_lt_float, Qltb.
  change (Qnum SWITCH_MAX_FAIL_COUNT) with 172800.
  change (QDen SWITCH_MAX_FAIL_COUNT) with 30.
  cbn [Qnum Qden inject_Z].
  assert (H : Z.of_nat SWITCH_THRESHOLD = 5760) by reflexivity.
  destruct (Nat.ltb_spec n SWITCH_THRESHOLD); [apply Z.ltb_lt | apply Z.ltb_ge]; lia.
Qed.

(** ** C6 *)

Lemma reconnect_daemon_iteration_run arn nb failed_count w :
  exists failed_count' t,
    reconnect_daemon_iteration arn nb failed_count w
    = (Ok failed_count', replay (t ++ [EvLog INFO "reconnect_daemon checking"]) w) /\
    match fst (reconnect_daemon_tick arn nb (snd (logger INFO "reconnect_daemon checking" w))) with
    | Ok _ => failed_count' = 0%nat
    | Raise _ => failed_count' = (failed_count + 1)%nat
    | Diverge => False
    end.
Proof.
  rewrite reconnect_daemon_iteration_eq. cbn [logger snd].
  destruct (reconnect_daemon_tick_ends arn nb (perform (EvLog INFO "reconnect_daemon checking") w))
    as [Hend (t & Ht & _)].
  destruct (reconnect_daemon_tick arn nb _) as [[[]|e|] w1]; cbn [fst snd] in *; [| |done];
    subst w1.
  - exists 0%nat, (EvSleep RECONNECT_INTERVAL_IN_SEC :: t). split; [|done].
    cbn [app replay]. by rewrite replay_app.
  - exists (failed_count + 1)%nat,
      (EvSleep RECONNECT_INTERVAL_IN_SEC
       :: EvLog ERROR ("reconnect_daemon failed_count=" +:+ pretty (failed_count + 1)%nat)
       :: t).
    split; [|done]. cbn [app replay]. by rewrite replay_app.
Qed.

Lemma reconnect_daemon_loop_carries_on arn nb fuel : forall failed_count w,
  carries_on (int_lt_float failed_count RECONNECT_MAX_FAIL_COUNT)
    "reconnect_daemon checking" fuel failed_count w
    (reconnect_daemon_loop arn nb fuel failed_count w).
Proof.
  induction fuel as [|fuel IH]; intros failed_count w; unfold carries_on;
    cbn [reconnect_daemon_loop];
    destruct (int_lt_float failed_count RECONNECT_MAX_FAIL_COUNT) eqn:Hguard.
  - split; [done|]. by exists [].
  - split; [done|]. by exists [].
  - destruct (reconnect_daemon_iteration_run arn nb failed_count w)
      as (failed_count' & ti & Hiter & _).
    unfold bind at 1. unfold bind at 1. rewrite Hiter.
    destruct (IH failed_count' (replay (ti ++ [EvLog INFO "reconnect_daemon checking"]) w))
      as (Hraise & t & Ht & _).
    split; [exact Hraise|].
    exists (t ++ ti ++ [EvLog INFO "reconnect_daemon checking"])%list.
    rewrite (replay_app t). split; [exact Ht|]. intros _. exists (t ++ ti)%list.
    by rewrite app_assoc.
  - split; [done|]. by exists [].
Qed.

Lemma switch_daemon_iteration_run arn nb failed_count w :
  exists failed_count' t,
    switch_daemon_iteration arn nb failed_count w
    = (Ok failed_count', replay (t ++ [EvLog INFO "switch_daemon checking"]) w) /\
    match fst (switch_daemon_tick arn nb (snd (logger INFO "switch_daemon checking" w))) with
    | Ok _ => failed_count' = 0%nat
    | Raise _ => failed_count' = (failed_count + 1)%nat
    | Diverge => False
    end.
Proof.
  rewrite switch_daemon_iteration_eq. cbn [logger snd].
  destruct (switch_daemon_tick_ends arn nb (perform (EvLog INFO "switch_daemon checking") w))
    as [Hend (t & Ht & _)].
  destruct (switch_daemon_tick arn nb _) as [[[]|e|] w1]; cbn [fst snd] in *; [| |done];
    subst w1.
  - exists 0%nat, (EvSleep SWITCH_INTERVAL_IN_SEC :: t). split; [|done].
    cbn [app replay]. by rewrite replay_app.
  - exists (failed_count + 1)%nat,
      (EvSleep SWITCH_INTERVAL_IN_SEC
       :: EvLog ERROR ("switch_daemon failed_count=" +:+ pretty (failed_count + 1)%nat)
       :: t).
    split; [|done]. cbn [app replay]. by rewrite replay_app.
Qed.

Lemma switch_daemon_loop_carries_on arn nb fuel : forall failed_count w,
  carries_on (int_lt_float failed_count SWITCH_MAX_FAIL_COUNT)
    "switch_daemon checking" fuel failed_count w
    (switch_daemon_loop arn nb fuel failed_count w).
Proof.
  induction fuel as [|fuel IH]; intros failed_count w; unfold carries_on;
    cbn [switch_daemon_loop];
    destruct (int_lt_float failed_count SWITCH_MAX_FAIL_COUNT) eqn:Hguard.
  - split; [done|]. by exists [].
  - split; [done|]. by exists [].
  - destruct (switch_daemon_iteration_run arn nb failed_count w)
      as (failed_count' & ti & Hiter & _).
    unfold bind at 1. unfold bind at 1. rewrite Hiter.
    destruct (IH failed_count' (replay (ti ++ [EvLog INFO "switch_daemon checking"]) w))
      as (Hraise & t & Ht & _).
    split; [exact Hraise|].
    exists (t ++ ti ++ [EvLog INFO "switch_daemon checking"])%list.
    rewrite (replay_app t). split; [exact Ht|]. intros _. exists (t ++ ti)%list.
    by rewrite app_assoc.
  - split; [done|]. by exists [].
Qed.

(** C6.  In both daemon loops, one iteration never lets an exception out:
    it returns the new [failed_count], which is 0 when the tick (the [try]
    block) returned and the old count plus one when it raised.  The loop
    has then run this iteration and carries on from the world it left: no
    exception gets out of the loop, and while the count is below the
    threshold the next thing the loop does is to start the next tick. *)
Theorem daemon_iteration_counts_failure arn nb (failed_count : nat) (w : World) :
  (exists failed_count' w',
      reconnect_daemon_iteration arn nb failed_count w = (Ok failed_count', w') /\
      match fst (reconnect_daemon_tick arn nb (snd (logger INFO "reconnect_daemon checking" w))) with
      | Ok _ => failed_count' = 0%nat
      | Raise _ => failed_count' = (failed_count + 1)%nat
      | Diverge => False
      end /\
      forall fuel, int_lt_float failed_count RECONNECT_MAX_FAIL_COUNT = true ->
        reconnect_daemon_loop arn nb (S fuel) failed_count w =
        reconnect_daemon_loop arn nb fuel failed_count' w' /\
        carries_on (int_lt_float failed_count' RECONNECT_MAX_FAIL_COUNT)
          "reconnect_daemon checking" fuel failed_count' w'
          (reconnect_daemon_loop arn nb (S fuel) failed_count w)) /\
  (exists failed_count' w',
      switch_daemon_iteration arn nb failed_count w = (Ok failed_count', w') /\
      match fst (switch_daemon_tick arn nb (snd (logger INFO "switch_daemon checking" w))) with
      | Ok _ => failed_count' = 0%nat
      | Raise _ => failed_count' = (failed_count + 1)%nat
      | Diverge => False
      end /\
      forall fuel, int_lt_float failed_count SWITCH_MAX_FAIL_COUNT = true ->
        switch_daemon_loop arn nb (S fuel) failed_count w =
        switch_daemon_loop arn nb fuel failed_count' w' /\
        carries_on (int_lt_float failed_count' SWITCH_MAX_FAIL_COUNT)
          "switch_daemon checking" fuel failed_count' w'
          (switch_daemon_loop arn nb (S fuel) failed_count w)).
Proof.
  split.
  - destruct (reconnect_daemon_iteration_run arn nb failed_count w)
      as (failed_count' & t & Hiter & Hcount).
    eexists _, _. split; [exact Hiter|]. split; [exact Hcount|].
    intros fuel Hguard.
    assert (Hstep : reconnect_daemon_loop arn nb (S fuel) failed_count w =
                    reconnect_daemon_loop arn nb fuel failed_count'
                      (replay (t ++ [EvLog INFO "reconnect_daemon checking"]) w)).
    { cbn [reconnect_daemon_loop]. rewrite Hguard. unfold bind at 1. by rewrite Hiter. }
    split; [exact Hstep|]. rewrite Hstep. apply reconnect_daemon_loop_carries_on.
  - destruct (switch_daemon_iteration_run arn nb failed_count w)
      as (failed_count' & t & Hiter & Hcount).
    eexists _, _. split; [exact Hiter|]. split; [exact Hcount|].
    intros fuel Hguard.
    assert (Hstep : switch_daemon_loop arn nb (S fuel) failed_count w =
                    switch_daemon_loop arn nb fuel failed_count'
                      (replay (t ++ [EvLog INFO "switch_daemon checking"]) w)).
    { cbn [switch_daemon_loop]. rewrite Hguard. unfold bind at 1. by rewrite Hiter. }
    split; [exact Hstep|]. rewrite Hstep. apply switch_daemon_loop_carries_on.
Qed.

Lemma daemon_iteration_counts_failure_witness :
  exists w',
    switch_daemon_iteration "arn" "nb" 0 outage_world = (Ok 1%nat, w') /\
    exists t', snd (switch_daemon_loop "arn" "nb" 2 0 outage_world)
               = replay (t' ++ [EvLog INFO "switch_daemon checking"]) w'.
Proof.
  destruct (daemon_iteration_counts_failure "arn" "nb" 0 outage_world)
    as (_ & failed_count' & w' & Hiter & Hcount & Hloop).
  vm_compute in Hcount. subst failed_count'.
  exists w'. split; [exact Hiter|].
  destruct (Hloop 1%nat eq_refl) as (_ & _ & t & Ht & Hnext).
  change (int_lt_float 1 SWITCH_MAX_FAIL_COUNT) with true in Hnext. cbv iota in Hnext.
  destruct (Hnext ltac:(discriminate)) as (t' & ->).
  exists t'. exact Ht.
Defined.

(** ** C3 *)

Lemma switch_daemon_run_S arn nb n s :
  switch_daemon_run arn nb (S n) s = switch_daemon_run arn nb n (switch_daemon_step arn nb s).
Proof. unfold switch_daemon_run. by rewrite Nat.iter_succ_r. Qed.

Lemma switch_daemon_loop_failing arn nb n : forall failed_count w,
  switch_ticks_fail arn nb n (failed_count, w) = true ->
  (failed_count + n <= SWITCH_THRESHOLD)%nat ->
  fst (switch_daemon_run arn nb n (failed_count, w)) = (failed_count + n)%nat /\
  (forall fuel,
      switch_daemon_loop arn nb (n + fuel) failed_count w =
      switch_daemon_loop arn nb fuel
        (fst (switch_daemon_run arn nb n (failed_count, w)))
        (snd (switch_daemon_run arn nb n (failed_count, w)))) /\
  (forall fuel, (fuel < n)%nat ->
      fst (switch_daemon_loop arn nb fuel failed_count w) = Diverge).
Proof.
  induction n as [|n IH]; intros failed_count w Hfail Hle.
  - cbn. split; [lia|]. split; [done|]. intros fuel Hlt. lia.
  - cbn [switch_ticks_fail] in Hfail. apply andb_true_iff in Hfail as [Htick Hrest].
    assert (Hguard : int_lt_float failed_count SWITCH_MAX_FAIL_COUNT = true).
    { rewrite switch_guard. apply Nat.ltb_lt. lia. }
    pose proof (switch_daemon_iteration_eq arn nb failed_count w) as Hit.
    cbn [logger fst snd] in Htick.
    assert (Hstep : exists w', switch_daemon_iteration arn nb failed_count w = (Ok (failed_count + 1)%nat, w')
                               /\ switch_daemon_step arn nb (failed_count, w) = ((failed_count + 1)%nat, w')).
    { unfold switch_daemon_step. cbn [fst snd].
      destruct (switch_daemon_tick arn nb _) as [[[]|e|] w1]; try discriminate.
      rewrite Hit. eauto. }
    destruct Hstep as (w' & Hiter & Hstep).
    rewrite switch_daemon_run_S, Hstep. rewrite Hstep in Hrest.
    destruct (IH (failed_count + 1)%nat w' Hrest ltac:(lia)) as (Hcount & Hloop & Hdiv).
    split; [lia|]. split.
    + intros fuel. cbn [Nat.add switch_daemon_loop]. rewrite Hguard.
      unfold bind at 1. rewrite Hiter. apply Hloop.
    + intros [|fuel] Hlt; cbn [switch_daemon_loop]; rewrite Hguard; [done|].
      unfold bind at 1. rewrite Hiter. apply Hdiv. lia.
Qed.

(** C3.  The thresholds are [(48 * 3600) / 300 = 576] for [reconnect_daemon]
    and [(48 * 3600) / 30 = 5760] for [switch_daemon]; and when the ticks of
    [switch_daemon] keep raising, its loop is still running after any
    number of iterations below 5760 and stops after exactly 5760 of them,
    whatever further iterations it is allowed. *)
Theorem switch_daemon_halts_at_threshold arn nb (w : World) :
  switch_ticks_fail arn nb SWITCH_THRESHOLD (switch_daemon_start w) = true ->
  (Qeq RECONNECT_MAX_FAIL_COUNT
       (inject_Z (MAX_FAIL_DURATION_IN_HOUR * 3600) / inject_Z RECONNECT_INTERVAL_IN_SEC)%Q /\
   Qeq RECONNECT_MAX_FAIL_COUNT (inject_Z 576) /\
   Qeq SWITCH_MAX_FAIL_COUNT
       (inject_Z (MAX_FAIL_DURATION_IN_HOUR * 3600) / inject_Z SWITCH_INTERVAL_IN_SEC)%Q /\
   Qeq SWITCH_MAX_FAIL_COUNT (inject_Z 5760)) /\
  Z.of_nat SWITCH_THRESHOLD = 5760 /\
  fst (switch_daemon_run arn nb SWITCH_THRESHOLD (switch_daemon_start w)) = SWITCH_THRESHOLD /\
  (forall fuel, (fuel < SWITCH_THRESHOLD)%nat ->
     fst (switch_daemon arn nb fuel w) = Diverge) /\
  (forall fuel, (SWITCH_THRESHOLD <= fuel)%nat ->
     switch_daemon arn nb fuel w =
     (Ok tt,
      perform (EvLog ERROR "switch_daemon stopped, failed_count=5760")
        (snd (switch_daemon_run arn nb SWITCH_THRESHOLD (switch_daemon_start w))))).
Proof.
  intros Hfail.
  split; [repeat split; reflexivity|].
  split; [reflexivity|].
  unfold switch_daemon_start in *. cbn [logger snd] in *.
  destruct (switch_daemon_loop_failing arn nb SWITCH_THRESHOLD 0%nat _ Hfail ltac:(lia))
    as (Hcount & Hloop & Hdiv).
  split; [exact Hcount|]. split.
  - intros fuel Hlt. unfold switch_daemon, bind, logger. cbn [fst snd].
    specialize (Hdiv fuel Hlt).
    destruct (switch_daemon_loop arn nb fuel 0%nat _) as [[|?|] ?]; cbn [fst] in Hdiv;
      try discriminate; reflexivity.
  - intros fuel Hle. unfold switch_daemon, bind at 1, logger.
    replace fuel with (SWITCH_THRESHOLD + (fuel - SWITCH_THRESHOLD))%nat at 1 by lia.
    unfold bind. rewrite Hloop, Hcount.
    destruct (fuel - SWITCH_THRESHOLD)%nat; cbn [switch_daemon_loop];
      rewrite switch_guard, Nat.ltb_irrefl; reflexivity.
Qed.


Lemma switch_daemon_halts_at_threshold_witness :
  switch_ticks_fail "arn" "nb" SWITCH_THRESHOLD (switch_daemon_start outage_world) = true /\
  fst (switch_daemon "arn" "nb" (SWITCH_THRESHOLD - 1) outage_world) = Diverge /\
  fst (switch_daemon "arn" "nb" SWITCH_THRESHOLD outage_world) = Ok tt.
Proof.
  assert (H : switch_ticks_fail "arn" "nb" SWITCH_THRESHOLD (switch_daemon_start outage_world) = true)
    by (vm_compute; reflexivity).
  split; [exact H|].
  destruct (switch_daemon_halts_at_threshold "arn" "nb" outage_world H)
    as (_ & _ & _ & Hbefore & Hafter).
  split.
  - apply Hbefore. vm_compute. lia.
  - rewrite (Hafter SWITCH_THRESHOLD (Nat.le_refl _)). reflexivity.
Defined.

(** * Equations for running computations *)

Lemma bind_ok {A B} (m : M A) (k : A -> M B) w a w' :
  m w = (Ok a, w') -> bind m k w = k a w'.
Proof. unfold bind. by intros ->. Qed.

Lemma bind_raise {A B} (m : M A) (k : A -> M B) w e w' :
  m w = (Raise e, w') -> bind m k w = (Raise e, w').
Proof. unfold bind. by intros ->. Qed.

Lemma try_except_bind_ok {A B} (m : M A) (k : A -> M B) c h w a w' :
  m w = (Ok a, w') -> try_except (bind m k) c h w = try_except (k a) c h w'.
Proof. unfold try_except, bind. by intros ->. Qed.

Lemma try_except_ok {A} (m : M A) c h w a w' :
  m w = (Ok a, w') -> try_except m c h w = (Ok a, w').
Proof. unfold try_except. by intros ->. Qed.

Lemma try_except_caught {A} (m : M A) c h w e w' :
  m w = (Raise e, w') -> c e = true -> try_except m c h w = h e w'.
Proof. unfold try_except. by intros -> ->. Qed.

Lemma try_except_passed {A} (m : M A) c h w e w' :
  m w = (Raise e, w') -> c e = false -> try_except m c h w = (Raise e, w').
Proof. unfold try_except. by intros -> ->. Qed.

(** What the counters and stores are after a run of actions. *)
Lemma glue_calls_perform e w :
  glue_calls (perform e w) = (if is_glue_call e then S (glue_calls w) else glue_calls w).
Proof. destruct e; cbn; try done; repeat case_match; done. Qed.

Lemma glue_calls_replay t w :
  glue_calls (replay t w) = (length (List.filter is_glue_call t) + glue_calls w)%nat.
Proof.
  induction t as [|e t IH]; cbn [replay List.filter]; [done|].
  rewrite glue_calls_perform, IH. by destruct (is_glue_call e).
Qed.

Lemma Forall_wait_event_not_update t :
  Forall (fun e => wait_event e = true) t -> Forall (fun e => is_update e = false) t.
Proof. intros H. eapply Forall_impl; [exact H|]. by intros []. Qed.

Lemma Forall_wait_event_not_touching p t :
  Forall (fun e => wait_event e = true) t -> Forall (fun e => touches p e = false) t.
Proof. intros H. eapply Forall_impl; [exact H|]. by intros []. Qed.

Lemma Forall_wait_event_not_probe t :
  Forall (fun e => wait_event e = true) t -> Forall (fun e => is_probe e = false) t.
Proof. intros H. eapply Forall_impl; [exact H|]. by intros []. Qed.

(** ** The ready-wait under a healthy Glue API *)

Lemma wait_dev_endpoint_ready_loop_healthy name r start fuel : forall w,
  glue_healthy (oracle w) ->
  endpoints w !! name = Some r ->
  UPDATE_DEV_ENDPOINT_TIMEOUT_IN_SEC - (clock w - start)
    <= WAIT_DEV_ENDPOINT_READY_INTERVAL_IN_SEC * Z.of_nat fuel ->
  exists t, wait_dev_endpoint_ready_loop fuel name start w = (Ok tt, replay t w) /\
            Forall (fun e => wait_event e = true) t.
Proof.
  induction fuel as [|fuel IH]; intros w Hh Hr Hfuel;
    rewrite wait_dev_endpoint_ready_loop_unfold;
    destruct (clock w - start <? UPDATE_DEV_ENDPOINT_TIMEOUT_IN_SEC) eqn:Hguard.
  - apply Z.ltb_lt in Hguard.
    unfold UPDATE_DEV_ENDPOINT_TIMEOUT_IN_SEC, WAIT_DEV_ENDPOINT_READY_INTERVAL_IN_SEC in *.
    lia.
  - eexists [_]. split; [reflexivity|]. by repeat constructor.
  - cbn zeta.
    pose proof (clock_after_poll name w) as Hclock.
    set (w1 := perform (EvSleep _) _) in *.
    destruct Hh as [Hfault Hstatus].
    assert (Hget : glue_get_dev_endpoint name w1 =
                   (Ok (mkDevEndpoint (remote_key r) (remote_keys r)
                          (glue_status (oracle w) (glue_calls w))
                          (remote_private_address r) (remote_public_address r)),
                    replay [EvGetDevEndpoint name;
                            EvSleep WAIT_DEV_ENDPOINT_READY_INTERVAL_IN_SEC;
                            EvLog INFO ("Waiting dev_endpoint=" +:+ name +:+ " ready")] w)).
    { unfold glue_get_dev_endpoint. subst w1. cbn [replay].
      change (oracle (perform _ (perform _ w))) with (oracle w).
      change (glue_calls (perform _ (perform _ w))) with (glue_calls w).
      change (endpoints (perform _ (perform _ w))) with (endpoints w).
      by rewrite Hfault, Hr. }
    rewrite Hget in *. cbn [snd LastUpdateStatus] in *.
    set (t1 := [EvGetDevEndpoint name; _; _]) in *.
    assert (Ht1 : Forall (fun e => wait_event e = true) t1) by (by repeat constructor).
    destruct (glue_status (oracle w) (glue_calls w)) as [status|] eqn:Hst.
    + destruct (String.eqb status COMPLETED).
      { eexists (_ :: t1). split; [reflexivity|]. by constructor. }
      destruct (String.eqb_spec status FAILED) as [->|_].
      { by destruct (Hstatus (glue_calls w)). }
      destruct (IH (replay t1 w)) as (t & Ht & HPt).
      * by rewrite oracle_replay.
      * rewrite endpoints_replay; [done|]. by apply Forall_wait_event_not_update.
      * unfold UPDATE_DEV_ENDPOINT_TIMEOUT_IN_SEC, WAIT_DEV_ENDPOINT_READY_INTERVAL_IN_SEC in *.
        lia.
      * exists (t ++ t1)%list. rewrite replay_app. split; [exact Ht|].
        apply Forall_app; by split.
    + exists t1. by split.
  - eexists [_]. split; [reflexivity|]. by repeat constructor.
Qed.

Lemma wait_dev_endpoint_ready_healthy name r w :
  glue_healthy (oracle w) ->
  endpoints w !! name = Some r ->
  exists t, wait_dev_endpoint_ready name w = (Ok tt, replay t w) /\
            Forall (fun e => wait_event e = true) t.
Proof.
  intros Hh Hr. unfold wait_dev_endpoint_ready, bind, time_time.
  apply (wait_dev_endpoint_ready_loop_healthy name r); [done|done|].
  change (Z.of_nat wait_fuel) with 120.
  unfold UPDATE_DEV_ENDPOINT_TIMEOUT_IN_SEC, WAIT_DEV_ENDPOINT_READY_INTERVAL_IN_SEC. lia.
Qed.

(** * The reconnect tick when Livy answers *)

Lemma replay_not_mutating t w :
  Forall (fun e => is_mutating e = false) t ->
  fs (replay t w) = fs w /\ dirs (replay t w) = dirs w /\
  endpoints (replay t w) = endpoints w /\
  notebook_tags (replay t w) = notebook_tags w /\
  autossh_running (replay t w) = autossh_running w.
Proof.
  induction 1 as [|e t He _ IH]; cbn [replay]; [done|].
  destruct e; try discriminate; exact IH.
Qed.

(** [get_current_dev_endpoint] never raises: a failed read is logged as a
    warning and gives [None]. *)
Lemma get_current_dev_endpoint_run w :
  exists t,
    get_current_dev_endpoint w =
      (Ok (if bool_decide (CURRENT_DEV_ENDPOINT_PATH ∈ io_faulty w) then None
           else fs w !! CURRENT_DEV_ENDPOINT_PATH),
       replay t w) /\
    (t = [] \/ t = [EvRead CURRENT_DEV_ENDPOINT_PATH] \/
     t = [EvLog WARNING "Failed to load current_dev_endpoint";
          EvIOFail CURRENT_DEV_ENDPOINT_PATH]).
Proof.
  unfold get_current_dev_endpoint, try_except, bind, os_path_exists, open_read, io_fail.
  cbn [fst snd].
  destruct (bool_decide (is_Some (fs w !! CURRENT_DEV_ENDPOINT_PATH))) eqn:Hfile;
    cbn [orb].
  - apply bool_decide_eq_true in Hfile as [c Hc]. rewrite Hc.
    destruct (bool_decide (CURRENT_DEV_ENDPOINT_PATH ∈ io_faulty w)); cbn.
    + exists [EvLog WARNING "Failed to load current_dev_endpoint";
              EvIOFail CURRENT_DEV_ENDPOINT_PATH]. split; [reflexivity|]. auto.
    + exists [EvRead CURRENT_DEV_ENDPOINT_PATH]. split; [reflexivity|]. auto.
  - apply bool_decide_eq_false in Hfile. rewrite <- eq_None_not_Some in Hfile. rewrite Hfile.
    destruct (bool_decide (CURRENT_DEV_ENDPOINT_PATH ∈ dirs w)); cbn.
    + exists [EvLog WARNING "Failed to load current_dev_endpoint";
              EvIOFail CURRENT_DEV_ENDPOINT_PATH].
      destruct (bool_decide (CURRENT_DEV_ENDPOINT_PATH ∈ io_faulty w)); cbn;
        rewrite ?Hfile; (split; [reflexivity|]; auto).
    + exists []. split; [|auto]. by destruct (bool_decide _).
Qed.

Lemma is_dev_endpoint_connected_run w :
  is_dev_endpoint_connected w =
  (match livy (oracle w) (probes w) with
   | LivyResponse => Ok true
   | LivyRefused => Ok false
   | LivyOtherError => Raise RequestException
   end,
   perform (EvProbe LIVY_PING_TIMEOUT_IN_SEC (livy (oracle w) (probes w))) w).
Proof.
  unfold is_dev_endpoint_connected, try_except, bind, requests_get.
  by destruct (livy (oracle w) (probes w)).
Qed.

Lemma reconnect_dev_endpoint_live arn nb current w :
  livy (oracle w) (probes w) = LivyResponse ->
  exists t, reconnect_dev_endpoint arn nb current w = (Ok tt, replay t w) /\
            Forall (fun e => is_mutating e = false) t.
Proof.
  intros Hlive. unfold reconnect_dev_endpoint.
  destruct (truthy_opt current); cbn [negb].
  - pose proof (is_dev_endpoint_connected_run w) as Hprobe. rewrite Hlive in Hprobe.
    rewrite (bind_ok _ _ _ _ _ Hprobe). cbn [negb].
    eexists [_; _]. split; [reflexivity|]. by repeat constructor.
  - eexists [_]. split; [reflexivity|]. by repeat constructor.
Qed.

(** C7.  When the liveness probe is answered, [reconnect_dev_endpoint]
    returns having only probed and logged: no update of the endpoint, no tag
    write, no command run (so the tunnel is neither stopped nor started) and
    no file changed (so the binding file is as it was).  The same holds of
    the whole reconnect tick, which reads the binding file first. *)
Theorem reconnect_is_noop_when_live arn nb (w : World) :
  livy (oracle w) (probes w) = LivyResponse ->
  (forall current, exists t,
      reconnect_dev_endpoint arn nb current w = (Ok tt, replay t w) /\
      Forall (fun e => is_mutating e = false) t /\
      fs (replay t w) = fs w /\
      endpoints (replay t w) = endpoints w /\
      notebook_tags (replay t w) = notebook_tags w /\
      autossh_running (replay t w) = autossh_running w) /\
  (exists t,
      reconnect_daemon_tick arn nb w = (Ok tt, replay t w) /\
      Forall (fun e => is_mutating e = false) t /\
      fs (replay t w) = fs w /\
      endpoints (replay t w) = endpoints w /\
      notebook_tags (replay t w) = notebook_tags w /\
      autossh_running (replay t w) = autossh_running w).
Proof.
  intros Hlive. split.
  - intros current.
    destruct (reconnect_dev_endpoint_live arn nb current w Hlive) as (t & Hrun & Ht).
    exists t. destruct (replay_not_mutating t w Ht) as (? & ? & ? & ? & ?). done.
  - destruct (get_current_dev_endpoint_run w) as (t0 & Hcur & Ht0).
    assert (Hquiet : Forall (fun e => is_mutating e = false) t0 /\
                     Forall (fun e => is_probe e = false) t0).
    { destruct Ht0 as [->|[->| ->]]; split; by repeat constructor. }
    destruct Hquiet as [Hmut Hprobe].
    unfold reconnect_daemon_tick. rewrite (bind_ok _ _ _ _ _ Hcur).
    destruct (reconnect_dev_endpoint_live arn nb
                (if bool_decide (CURRENT_DEV_ENDPOINT_PATH ∈ io_faulty w) then None
                 else fs w !! CURRENT_DEV_ENDPOINT_PATH) (replay t0 w))
      as (t & Hrun & Ht).
    { by rewrite oracle_replay, probes_replay. }
    exists (t ++ t0)%list. rewrite replay_app.
    assert (Hall : Forall (fun e => is_mutating e = false) (t ++ t0)) by (by apply Forall_app).
    destruct (replay_not_mutating (t ++ t0) w Hall) as (? & ? & ? & ? & ?).
    rewrite replay_app in *. done.
Qed.

Lemma reconnect_is_noop_when_live_witness :
  fs settled_world !! CURRENT_DEV_ENDPOINT_PATH = Some "epA" /\
  livy (oracle settled_world) (probes settled_world) = LivyResponse /\
  exists t, reconnect_daemon_tick "arn" "nb" settled_world = (Ok tt, replay t settled_world) /\
            Forall (fun e => is_mutating e = false) t /\
            In (EvProbe LIVY_PING_TIMEOUT_IN_SEC LivyResponse) t /\
            fs (replay t settled_world) !! CURRENT_DEV_ENDPOINT_PATH = Some "epA".
Proof.
  split; [reflexivity|]. split; [reflexivity|].
  destruct (reconnect_is_noop_when_live "arn" "nb" settled_world eq_refl)
    as (_ & t & Hrun & Ht & Hfs & _).
  exists t. split; [exact Hrun|]. split; [exact Ht|]. split.
  - assert (Htrace : trace (replay t settled_world) = (t ++ trace settled_world)%list)
      by apply trace_replay.
    change (trace settled_world) with (@nil event) in Htrace.
    rewrite app_nil_r in Htrace.
    apply (f_equal snd) in Hrun. cbn [snd] in Hrun. rewrite <- Hrun in Htrace.
    rewrite <- Htrace. vm_compute. right. left. reflexivity.
  - by rewrite Hfs.
Defined.

(** * Local I/O errors *)

(** C9 (amended).  On a failing disk: reading the binding file does not
    raise, the error is logged as a warning and the result is [None];
    saving and removing the binding file, and reading the public key or the
    tunnel target, log an error and raise [IOError] again;
    [update_connection_tag] never raises. *)
Theorem local_io_errors arn (w : World) (name tag : string) :
  CURRENT_DEV_ENDPOINT_PATH ∈ io_faulty w ->
  is_Some (fs w !! CURRENT_DEV_ENDPOINT_PATH) ->
  SSH_KEY_PUBLIC_PATH ∈ io_faulty w ->
  AUTO_SSH_HOST_PATH ∈ io_faulty w ->
  get_current_dev_endpoint w =
    (Ok None,
     replay [EvLog WARNING "Failed to load current_dev_endpoint";
             EvIOFail CURRENT_DEV_ENDPOINT_PATH] w) /\
  save_current_dev_endpoint name w =
    (Raise (IOError CURRENT_DEV_ENDPOINT_PATH),
     replay [EvLog ERROR ("Failed to save current_dev_endpoint=" +:+ name);
             EvIOFail CURRENT_DEV_ENDPOINT_PATH;
             EvLog INFO ("Saving current_dev_endpoint=" +:+ name)] w) /\
  remove_dev_endpoint name w =
    (Raise (IOError CURRENT_DEV_ENDPOINT_PATH),
     replay [EvLog ERROR ("Failed to remove current_dev_endpoint=" +:+ name);
             EvIOFail CURRENT_DEV_ENDPOINT_PATH;
             EvLog INFO ("Removing current_dev_endpoint=" +:+ name)] w) /\
  get_public_key w =
    (Raise (IOError SSH_KEY_PUBLIC_PATH),
     replay [EvLog ERROR ("Failed to read SSH public_key from " +:+ SSH_KEY_PUBLIC_PATH);
             EvIOFail SSH_KEY_PUBLIC_PATH] w) /\
  get_autossh_host w =
    (Raise (IOError AUTO_SSH_HOST_PATH),
     replay [EvLog ERROR ("Failed to read autossh_host from " +:+ AUTO_SSH_HOST_PATH);
             EvIOFail AUTO_SSH_HOST_PATH] w) /\
  (forall w', fst (update_connection_tag arn tag w') = Ok tt).
Proof.
  intros Hbind Hfile Hpub Hhost.
  assert (Hb : bool_decide (CURRENT_DEV_ENDPOINT_PATH ∈ io_faulty w) = true)
    by (by apply bool_decide_eq_true).
  assert (Hp : bool_decide (SSH_KEY_PUBLIC_PATH ∈ io_faulty w) = true)
    by (by apply bool_decide_eq_true).
  assert (Hh : bool_decide (AUTO_SSH_HOST_PATH ∈ io_faulty w) = true)
    by (by apply bool_decide_eq_true).
  assert (Hf : bool_decide (is_Some (fs w !! CURRENT_DEV_ENDPOINT_PATH)) = true)
    by (by apply bool_decide_eq_true).
  repeat split.
  - unfold get_current_dev_endpoint, try_except, bind, os_path_exists, open_read.
    cbn [fst snd]. rewrite Hf. cbn [orb]. by rewrite Hb.
  - unfold save_current_dev_endpoint, try_except, bind, open_write, logger.
    change (io_faulty (perform _ w)) with (io_faulty w). by rewrite Hb.
  - unfold remove_dev_endpoint, try_except, bind, os_path_exists, os_remove, logger.
    rewrite Hf. cbn [orb].
    change (io_faulty (perform _ w)) with (io_faulty w). by rewrite Hb.
  - unfold get_public_key, try_except, bind, open_read. by rewrite Hp.
  - unfold get_autossh_host, try_except, bind, open_read. by rewrite Hh.
  - intros w'. unfold update_connection_tag, try_except, sagemaker_add_tags.
    by destruct (sm_fault (oracle w') (sm_calls w')).
Qed.

Lemma local_io_errors_witness :
  fst (get_current_dev_endpoint unreadable_binding_world) = Ok None /\
  fst (save_current_dev_endpoint "epA" unreadable_binding_world)
    = Raise (IOError CURRENT_DEV_ENDPOINT_PATH).
Proof.
  assert (H1 : CURRENT_DEV_ENDPOINT_PATH ∈ io_faulty unreadable_binding_world)
    by (vm_compute; reflexivity).
  assert (H2 : is_Some (fs unreadable_binding_world !! CURRENT_DEV_ENDPOINT_PATH))
    by (exists "epA"; vm_compute; reflexivity).
  assert (H3 : SSH_KEY_PUBLIC_PATH ∈ io_faulty unreadable_binding_world)
    by (vm_compute; reflexivity).
  assert (H4 : AUTO_SSH_HOST_PATH ∈ io_faulty unreadable_binding_world)
    by (vm_compute; reflexivity).
  destruct (local_io_errors "arn" unreadable_binding_world "epA" "ready" H1 H2 H3 H4)
    as (Hget & Hsave & _).
  rewrite Hget, Hsave. split; reflexivity.
Defined.

(** Against C9 as stated: the binding file is there, reading it fails
    with an I/O error, and [get_current_dev_endpoint] answers "unbound". *)
Lemma binding_read_error_not_raised :
  fst (os_path_exists CURRENT_DEV_ENDPOINT_PATH unreadable_binding_world) = Ok true /\
  fst (open_read CURRENT_DEV_ENDPOINT_PATH unreadable_binding_world)
    = Raise (IOError CURRENT_DEV_ENDPOINT_PATH) /\
  fst (get_current_dev_endpoint unreadable_binding_world) = Ok None /\
  ~ (exists e, fst (reconnect_daemon_tick "arn" "nb" unreadable_binding_world) = Raise e).
Proof. vm_compute. repeat split; try reflexivity. intros [e He]. discriminate. Qed.

(** * Which registered keys belong to the notebook *)

Lemma prefix_spec a : forall b,
  String.prefix a b = true <-> exists c, b = a +:+ c.
Proof.
  induction a as [|x a IH]; intros b; cbn.
  - split; [intros _; exists b; reflexivity | intros _; by destruct b].
  - destruct b as [|y b]; cbn.
    + split; [done | intros [c Hc]; discriminate].
    + destruct (Ascii.ascii_dec x y) as [->|Hxy].
      * rewrite IH. split; intros [c Hc]; exists c.
        -- by rewrite Hc.
        -- change (String y b = String y (a +:+ c)) in Hc. congruence.
      * split; [done | intros [c Hc]].
        change (String y b = String x (a +:+ c)) in Hc. congruence.
Qed.

Lemma str_in_spec needle : forall hay,
  str_in needle hay = true <-> substring_of needle hay.
Proof.
  unfold substring_of.
  induction hay as [|y hay IH]; cbn [str_in]; rewrite orb_true_iff, prefix_spec.
  - split.
    + intros [[c Hc]|?]; [|done]. by exists "", c.
    + intros (before & after & H). left. exists after.
      destruct before; [done | discriminate].
  - rewrite IH. split.
    + intros [[c Hc]|(before & after & H)].
      * by exists "", c.
      * exists (String y before), after. by rewrite H.
    + intros (before & after & H). destruct before as [|x before].
      * left. by exists after.
      * right. exists before, after.
        change (String y hay = String x (before +:+ needle +:+ after)) in H. congruence.
Qed.

Lemma str_mem_spec s l : str_mem s l = true <-> In s l.
Proof.
  unfold str_mem. rewrite existsb_exists. split.
  - intros (x & Hin & ->%String.eqb_eq). done.
  - intros Hin. exists s. by rewrite String.eqb_refl.
Qed.

Lemma has_public_key_run d w cur w' :
  get_public_key w = (Ok cur, w') ->
  has_public_key d w =
  (Ok (match PublicKey d with Some k => str_in cur k | None => false end
       || match PublicKeys d with Some keys => existsb (str_in cur) keys | None => false end),
   w').
Proof.
  intros Hcur. unfold has_public_key. rewrite (bind_ok _ _ _ _ _ Hcur).
  destruct (match PublicKey d with Some k => str_in cur k | None => false end);
    [done|]. cbn [orb]. by destruct (PublicKeys d).
Qed.

(** C8 (amended).  The deletion filter takes an entry of [PublicKeys] for
    the notebook's when the notebook name occurs in it; [has_public_key]
    goes by another string: it answers [True] when the notebook's current
    public key (the content of the public key file) occurs in [PublicKey]
    or in an entry of [PublicKeys]. *)
Theorem key_ownership_rules nb (d : DevEndpoint) (w w' : World) (cur : string) :
  get_public_key w = (Ok cur, w') ->
  (forall keys k, PublicKey d = None -> PublicKeys d = Some keys ->
     (In k (public_keys_to_delete nb d) <-> In k keys /\ substring_of nb k)) /\
  (exists b, has_public_key d w = (Ok b, w') /\
     (b = true <->
      (exists k, PublicKey d = Some k /\ substring_of cur k) \/
      (exists keys k, PublicKeys d = Some keys /\ In k keys /\ substring_of cur k))).
Proof.
  intros Hcur. split.
  - intros keys k Hsingle Hkeys. unfold public_keys_to_delete.
    rewrite Hsingle, Hkeys. cbn [app].
    by rewrite filter_In, str_in_spec.
  - eexists. split; [by apply has_public_key_run|].
    rewrite orb_true_iff. split.
    + intros [H|H].
      * left. destruct (PublicKey d) as [k|]; [|done]. exists k.
        by rewrite <- str_in_spec.
      * right. destruct (PublicKeys d) as [keys|]; [|done].
        apply existsb_exists in H as (k & Hin & Hk). exists keys, k.
        by rewrite <- str_in_spec.
    + intros [(k & -> & Hk)|(keys & k & -> & Hin & Hk)].
      * left. by apply str_in_spec.
      * right. apply existsb_exists. exists k. by rewrite str_in_spec.
Qed.

Lemma key_ownership_rules_witness :
  get_public_key rotated_world = (Ok new_key, perform (EvRead SSH_KEY_PUBLIC_PATH) rotated_world) /\
  exists b, fst (has_public_key stale_endpoint rotated_world) = Ok b.
Proof.
  assert (H : get_public_key rotated_world
              = (Ok new_key, perform (EvRead SSH_KEY_PUBLIC_PATH) rotated_world))
    by (vm_compute; reflexivity).
  split; [exact H|].
  destruct (key_ownership_rules "nb" stale_endpoint _ _ _ H) as (_ & b & Hb & _).
  exists b. by rewrite Hb.
Defined.

(** Against C8 as stated: a registered key that contains the notebook
    name is taken by the deletion filter and not seen by [has_public_key]. *)
Lemma has_public_key_ignores_notebook_name :
  PublicKeys stale_endpoint = Some [old_key] /\
  str_in "nb" old_key = true /\
  public_keys_to_delete "nb" stale_endpoint = [old_key] /\
  fst (has_public_key stale_endpoint rotated_world) = Ok false.
Proof. vm_compute. repeat split; reflexivity. Qed.

(** * Deleting the notebook's keys from an endpoint *)

Lemma glue_get_dev_endpoint_healthy name r w :
  glue_healthy (oracle w) ->
  endpoints w !! name = Some r ->
  glue_get_dev_endpoint name w =
  (Ok (mkDevEndpoint (remote_key r) (remote_keys r) (glue_status (oracle w) (glue_calls w))
                     (remote_private_address r) (remote_public_address r)),
   perform (EvGetDevEndpoint name) w).
Proof.
  intros [Hfault _] Hr. unfold glue_get_dev_endpoint. by rewrite Hfault, Hr.
Qed.

Lemma glue_update_dev_endpoint_healthy name add del r w :
  glue_healthy (oracle w) ->
  endpoints w !! name = Some r ->
  glue_update_dev_endpoint name add del w =
  (Ok tt, perform (EvUpdateDevEndpoint name add del true) w).
Proof.
  intros [Hfault _] Hr. unfold glue_update_dev_endpoint.
  rewrite Hfault, Hr. cbn [negb andb].
  by rewrite (bool_decide_eq_true_2 (is_Some (Some r))).
Qed.

Lemma endpoints_after_update name add del r w :
  endpoints w !! name = Some r ->
  endpoints (perform (EvUpdateDevEndpoint name add del true) w) !! name
  = Some (apply_update add del r).
Proof. intros Hr. cbn. by rewrite lookup_alter_eq, Hr. Qed.

Lemma Forall_deletion_event_wait name del t :
  Forall (fun e => wait_event e = true) t -> Forall (deletion_event name del) t.
Proof. intros H. eapply Forall_impl; [exact H|]. intros e He. by left. Qed.

Lemma delete_public_keys_healthy name del r w :
  glue_healthy (oracle w) ->
  endpoints w !! name = Some r ->
  exists t,
    delete_public_keys name del w = (Ok tt, replay t w) /\
    Forall (deletion_event name del) t /\
    (del <> [] -> In (EvUpdateDevEndpoint name [] del true) t) /\
    endpoints (replay t w) !! name
    = Some (match del with [] => r | _ => apply_update [] del r end).
Proof.
  intros Hh Hr. unfold delete_public_keys.
  destruct (wait_dev_endpoint_ready_healthy name r w Hh Hr) as (ta & Hwait & Hta).
  rewrite (bind_ok _ _ _ _ _ Hwait).
  assert (Hra : endpoints (replay ta w) !! name = Some r).
  { rewrite endpoints_replay; [done|]. by apply Forall_wait_event_not_update. }
  destruct del as [|k del].
  - eexists (_ :: ta). split; [reflexivity|]. split; [|split; [done|exact Hra]].
    constructor; [by left|]. by apply Forall_deletion_event_wait.
  - set (dels := k :: del) in *.
    unfold logger at 1, bind at 1.
    set (w1 := perform (EvLog INFO _) (replay ta w)).
    assert (Hh1 : glue_healthy (oracle w1)) by (subst w1; by rewrite oracle_perform, oracle_replay).
    assert (Hr1 : endpoints w1 !! name = Some r) by exact Hra.
    rewrite (bind_ok _ _ _ _ _ (glue_update_dev_endpoint_healthy name [] dels r w1 Hh1 Hr1)).
    set (w2 := perform (EvUpdateDevEndpoint name [] dels true) w1).
    assert (Hh2 : glue_healthy (oracle w2)) by (subst w2; by rewrite oracle_perform).
    assert (Hr2 : endpoints w2 !! name = Some (apply_update [] dels r))
      by (by apply endpoints_after_update).
    destruct (wait_dev_endpoint_ready_healthy name _ w2 Hh2 Hr2) as (tb & Hwait2 & Htb).
    rewrite (bind_ok _ _ _ _ _ Hwait2).
    exists (EvLog INFO ("Deleted public_keys=" +:+ show_list dels
                        +:+ " from dev_endpoint=" +:+ name)
            :: tb ++ EvUpdateDevEndpoint name [] dels true
            :: EvLog INFO ("Deleting public_keys=" +:+ show_list dels
                           +:+ " from dev_endpoint=" +:+ name) :: ta)%list.
    split; [|split; [|split]].
    + unfold logger. f_equal. cbn [replay]. rewrite replay_app. reflexivity.
    + constructor; [by left|]. apply Forall_app. split.
      * by apply Forall_deletion_event_wait.
      * constructor; [by right|]. constructor; [by left|].
        by apply Forall_deletion_event_wait.
    + intros _. right. apply in_or_app. right. by left.
    + cbn [replay]. rewrite replay_app. cbn [replay]. fold w1. fold w2.
      rewrite endpoints_perform by done.
      rewrite endpoints_replay; [done|]. by apply Forall_wait_event_not_update.
Qed.

Lemma delete_public_keys_if_has_healthy nb name r w :
  glue_healthy (oracle w) ->
  endpoints w !! name = Some r ->
  exists t,
    delete_public_keys_if_has nb name w = (Ok tt, replay t w) /\
    Forall (deletion_event name (deleted_keys nb r)) t /\
    (deleted_keys nb r <> [] -> In (EvUpdateDevEndpoint name [] (deleted_keys nb r) true) t) /\
    endpoints (replay t w) !! name
    = Some (match deleted_keys nb r with [] => r | _ => apply_update [] (deleted_keys nb r) r end).
Proof.
  intros Hh Hr. unfold delete_public_keys_if_has.
  rewrite (try_except_bind_ok _ _ _ _ _ _ _ (glue_get_dev_endpoint_healthy name r w Hh Hr)).
  change (public_keys_to_delete nb _) with (deleted_keys nb r).
  set (w1 := perform (EvGetDevEndpoint name) w).
  assert (Hh1 : glue_healthy (oracle w1)) by (subst w1; by rewrite oracle_perform).
  assert (Hr1 : endpoints w1 !! name = Some r) by exact Hr.
  destruct (delete_public_keys_healthy name (deleted_keys nb r) r w1 Hh1 Hr1)
    as (t & Hrun & Ht & Hin & Hend).
  rewrite (try_except_ok _ _ _ _ _ _ Hrun).
  exists (t ++ [EvGetDevEndpoint name])%list. rewrite replay_app. cbn [replay]. fold w1.
  split; [done|]. split; [|split; [|done]].
  - apply Forall_app. split; [done|]. constructor; [by left|constructor].
  - intros Hne. apply in_or_app. left. auto.
Qed.

Lemma healthy_oracle_healthy : glue_healthy healthy_oracle.
Proof. split; intros k; [reflexivity | discriminate]. Qed.

Lemma public_keys_to_delete_spec nb d k :
  In k (public_keys_to_delete nb d) <->
  PublicKey d = Some k \/ (In k (default [] (PublicKeys d)) /\ str_in nb k = true).
Proof.
  unfold public_keys_to_delete. rewrite in_app_iff.
  destruct (PublicKey d) as [k0|], (PublicKeys d) as [keys|]; cbn [default In];
    rewrite ?filter_In; split; intros H; intuition (try congruence).
Qed.

Lemma remaining_keys_spec del r k :
  In k (default [] (remote_keys (apply_update [] del r))) <->
  In k (default [] (remote_keys r)) /\ ~ In k del.
Proof.
  unfold apply_update.
  destruct (remote_keys r) as [keys|]; cbn [remote_keys default List.filter].
  - unfold id.
    rewrite app_nil_r, filter_In, negb_true_iff, <- not_true_iff_false, str_mem_spec. done.
  - cbn. tauto.
Qed.

(** C10.  A key in the singular [PublicKey] of the endpoint is always put on
    the list of keys to delete, whatever it contains; entries of
    [PublicKeys] are put on it only when the notebook name occurs in them.
    With a healthy Glue API the list reaches the service in one update,
    which clears [PublicKey] and removes from [PublicKeys] the singular key
    and the entries containing the notebook name, no others. *)
Theorem singular_public_key_always_deleted nb name (r : RemoteEndpoint) (k : string)
    (w : World) :
  glue_healthy (oracle w) ->
  endpoints w !! name = Some r ->
  remote_key r = Some k ->
  (forall d k', In k' (public_keys_to_delete nb d) <->
     PublicKey d = Some k' \/ (In k' (default [] (PublicKeys d)) /\ str_in nb k' = true)) /\
  exists t r',
    delete_public_keys_if_has nb name w = (Ok tt, replay t w) /\
    In (EvUpdateDevEndpoint name []
          (k :: List.filter (str_in nb) (default [] (remote_keys r))) true) t /\
    endpoints (replay t w) !! name = Some r' /\
    remote_key r' = None /\
    (forall k', In k' (default [] (remote_keys r')) <->
       In k' (default [] (remote_keys r)) /\ k' <> k /\ str_in nb k' = false).
Proof.
  intros Hh Hr Hk. split; [intros d k'; apply public_keys_to_delete_spec|].
  destruct (delete_public_keys_if_has_healthy nb name r w Hh Hr) as (t & Hrun & _ & Hin & Hend).
  assert (Hdel : deleted_keys nb r = k :: List.filter (str_in nb) (default [] (remote_keys r))).
  { unfold deleted_keys, public_keys_to_delete. cbn [PublicKey PublicKeys]. rewrite Hk.
    by destruct (remote_keys r). }
  rewrite Hdel in *.
  exists t, (apply_update [] (k :: List.filter (str_in nb) (default [] (remote_keys r))) r).
  split; [exact Hrun|]. split; [by apply Hin|]. split; [exact Hend|]. split.
  - unfold apply_update. cbn [remote_key]. rewrite Hk. cbn [str_mem existsb].
    by rewrite String.eqb_refl.
  - intros k'. rewrite remaining_keys_spec. cbn [In]. rewrite filter_In.
    split.
    + intros [Hin' Hnot]. split; [done|]. split; [intros ->; tauto|].
      destruct (str_in nb k') eqn:E; [|done]. exfalso. apply Hnot. by right.
    + intros (Hin' & Hne & Hno). split; [done|]. intros [->|[_ Hyes]]; congruence.
Qed.

Lemma singular_public_key_always_deleted_witness :
  str_in "nb" foreign_key = false /\
  exists t r',
    delete_public_keys_if_has "nb" "epA" foreign_key_world = (Ok tt, replay t foreign_key_world) /\
    In (EvUpdateDevEndpoint "epA" [] [foreign_key; old_key] true) t /\
    endpoints (replay t foreign_key_world) !! "epA" = Some r' /\
    remote_key r' = None.
Proof.
  split; [reflexivity|].
  destruct (singular_public_key_always_deleted "nb" "epA"
              (mkRemoteEndpoint (Some foreign_key) (Some [foreign_key; old_key])
                                (Some "10.0.0.1") None)
              foreign_key foreign_key_world healthy_oracle_healthy eq_refl eq_refl)
    as (_ & t & r' & Hrun & Hin & Hend & Hkey & _).
  exists t, r'. repeat split; assumption.
Defined.

(** * The ready-wait, poll by poll *)

Lemma wait_polls_shift n name w :
  wait_polls n name (poll_world name w) = poll_world name (wait_polls n name w).
Proof. induction n as [|n IH]; cbn [wait_polls]; [done | by rewrite IH]. Qed.

Lemma clock_poll_world name w :
  clock w + WAIT_DEV_ENDPOINT_READY_INTERVAL_IN_SEC <= clock (poll_world name w).
Proof. unfold poll_world. cbn [replay]. rewrite !clock_perform. cbn [sleep_of]. lia. Qed.

Lemma wait_polls_facts n name w :
  oracle (wait_polls n name w) = oracle w /\
  endpoints (wait_polls n name w) = endpoints w /\
  glue_calls (wait_polls n name w) = (glue_calls w + n)%nat /\
  clock w + WAIT_DEV_ENDPOINT_READY_INTERVAL_IN_SEC * Z.of_nat n
  <= clock (wait_polls n name w).
Proof.
  induction n as [|n (Ho & He & Hg & Hc)]; cbn [wait_polls].
  - repeat split; [lia | unfold WAIT_DEV_ENDPOINT_READY_INTERVAL_IN_SEC; lia].
  - pose proof (clock_poll_world name (wait_polls n name w)) as Hpoll.
    unfold poll_world in *. cbn [replay] in *.
    change (oracle (perform _ (perform _ (perform _ ?x)))) with (oracle x).
    change (endpoints (perform _ (perform _ (perform _ ?x)))) with (endpoints x).
    change (glue_calls (perform _ (perform _ (perform _ ?x)))) with (S (glue_calls x)).
    rewrite Ho, He, Hg. repeat split; [lia|].
    unfold WAIT_DEV_ENDPOINT_READY_INTERVAL_IN_SEC in *. lia.
Qed.

(** One poll, seen from the loop. *)
Lemma wait_loop_poll fuel name start r w :
  clock w - start < UPDATE_DEV_ENDPOINT_TIMEOUT_IN_SEC ->
  endpoints w !! name = Some r ->
  glue_fault (oracle w) (glue_calls w) = false ->
  wait_dev_endpoint_ready_loop (S fuel) name start w =
  match glue_status (oracle w) (glue_calls w) with
  | None => (Ok tt, poll_world name w)
  | Some status =>
      if String.eqb status COMPLETED then
        (Ok tt, perform (EvLog INFO ("dev_endpoint=" +:+ name +:+ " ready")) (poll_world name w))
      else if String.eqb status FAILED then
        (Raise (ValueError ("LastUpdateStatus is FAILED, dev_endpoint=" +:+ name)),
         poll_world name w)
      else wait_dev_endpoint_ready_loop fuel name start (poll_world name w)
  end.
Proof.
  intros Hguard Hr Hfault. rewrite wait_dev_endpoint_ready_loop_unfold.
  apply Z.ltb_lt in Hguard. rewrite Hguard. cbn zeta.
  unfold glue_get_dev_endpoint.
  change (oracle (perform _ (perform _ w))) with (oracle w).
  change (glue_calls (perform _ (perform _ w))) with (glue_calls w).
  change (endpoints (perform _ (perform _ w))) with (endpoints w).
  rewrite Hfault, Hr. cbn [LastUpdateStatus]. reflexivity.
Qed.

(** [n] polls that were started in time and saw the endpoint updating. *)
Lemma wait_loop_pending n name start r : forall fuel w,
  endpoints w !! name = Some r ->
  (forall i, (i < n)%nat ->
     glue_fault (oracle w) (glue_calls w + i) = false /\
     still_updating (glue_status (oracle w) (glue_calls w + i)) = true) ->
  (forall i, (i < n)%nat ->
     clock (wait_polls i name w) - start < UPDATE_DEV_ENDPOINT_TIMEOUT_IN_SEC) ->
  wait_dev_endpoint_ready_loop (n + fuel) name start w =
  wait_dev_endpoint_ready_loop fuel name start (wait_polls n name w).
Proof.
  induction n as [|n IH]; intros fuel w Hr Hpending Htime; [done|].
  destruct (Hpending 0%nat ltac:(lia)) as [Hfault Hstatus].
  rewrite Nat.add_0_r in Hfault, Hstatus.
  cbn [Nat.add]. rewrite (wait_loop_poll _ _ _ r); [|exact (Htime 0%nat ltac:(lia)) | done | done].
  destruct (glue_status (oracle w) (glue_calls w)) as [status|]; [|done].
  cbn [still_updating] in Hstatus. apply andb_true_iff in Hstatus as [H1 H2].
  apply negb_true_iff in H1, H2. rewrite H1, H2.
  cbn [wait_polls]. rewrite <- wait_polls_shift.
  destruct (wait_polls_facts 1 name w) as (Ho & He & Hg & _). cbn [wait_polls] in *.
  apply IH.
  - by rewrite He.
  - intros i Hi. rewrite Ho, Hg.
    replace (glue_calls w + 1 + i)%nat with (glue_calls w + S i)%nat by lia.
    apply Hpending. lia.
  - intros i Hi. rewrite wait_polls_shift. apply (Htime (S i)). lia.
Qed.

(** After [n] such polls the wait is where its loop is with the fuel that
    is left; the polls take 5 seconds each, so that the fuel is enough. *)
Lemma wait_dev_endpoint_ready_after_polls name (r : RemoteEndpoint) (w : World) (n : nat) :
  endpoints w !! name = Some r ->
  (forall i, (i < n)%nat ->
     glue_fault (oracle w) (glue_calls w + i) = false /\
     still_updating (glue_status (oracle w) (glue_calls w + i)) = true) ->
  (forall i, (i < n)%nat ->
     clock (wait_polls i name w) - clock w < UPDATE_DEV_ENDPOINT_TIMEOUT_IN_SEC) ->
  (n <= wait_fuel)%nat /\
  wait_dev_endpoint_ready name w =
  wait_dev_endpoint_ready_loop (wait_fuel - n) name (clock w) (wait_polls n name w).
Proof.
  intros Hr Hpending Htime.
  assert (Hfuel : Z.of_nat wait_fuel = 120) by reflexivity.
  assert (Hn : (n <= wait_fuel)%nat).
  { destruct n as [|n]; [lia|].
    pose proof (Htime n ltac:(lia)) as Hlast.
    destruct (wait_polls_facts n name w) as (_ & _ & _ & Hcn).
    unfold UPDATE_DEV_ENDPOINT_TIMEOUT_IN_SEC, WAIT_DEV_ENDPOINT_READY_INTERVAL_IN_SEC in *.
    lia. }
  split; [exact Hn|].
  unfold wait_dev_endpoint_ready, bind, time_time.
  replace wait_fuel with (n + (wait_fuel - n))%nat at 1 by lia.
  by apply (wait_loop_pending n name (clock w) r).
Qed.

(** The wait gives up when the time is over. *)
Lemma wait_dev_endpoint_ready_times_out name (r : RemoteEndpoint) (w : World) (n : nat) :
  endpoints w !! name = Some r ->
  (forall i, (i < n)%nat ->
     glue_fault (oracle w) (glue_calls w + i) = false /\
     still_updating (glue_status (oracle w) (glue_calls w + i)) = true) ->
  (forall i, (i < n)%nat ->
     clock (wait_polls i name w) - clock w < UPDATE_DEV_ENDPOINT_TIMEOUT_IN_SEC) ->
  UPDATE_DEV_ENDPOINT_TIMEOUT_IN_SEC <= clock (wait_polls n name w) - clock w ->
  wait_dev_endpoint_ready name w =
  (Ok tt, perform (EvLog ERROR ("Wait dev_endpoint=" +:+ name +:+ " ready timeout"))
            (wait_polls n name w)).
Proof.
  intros Hr Hpending Htime Hover.
  destruct (wait_dev_endpoint_ready_after_polls name r w n Hr Hpending Htime) as [_ Hrun].
  rewrite Hrun, wait_dev_endpoint_ready_loop_unfold.
  apply Z.ltb_ge in Hover. by rewrite Hover.
Qed.

(** C4 (amended).  [wait_dev_endpoint_ready] starts a poll only while less
    than 600 seconds have passed on the clock since it was called, and a
    poll takes 5 seconds at least, so that at most 120 polls are made.
    After [n] polls that saw the endpoint still updating: if a further poll
    is started and sees no status or [COMPLETED], the wait returns; if it
    sees [FAILED], the wait raises [ValueError], at least [5 * (n + 1)]
    seconds after the call (which may be after the 600 seconds); and if the
    600 seconds have passed, the wait logs an error and returns. *)
Theorem wait_dev_endpoint_ready_outcomes name (r : RemoteEndpoint) (w : World) (n : nat) :
  endpoints w !! name = Some r ->
  (forall i, (i < n)%nat ->
     glue_fault (oracle w) (glue_calls w + i) = false /\
     still_updating (glue_status (oracle w) (glue_calls w + i)) = true) ->
  (forall i, (i < n)%nat ->
     clock (wait_polls i name w) - clock w < UPDATE_DEV_ENDPOINT_TIMEOUT_IN_SEC) ->
  (n <= wait_fuel)%nat /\
  (clock (wait_polls n name w) - clock w < UPDATE_DEV_ENDPOINT_TIMEOUT_IN_SEC ->
   glue_fault (oracle w) (glue_calls w + n) = false ->
   (glue_status (oracle w) (glue_calls w + n) = None ->
      wait_dev_endpoint_ready name w = (Ok tt, wait_polls (S n) name w)) /\
   (glue_status (oracle w) (glue_calls w + n) = Some COMPLETED ->
      wait_dev_endpoint_ready name w =
      (Ok tt, perform (EvLog INFO ("dev_endpoint=" +:+ name +:+ " ready"))
                (wait_polls (S n) name w))) /\
   (glue_status (oracle w) (glue_calls w + n) = Some FAILED ->
      wait_dev_endpoint_ready name w =
      (Raise (ValueError ("LastUpdateStatus is FAILED, dev_endpoint=" +:+ name)),
       wait_polls (S n) name w)) /\
   WAIT_DEV_ENDPOINT_READY_INTERVAL_IN_SEC * Z.of_nat (S n)
   <= clock (wait_polls (S n) name w) - clock w) /\
  (UPDATE_DEV_ENDPOINT_TIMEOUT_IN_SEC <= clock (wait_polls n name w) - clock w ->
   wait_dev_endpoint_ready name w =
   (Ok tt, perform (EvLog ERROR ("Wait dev_endpoint=" +:+ name +:+ " ready timeout"))
             (wait_polls n name w))).
Proof.
  intros Hr Hpending Htime.
  assert (Hfuel : Z.of_nat wait_fuel = 120) by reflexivity.
  destruct (wait_polls_facts n name w) as (Ho & He & Hg & Hc).
  destruct (wait_polls_facts (S n) name w) as (_ & _ & _ & Hc').
  destruct (wait_dev_endpoint_ready_after_polls name r w n Hr Hpending Htime) as [Hn Hrun].
  split; [exact Hn|]. split.
  - intros Hguard Hfault.
    destruct (wait_fuel - n)%nat as [|fuel] eqn:Hleft.
    { unfold UPDATE_DEV_ENDPOINT_TIMEOUT_IN_SEC, WAIT_DEV_ENDPOINT_READY_INTERVAL_IN_SEC in *.
      lia. }
    rewrite (wait_loop_poll _ _ _ r) in Hrun; [|done | by rewrite He | by rewrite Ho, Hg].
    rewrite Ho, Hg in Hrun.
    change (poll_world name (wait_polls n name w)) with (wait_polls (S n) name w) in Hrun.
    repeat split.
    + intros Hs. by rewrite Hs in Hrun.
    + intros Hs. by rewrite Hs in Hrun.
    + intros Hs. by rewrite Hs in Hrun.
    + lia.
  - by apply (wait_dev_endpoint_ready_times_out name r).
Qed.

Lemma below_forallb (n : nat) (p : nat -> bool) :
  forallb p (seq 0 n) = true -> forall i, (i < n)%nat -> p i = true.
Proof. intros H i Hi. rewrite forallb_forall in H. apply H, in_seq. lia. Qed.

Lemma wait_dev_endpoint_ready_outcomes_witness :
  fst (wait_dev_endpoint_ready "epA" (world_of (status_after 2 (Some FAILED)) ∅))
    = Raise (ValueError "LastUpdateStatus is FAILED, dev_endpoint=epA") /\
  fst (wait_dev_endpoint_ready "epA" (world_of (status_after 2 (Some COMPLETED)) ∅)) = Ok tt /\
  wait_dev_endpoint_ready "epA" (world_of (status_after 200 None) ∅)
    = (Ok tt, perform (EvLog ERROR "Wait dev_endpoint=epA ready timeout")
                (wait_polls 120 "epA" (world_of (status_after 200 None) ∅))) /\
  wait_dev_endpoint_ready "epA" (world_of (slow 1 (status_after 200 None)) ∅)
    = (Ok tt, perform (EvLog ERROR "Wait dev_endpoint=epA ready timeout")
                (wait_polls 75 "epA" (world_of (slow 1 (status_after 200 None)) ∅))).
Proof.
  assert (Hr : forall o, endpoints (world_of o ∅) !! "epA"
                         = Some (mkRemoteEndpoint None None (Some "10.0.0.1") None))
    by (intros o; reflexivity).
  assert (Hpending : forall seconds m final i, (i < m)%nat ->
            glue_fault (oracle (world_of (slow seconds (status_after m final)) ∅))
                       (glue_calls (world_of (slow seconds (status_after m final)) ∅) + i)
            = false /\
            still_updating
              (glue_status (oracle (world_of (slow seconds (status_after m final)) ∅))
                           (glue_calls (world_of (slow seconds (status_after m final)) ∅) + i))
            = true).
  { intros seconds m final i Hi. split; [reflexivity|].
    change (still_updating (if (i <? m)%nat then Some "PENDING" else final) = true).
    apply Nat.ltb_lt in Hi. by rewrite Hi. }
  assert (Htime : forall o n,
            forallb (fun i => clock (wait_polls i "epA" (world_of o ∅)) - clock (world_of o ∅)
                              <? UPDATE_DEV_ENDPOINT_TIMEOUT_IN_SEC) (seq 0 n) = true ->
            forall i, (i < n)%nat ->
              clock (wait_polls i "epA" (world_of o ∅)) - clock (world_of o ∅)
              < UPDATE_DEV_ENDPOINT_TIMEOUT_IN_SEC).
  { intros o n H i Hi. apply Z.ltb_lt. by apply (below_forallb n _ H). }
  split; [|split; [|split]].
  - destruct (wait_dev_endpoint_ready_outcomes "epA" _ (world_of (status_after 2 (Some FAILED)) ∅)
                2 (Hr _) (Hpending 0%N 2%nat (Some FAILED))
                (Htime (status_after 2 (Some FAILED)) 2%nat ltac:(vm_compute; reflexivity)))
      as (_ & Hnext & _).
    destruct (Hnext ltac:(vm_compute; reflexivity) eq_refl) as (_ & _ & Hfailed & _).
    by rewrite (Hfailed eq_refl).
  - destruct (wait_dev_endpoint_ready_outcomes "epA" _
                (world_of (status_after 2 (Some COMPLETED)) ∅)
                2 (Hr _) (Hpending 0%N 2%nat (Some COMPLETED))
                (Htime (status_after 2 (Some COMPLETED)) 2%nat ltac:(vm_compute; reflexivity)))
      as (_ & Hnext & _).
    destruct (Hnext ltac:(vm_compute; reflexivity) eq_refl) as (_ & Hcompleted & _).
    by rewrite (Hcompleted eq_refl).
  - destruct (wait_dev_endpoint_ready_outcomes "epA" _ (world_of (status_after 200 None) ∅)
                120 (Hr _)) as (_ & _ & Htimeout).
    + intros i Hi. apply (Hpending 0%N). lia.
    + apply (Htime (status_after 200 None) 120%nat). vm_compute. reflexivity.
    + apply Htimeout. vm_compute. discriminate.
  - destruct (wait_dev_endpoint_ready_outcomes "epA" _
                (world_of (slow 1 (status_after 200 None)) ∅) 75 (Hr _)) as (_ & _ & Htimeout).
    + intros i Hi. apply (Hpending 1%N). lia.
    + apply (Htime (slow 1 (status_after 200 None)) 75%nat). vm_compute. reflexivity.
    + apply Htimeout. vm_compute. discriminate.
Defined.

(** Against C4 as stated: the Glue API answers at once and the 120th poll,
    started 595 seconds after the call, sees [FAILED]; the wait raises when
    the 600 seconds have passed, not before. *)
Lemma failed_poll_raises_after_timeout :
  fst (wait_dev_endpoint_ready "epA" (world_of (status_after 119 (Some FAILED)) ∅))
    = Raise (ValueError "LastUpdateStatus is FAILED, dev_endpoint=epA") /\
  clock (wait_polls 119 "epA" (world_of (status_after 119 (Some FAILED)) ∅))
    - clock (world_of (status_after 119 (Some FAILED)) ∅) = 595 /\
  clock (snd (wait_dev_endpoint_ready "epA" (world_of (status_after 119 (Some FAILED)) ∅)))
    - clock (world_of (status_after 119 (Some FAILED)) ∅)
    = UPDATE_DEV_ENDPOINT_TIMEOUT_IN_SEC.
Proof. vm_compute. repeat split; reflexivity. Qed.
(** * connect and the liveness probe *)

Ltac run_binds :=
  repeat lazymatch goal with
    | |- context [let (_, _) := ?x in _] => destruct x as [[?|?|] ?]
    end.

Lemma connect_dev_endpoint_split arn nb name w :
  connect_dev_endpoint arn nb name w =
  bind (connect_prefix nb name)
       (fun _ => bind ping_livy (fun _ => connect_suffix arn name)) w.
Proof.
  unfold connect_dev_endpoint, connect_prefix, connect_suffix, bind.
  run_binds; reflexivity.
Qed.

Lemma connect_prefix_quiet nb name :
  sat (fun e => quiet e = true) (connect_prefix nb name).
Proof. sat_walk; intros; reflexivity. Qed.

Lemma notebook_tags_perform e w :
  is_tag_write e = false -> notebook_tags (perform e w) = notebook_tags w.
Proof. destruct e; cbn; try done; repeat case_match; done. Qed.

Lemma notebook_tags_replay t w :
  Forall (fun e => is_tag_write e = false) t -> notebook_tags (replay t w) = notebook_tags w.
Proof.
  induction 1 as [|e t He _ IH]; cbn [replay]; [done|]. by rewrite notebook_tags_perform.
Qed.

Lemma quiet_replay t w :
  Forall (fun e => quiet e = true) t ->
  fs (replay t w) !! CURRENT_DEV_ENDPOINT_PATH = fs w !! CURRENT_DEV_ENDPOINT_PATH /\
  probes (replay t w) = probes w /\
  notebook_tags (replay t w) = notebook_tags w.
Proof.
  intros Ht. repeat split.
  - apply fs_replay. eapply Forall_impl; [exact Ht|]. unfold quiet. intros e He.
    by destruct (touches _ e).
  - apply probes_replay. eapply Forall_impl; [exact Ht|]. unfold quiet. intros e He.
    destruct (is_probe e); [|done]. by rewrite andb_false_r in He.
  - apply notebook_tags_replay. eapply Forall_impl; [exact Ht|]. unfold quiet. intros e He.
    destruct (is_tag_write e); [|done]. by rewrite andb_false_r in He.
Qed.

Lemma ping_livy_run w :
  ping_livy w =
  let o := livy (oracle w) (probes w) in
  let w' := perform (EvProbe LIVY_SERVER_TIMEOUT_IN_SEC o) (perform (EvLog INFO "Pinging Livy...") w) in
  match o with
  | LivyResponse => (Ok tt, perform (EvLog INFO "Pinged Livy") w')
  | _ => (Raise (probe_exn o), w')
  end.
Proof.
  unfold ping_livy, bind, logger, requests_get. cbn [fst snd].
  change (oracle (perform _ w)) with (oracle w).
  change (probes (perform _ w)) with (probes w).
  by destruct (livy (oracle w) (probes w)).
Qed.

(** C2 (amended).  When the liveness probe of [connect_dev_endpoint]
    fails, connect raises: the binding file and the notebook tags are as
    they were before the call; and if the steps before the probe went
    through, the exception is the one of the probe and the probe is the
    last thing connect did (nothing is logged about it). *)
Theorem connect_raises_when_probe_fails arn nb name (w : World) :
  livy (oracle w) (probes w) <> LivyResponse ->
  (exists e, fst (connect_dev_endpoint arn nb name w) = Raise e) /\
  fs (snd (connect_dev_endpoint arn nb name w)) !! CURRENT_DEV_ENDPOINT_PATH
    = fs w !! CURRENT_DEV_ENDPOINT_PATH /\
  notebook_tags (snd (connect_dev_endpoint arn nb name w)) = notebook_tags w /\
  (forall w1, connect_prefix nb name w = (Ok tt, w1) ->
     connect_dev_endpoint arn nb name w =
     (Raise (probe_exn (livy (oracle w) (probes w))),
      perform (EvProbe LIVY_SERVER_TIMEOUT_IN_SEC (livy (oracle w) (probes w)))
        (perform (EvLog INFO "Pinging Livy...") w1))).
Proof.
  intros Hfail.
  destruct (connect_prefix_quiet nb name w) as [Hend (t & Hw1 & Ht)].
  destruct (quiet_replay t w Ht) as (Hfs & Hprobes & Htags).
  pose proof (connect_dev_endpoint_split arn nb name w) as Hrun.
  unfold bind at 1 in Hrun.
  destruct (connect_prefix nb name w) as [[[]|e|] w1]; cbn [fst snd] in *; subst w1.
  - unfold bind at 1 in Hrun. rewrite ping_livy_run in Hrun. cbn zeta in Hrun.
    rewrite oracle_replay, Hprobes in Hrun.
    destruct (livy (oracle w) (probes w)) eqn:Ho; [done| |];
      rewrite Hrun; cbn [fst snd];
      (split; [by eexists|]; split; [exact Hfs|]; split; [exact Htags|];
       by intros w1 [= <-]).
  - rewrite Hrun. cbn [fst snd].
    split; [by eexists|]. split; [exact Hfs|]. split; [exact Htags|]. by intros w1 [=].
  - done.
Qed.

Lemma connect_raises_when_probe_fails_witness :
  livy (oracle refused_world) (probes refused_world) <> LivyResponse /\
  (exists e, fst (connect_dev_endpoint "arn" "nb" "epA" refused_world) = Raise e) /\
  fs (snd (connect_dev_endpoint "arn" "nb" "epA" refused_world)) !! CURRENT_DEV_ENDPOINT_PATH
    = fs refused_world !! CURRENT_DEV_ENDPOINT_PATH.
Proof.
  assert (H : livy (oracle refused_world) (probes refused_world) <> LivyResponse)
    by discriminate.
  split; [exact H|].
  destruct (connect_raises_when_probe_fails "arn" "nb" "epA" refused_world H)
    as (Hraise & Hfs & _).
  split; [exact Hraise | exact Hfs].
Defined.

(** Against C2 as stated: with everything else healthy, a refused
    probe makes connect raise [ConnectionError], no warning is logged and
    the binding file is not written. *)
Lemma failed_probe_is_fatal :
  fst (connect_dev_endpoint "arn" "nb" "epA" refused_world) = Raise ConnectionError /\
  fs (snd (connect_dev_endpoint "arn" "nb" "epA" refused_world)) !! CURRENT_DEV_ENDPOINT_PATH
    = None /\
  head (trace (snd (connect_dev_endpoint "arn" "nb" "epA" refused_world)))
    = Some (EvProbe LIVY_SERVER_TIMEOUT_IN_SEC LivyRefused) /\
  Forall (fun e => match e with EvLog WARNING _ => False | _ => True end)
    (trace (snd (connect_dev_endpoint "arn" "nb" "epA" refused_world))).
Proof. vm_compute. repeat split; try reflexivity. repeat constructor. Qed.

(** * The switch tick: clear the binding, then disconnect *)

Lemma bind_bind_ok {A B C} (m : M A) (k : A -> M B) (k' : B -> M C) w a w' :
  m w = (Ok a, w') -> bind (bind m k) k' w = bind (k a) k' w'.
Proof. unfold bind. by intros ->. Qed.

Lemma get_current_dev_endpoint_bound w current :
  fs w !! CURRENT_DEV_ENDPOINT_PATH = Some current ->
  CURRENT_DEV_ENDPOINT_PATH ∉ io_faulty w ->
  get_current_dev_endpoint w = (Ok (Some current), perform (EvRead CURRENT_DEV_ENDPOINT_PATH) w).
Proof.
  intros Hfile Hok.
  unfold get_current_dev_endpoint, try_except, bind, os_path_exists, open_read.
  cbn [fst snd]. rewrite Hfile.
  rewrite (bool_decide_eq_true_2 (is_Some (Some current))) by done. cbn [orb].
  rewrite (bool_decide_eq_false_2 _ Hok). cbv beta. by rewrite ?Hfile.
Qed.

Lemma get_latest_dev_endpoint_tagged arn w key latest rest :
  sm_fault (oracle w) (sm_calls w) = false ->
  List.filter (fun x => String.eqb (fst x) "aws-glue-dev-endpoint") (notebook_tags w)
    = (key, latest) :: rest ->
  get_latest_dev_endpoint arn w = (Ok latest, perform EvListTags w).
Proof.
  intros Hfault Htag. unfold get_latest_dev_endpoint, bind, sagemaker_list_tags.
  by rewrite Hfault, Htag.
Qed.

Lemma remove_dev_endpoint_bound name w current :
  fs w !! CURRENT_DEV_ENDPOINT_PATH = Some current ->
  CURRENT_DEV_ENDPOINT_PATH ∉ io_faulty w ->
  remove_dev_endpoint name w =
  (Ok tt, replay [EvLog INFO ("Removed current_dev_endpoint=" +:+ name);
                  EvRemove CURRENT_DEV_ENDPOINT_PATH;
                  EvLog INFO ("Removing current_dev_endpoint=" +:+ name)] w).
Proof.
  intros Hfile Hok.
  unfold remove_dev_endpoint, try_except, bind, os_path_exists, os_remove, logger.
  rewrite Hfile.
  rewrite (bool_decide_eq_true_2 (is_Some (Some current))) by done. cbn [orb].
  change (io_faulty (perform _ w)) with (io_faulty w).
  change (fs (perform (EvLog ?l ?m) w)) with (fs w).
  by rewrite (bool_decide_eq_false_2 _ Hok), Hfile.
Qed.

Lemma switch_daemon_tick_changed arn nb w current key latest rest :
  fs w !! CURRENT_DEV_ENDPOINT_PATH = Some current ->
  CURRENT_DEV_ENDPOINT_PATH ∉ io_faulty w ->
  truthy current = true ->
  sm_fault (oracle w) (sm_calls w) = false ->
  List.filter (fun x => String.eqb (fst x) "aws-glue-dev-endpoint") (notebook_tags w)
    = (key, latest) :: rest ->
  current <> latest ->
  switch_daemon_tick arn nb w =
  bind (disconnect_after_log arn nb current)
       (fun _ => switch_after_disconnect arn nb current latest)
       (replay (EvLog INFO ("Disconnecting from dev_endpoint=" +:+ current)
                :: switch_before_disconnect current latest) w).
Proof.
  intros Hfile Hok Htruthy Hfault Htag Hne.
  unfold switch_daemon_tick.
  rewrite (bind_ok _ _ _ _ _ (get_current_dev_endpoint_bound w current Hfile Hok)).
  cbv beta.
  set (w1 := perform (EvRead CURRENT_DEV_ENDPOINT_PATH) w).
  assert (Hfault1 : sm_fault (oracle w1) (sm_calls w1) = false) by exact Hfault.
  assert (Htags1 : notebook_tags w1 = notebook_tags w) by reflexivity.
  rewrite <- Htags1 in Htag.
  rewrite (bind_ok _ _ _ _ _
             (get_latest_dev_endpoint_tagged arn w1 key latest rest Hfault1 Htag)).
  cbv beta zeta.
  rewrite (bool_decide_eq_false_2 (Some current = Some latest)) by congruence.
  cbn [negb truthy_opt default]. rewrite Htruthy.
  unfold logger at 1, bind at 1.
  set (w3 := perform (EvLog INFO _) _).
  assert (Hfs3 : fs w3 = fs w) by reflexivity.
  assert (Hio3 : io_faulty w3 = io_faulty w) by reflexivity.
  rewrite <- Hfs3 in Hfile. rewrite <- Hio3 in Hok.
  assert (Hremove := remove_dev_endpoint_bound current w3 current Hfile Hok).
  rewrite (bind_bind_ok _ _ _ _ _ _ Hremove).
  unfold disconnect_dev_endpoint.
  assert (Hlog : forall w', logger INFO ("Disconnecting from dev_endpoint=" +:+ current) w'
                            = (Ok tt, perform (EvLog INFO ("Disconnecting from dev_endpoint=" +:+ current)) w'))
    by reflexivity.
  rewrite (bind_bind_ok _ _ _ _ _ _ (Hlog _)).
  reflexivity.
Qed.

Lemma switch_rest_keeps_binding_file arn nb current latest :
  sat (fun e => is_unbind e = false)
      (bind (disconnect_after_log arn nb current)
            (fun _ => switch_after_disconnect arn nb current latest)).
Proof. sat_walk; intros; reflexivity. Qed.

(** C5.  In a switch tick that finds the notebook bound to [current] while
    the tag names another endpoint, the binding file is removed before
    disconnect starts: when disconnect writes its first log line the file
    is gone and disconnect had not started before; and nothing removes the
    binding file from then to the end of the tick. *)
Theorem switch_clears_binding_before_disconnect arn nb (w : World)
    (current key latest : string) (rest : list (string * string)) :
  fs w !! CURRENT_DEV_ENDPOINT_PATH = Some current ->
  CURRENT_DEV_ENDPOINT_PATH ∉ io_faulty w ->
  truthy current = true ->
  sm_fault (oracle w) (sm_calls w) = false ->
  List.filter (fun x => String.eqb (fst x) "aws-glue-dev-endpoint") (notebook_tags w)
    = (key, latest) :: rest ->
  current <> latest ->
  exists t_before t_after,
    snd (switch_daemon_tick arn nb w) =
      replay (t_after ++ EvLog INFO ("Disconnecting from dev_endpoint=" +:+ current)
                         :: t_before) w /\
    In (EvRemove CURRENT_DEV_ENDPOINT_PATH) t_before /\
    ~ In (EvLog INFO ("Disconnecting from dev_endpoint=" +:+ current)) t_before /\
    fs (replay t_before w) !! CURRENT_DEV_ENDPOINT_PATH = None /\
    Forall (fun e => e <> EvRemove CURRENT_DEV_ENDPOINT_PATH) t_after.
Proof.
  intros Hfile Hok Htruthy Hfault Htag Hne.
  rewrite (switch_daemon_tick_changed arn nb w current key latest rest) by done.
  destruct (switch_rest_keeps_binding_file arn nb current latest
              (replay (EvLog INFO ("Disconnecting from dev_endpoint=" +:+ current)
                       :: switch_before_disconnect current latest) w))
    as [_ (t & Hrun & Ht)].
  exists (switch_before_disconnect current latest), t.
  split; [by rewrite Hrun, replay_app|].
  split; [cbn; auto|].
  split.
  { unfold switch_before_disconnect. cbn [In].
    intros H. repeat destruct H as [H|H]; try discriminate H; done. }
  split.
  { unfold switch_before_disconnect. cbn [replay].
    rewrite fs_perform by reflexivity. cbn [perform effect emit set_fs fs].
    apply lookup_delete_eq. }
  eapply Forall_impl; [exact Ht|]. intros e He ->. vm_compute in He. discriminate He.
Qed.

Lemma switch_clears_binding_before_disconnect_witness :
  exists t_before t_after,
    snd (switch_daemon_tick "arn" "nb" switching_world) =
      replay (t_after ++ EvLog INFO "Disconnecting from dev_endpoint=epA" :: t_before)
             switching_world /\
    In (EvRemove CURRENT_DEV_ENDPOINT_PATH) t_before /\
    fs (replay t_before switching_world) !! CURRENT_DEV_ENDPOINT_PATH = None.
Proof.
  destruct (switch_clears_binding_before_disconnect "arn" "nb" switching_world
              "epA" "aws-glue-dev-endpoint" "epB" [])
    as (t_before & t_after & Hrun & Hin & _ & Hgone & _).
  - reflexivity.
  - apply (bool_decide_unpack _). vm_compute. exact I.
  - reflexivity.
  - reflexivity.
  - reflexivity.
  - discriminate.
  - exists t_before, t_after. repeat split; assumption.
Defined.

(** * connect, then disconnect *)

Lemma bind_Ok_inv {A B} (m : M A) (k : A -> M B) w b w' :
  bind m k w = (Ok b, w') -> exists a w1, m w = (Ok a, w1) /\ k a w1 = (Ok b, w').
Proof.
  unfold bind. destruct (m w) as [[a|e|] w1]; [|discriminate..]. intros H. by exists a, w1.
Qed.

Lemma sat_run P {A} (m : M A) w r w' :
  sat P m -> m w = (r, w') -> exists t, w' = replay t w /\ Forall P t.
Proof. intros Hsat Hrun. destruct (Hsat w) as [_ H]. by rewrite Hrun in H. Qed.

Lemma fs_replay_unchanged t w :
  Forall (fun e => changes_files e = false) t -> fs (replay t w) = fs w.
Proof.
  induction 1 as [|e t He _ IH]; cbn [replay]; [done|].
  destruct e; cbn in He |- *; try discriminate; repeat case_match;
    try exact IH; discriminate.
Qed.

Lemma endpoints_absent_perform e w name :
  endpoints w !! name = None -> endpoints (perform e w) !! name = None.
Proof.
  intros Habsent. destruct e; cbn; repeat case_match; try exact Habsent.
  by apply lookup_alter_None.
Qed.

Lemma endpoints_absent_replay t w name :
  endpoints w !! name = None -> endpoints (replay t w) !! name = None.
Proof.
  intros Habsent. induction t as [|e t IH]; cbn [replay]; [done|].
  by apply endpoints_absent_perform.
Qed.

Lemma append_assoc (a b c : string) : (a +:+ b) +:+ c = a +:+ b +:+ c.
Proof.
  induction a as [|x a IH]; [reflexivity|].
  change (String x ((a +:+ b) +:+ c) = String x (a +:+ b +:+ c)). by rewrite IH.
Qed.

Lemma str_in_public_key_line material comment :
  str_in comment (public_key_line material comment) = true.
Proof.
  apply str_in_spec. exists ("ssh-rsa " +:+ material +:+ " "), newline.
  unfold public_key_line. by rewrite !append_assoc.
Qed.

(** What a successful connect leaves behind. *)

Lemma connect_dev_endpoint_split_keygen arn nb name w :
  connect_dev_endpoint arn nb name w =
  bind (connect_until_keygen nb name)
       (fun _ => bind (connect_after_keygen name) (fun _ => connect_suffix arn name)) w.
Proof.
  unfold connect_dev_endpoint, connect_until_keygen, connect_after_keygen, connect_suffix, bind.
  run_binds; reflexivity.
Qed.

Lemma generate_ssh_keypair_split nb w :
  generate_ssh_keypair nb w =
  bind (logger INFO ("Generating SSH keypair at " +:+ SSH_KEY_PRIVATE_PATH) ;;
        dir_present <- os_path_exists SSH_KEY_DIR ;;
        if (dir_present : bool) then
          key_present <- os_path_exists SSH_KEY_PRIVATE_PATH ;;
          if (key_present : bool) then
            public_key <- get_public_key ;;
            logger WARNING ("Removing current SSH keypair " +:+ public_key) ;;
            os_remove SSH_KEY_PRIVATE_PATH ;;
            logger WARNING ("Removed current SSH keypair " +:+ public_key)
          else ret tt
        else
          logger INFO ("Creating directory at " +:+ SSH_KEY_DIR) ;;
          pathlib_mkdir SSH_KEY_DIR ;;
          logger INFO ("Created directory at " +:+ SSH_KEY_DIR))
       (fun _ => bind (ssh_keygen SSH_KEY_PRIVATE_PATH nb) after_ssh_keygen) w.
Proof.
  unfold generate_ssh_keypair, after_ssh_keygen, bind.
  run_binds; reflexivity.
Qed.

Lemma after_ssh_keygen_keeps_files output :
  sat (fun e => changes_files e = false) (after_ssh_keygen output).
Proof. sat_walk; intros; reflexivity. Qed.

Lemma generate_ssh_keypair_ok nb w w' :
  generate_ssh_keypair nb w = (Ok tt, w') ->
  exists material, fs w' !! SSH_KEY_PUBLIC_PATH = Some (public_key_line material nb).
Proof.
  rewrite generate_ssh_keypair_split.
  intros (_ & w1 & _ & (output & w2 & Hkeygen & Htail)%bind_Ok_inv)%bind_Ok_inv.
  unfold ssh_keygen in Hkeygen.
  destruct (fs w1 !! SSH_KEY_PRIVATE_PATH); [discriminate|].
  injection Hkeygen as _ <-.
  destruct (sat_run _ _ _ _ _ (after_ssh_keygen_keeps_files output) Htail) as (t & -> & Ht).
  exists (keygen (oracle w1) (keygens w1)).
  rewrite fs_replay_unchanged by done.
  cbn [perform effect emit fs tick_keygens set_fs].
  apply lookup_insert_eq.
Qed.

Lemma connect_after_keygen_keeps_key name :
  sat (fun e => touches SSH_KEY_PUBLIC_PATH e = false) (connect_after_keygen name).
Proof. sat_walk; intros; reflexivity. Qed.

Lemma connect_suffix_keeps_key arn name :
  sat (fun e => touches SSH_KEY_PUBLIC_PATH e = false) (connect_suffix arn name).
Proof. sat_walk; intros; reflexivity. Qed.

Lemma connect_suffix_tail_keeps_files arn name :
  sat (fun e => changes_files e = false)
      (update_connection_tag arn "ready" ;;
       logger INFO ("Connected to dev_endpoint=" +:+ name)).
Proof. sat_walk; intros; reflexivity. Qed.

Lemma save_current_dev_endpoint_ok name w w' :
  save_current_dev_endpoint name w = (Ok tt, w') ->
  fs w' !! CURRENT_DEV_ENDPOINT_PATH = Some name.
Proof.
  unfold save_current_dev_endpoint, try_except, bind, open_write, logger, io_fail.
  change (io_faulty (perform _ w)) with (io_faulty w).
  change (write_faulty (perform _ w)) with (write_faulty w).
  destruct (bool_decide (CURRENT_DEV_ENDPOINT_PATH ∈ io_faulty w)); cbn; [discriminate|].
  destruct (bool_decide (CURRENT_DEV_ENDPOINT_PATH ∈ write_faulty w)); cbn; [discriminate|].
  intros [= <-]. cbn. apply lookup_insert_eq.
Qed.

Lemma connect_dev_endpoint_ok arn nb name w w1 :
  connect_dev_endpoint arn nb name w = (Ok tt, w1) ->
  oracle w1 = oracle w /\
  fs w1 !! CURRENT_DEV_ENDPOINT_PATH = Some name /\
  exists material, fs w1 !! SSH_KEY_PUBLIC_PATH = Some (public_key_line material nb).
Proof.
  intros Hconnect. split.
  { destruct (sat_run _ _ _ _ _ (connect_dev_endpoint_ends arn nb name) Hconnect) as (t & -> & _).
    apply oracle_replay. }
  rewrite connect_dev_endpoint_split_keygen in Hconnect.
  apply bind_Ok_inv in Hconnect as ([] & wk & Hkeygen & Hrest).
  apply bind_Ok_inv in Hrest as ([] & wp & Hafter & Hsuffix).
  split.
  - unfold connect_suffix in Hsuffix.
    apply bind_Ok_inv in Hsuffix as ([] & ws & Hsave & Htail).
    destruct (sat_run _ _ _ _ _ (connect_suffix_tail_keeps_files arn name) Htail)
      as (t & -> & Ht).
    rewrite fs_replay_unchanged by done. by apply save_current_dev_endpoint_ok in Hsave.
  - unfold connect_until_keygen in Hkeygen.
    apply bind_Ok_inv in Hkeygen as (_ & wa & _ & Hkeygen).
    apply bind_Ok_inv in Hkeygen as (_ & wb & _ & Hgen).
    apply generate_ssh_keypair_ok in Hgen as [material Hpub].
    exists material.
    destruct (sat_run _ _ _ _ _ (connect_after_keygen_keeps_key name) Hafter) as (t1 & -> & Ht1).
    destruct (sat_run _ _ _ _ _ (connect_suffix_keeps_key arn name) Hsuffix) as (t2 & -> & Ht2).
    by rewrite !fs_replay.
Qed.

(** What disconnect does to the registered keys. *)

Lemma deleted_keys_spec nb r k :
  In k (deleted_keys nb r) <->
  remote_key r = Some k \/ (In k (default [] (remote_keys r)) /\ str_in nb k = true).
Proof. unfold deleted_keys. by rewrite public_keys_to_delete_spec. Qed.

Lemma no_notebook_keys_after_deletion nb r k :
  In k (registered_keys
          (match deleted_keys nb r with
           | [] => r
           | _ => apply_update [] (deleted_keys nb r) r
           end)) ->
  str_in nb k = false.
Proof.
  pose proof (deleted_keys_spec nb r) as Hspec.
  unfold registered_keys. rewrite in_app_iff.
  destruct (deleted_keys nb r) as [|d del] eqn:Hdel.
  - intros [Hsingle|Hplural].
    + destruct (remote_key r) as [k0|]; [|done].
      destruct (proj2 (Hspec k0)); by left.
    + destruct (str_in nb k) eqn:Hk; [|done].
      destruct (proj2 (Hspec k)). by right.
  - rewrite <- Hdel in *. intros [Hsingle|Hplural].
    + exfalso. unfold apply_update in Hsingle. cbn [remote_key] in Hsingle.
      destruct (remote_key r) as [k0|]; [|done].
      assert (Hmem : str_mem k0 (deleted_keys nb r) = true)
        by (apply str_mem_spec, Hspec; by left).
      by rewrite Hmem in Hsingle.
    + apply remaining_keys_spec in Hplural as [Hin Hnot].
      destruct (str_in nb k) eqn:Hk; [|done].
      destruct Hnot. apply Hspec. by right.
Qed.

Lemma disconnect_after_keys_no_update arn name :
  sat (fun e => is_update e = false) (disconnect_after_keys arn name).
Proof. sat_walk; intros; reflexivity. Qed.

Lemma disconnect_dev_endpoint_split arn nb name w :
  disconnect_dev_endpoint arn nb name w =
  bind (delete_public_keys_if_has nb name) (fun _ => disconnect_after_keys arn name)
       (perform (EvLog INFO ("Disconnecting from dev_endpoint=" +:+ name)) w).
Proof. reflexivity. Qed.

Lemma disconnect_removes_notebook_keys arn nb name w r' k :
  glue_healthy (oracle w) ->
  endpoints (snd (disconnect_dev_endpoint arn nb name w)) !! name = Some r' ->
  In k (registered_keys r') ->
  str_in nb k = false.
Proof.
  intros Hh Hafter Hin.
  destruct (endpoints w !! name) as [r|] eqn:Hr.
  - rewrite disconnect_dev_endpoint_split in Hafter.
    set (w1 := perform (EvLog INFO _) w) in *.
    destruct (delete_public_keys_if_has_healthy nb name r w1) as (t & Hrun & _ & _ & Hend);
      [exact Hh | exact Hr |].
    rewrite (bind_ok _ _ _ _ _ Hrun) in Hafter.
    destruct (disconnect_after_keys arn name (replay t w1)) as [res w2] eqn:Htail.
    destruct (sat_run _ _ _ _ _ (disconnect_after_keys_no_update arn name) Htail)
      as (t2 & -> & Ht2).
    cbn [snd] in Hafter. rewrite endpoints_replay in Hafter by done.
    rewrite Hend in Hafter. injection Hafter as <-.
    by apply no_notebook_keys_after_deletion in Hin.
  - destruct (disconnect_dev_endpoint arn nb name w) as [res w2] eqn:Hrun.
    destruct (sat_run _ _ _ _ _ (disconnect_dev_endpoint_ends arn nb name) Hrun)
      as (t & -> & _).
    cbn [snd] in Hafter. by rewrite endpoints_absent_replay in Hafter.
Qed.

Lemma disconnect_dev_endpoint_keeps_files arn nb name :
  sat (fun e => changes_files e = false) (disconnect_dev_endpoint arn nb name).
Proof. sat_walk; intros; reflexivity. Qed.

(** C1 (amended).  After a connect to [X] that returned, the binding file
    holds [X]; a disconnect from [X] then comes to an end, changes no file
    (it never removes the binding file, which still holds [X], nor the key
    files), and with a healthy Glue API leaves on [X] no registered key in
    which the notebook name occurs: in particular not the notebook's
    current public key, which ends with the notebook name. *)
Theorem connect_then_disconnect arn nb X (w w1 : World) :
  connect_dev_endpoint arn nb X w = (Ok tt, w1) ->
  fs w1 !! CURRENT_DEV_ENDPOINT_PATH = Some X /\
  exists t,
    snd (disconnect_dev_endpoint arn nb X w1) = replay t w1 /\
    fst (disconnect_dev_endpoint arn nb X w1) <> Diverge /\
    Forall (fun e => changes_files e = false) t /\
    fs (replay t w1) !! CURRENT_DEV_ENDPOINT_PATH = Some X /\
    (glue_healthy (oracle w) ->
     forall r', endpoints (replay t w1) !! X = Some r' ->
       (forall k, In k (registered_keys r') -> str_in nb k = false) /\
       (exists public_key,
           fs (replay t w1) !! SSH_KEY_PUBLIC_PATH = Some public_key /\
           str_in nb public_key = true /\
           ~ In public_key (registered_keys r'))).
Proof.
  intros Hconnect.
  destruct (connect_dev_endpoint_ok arn nb X w w1 Hconnect) as (Horacle & Hbound & material & Hpub).
  split; [exact Hbound|].
  destruct (disconnect_dev_endpoint_keeps_files arn nb X w1) as [Hend (t & Hrun & Ht)].
  exists t. split; [exact Hrun|]. split; [exact Hend|]. split; [exact Ht|].
  pose proof (fs_replay_unchanged t w1 Ht) as Hfs.
  split; [by rewrite Hfs|].
  intros Hh r' Hr'.
  assert (Hkeys : forall k, In k (registered_keys r') -> str_in nb k = false).
  { intros k Hin. rewrite <- Hrun in Hr'.
    apply (disconnect_removes_notebook_keys arn nb X w1 r' k); [by rewrite Horacle|done|done]. }
  split; [exact Hkeys|].
  exists (public_key_line material nb). rewrite Hfs.
  split; [exact Hpub|]. split; [apply str_in_public_key_line|].
  intros Hin. apply Hkeys in Hin. by rewrite str_in_public_key_line in Hin.
Qed.

Lemma connect_then_disconnect_witness :
  exists w1,
    connect_dev_endpoint "arn" "nb" "epA" healthy_world = (Ok tt, w1) /\
    fs (snd (disconnect_dev_endpoint "arn" "nb" "epA" w1)) !! CURRENT_DEV_ENDPOINT_PATH
      = Some "epA".
Proof.
  exists (snd (connect_dev_endpoint "arn" "nb" "epA" healthy_world)).
  assert (H : connect_dev_endpoint "arn" "nb" "epA" healthy_world
              = (Ok tt, snd (connect_dev_endpoint "arn" "nb" "epA" healthy_world)))
    by (vm_compute; reflexivity).
  split; [exact H|].
  destruct (connect_then_disconnect "arn" "nb" "epA" healthy_world _ H)
    as (_ & t & Hrun & _ & _ & Hbound & _).
  by rewrite Hrun.
Defined.

(** Against C1 as stated: after connect and disconnect, both
    returning, the binding file is still there and still names the
    endpoint; disconnect has not removed it. *)
Lemma disconnect_leaves_binding_set :
  fst (connect_dev_endpoint "arn" "nb" "epA" healthy_world) = Ok tt /\
  fst (disconnect_dev_endpoint "arn" "nb" "epA"
         (snd (connect_dev_endpoint "arn" "nb" "epA" healthy_world))) = Ok tt /\
  fst (get_current_dev_endpoint
         (snd (disconnect_dev_endpoint "arn" "nb" "epA"
                 (snd (connect_dev_endpoint "arn" "nb" "epA" healthy_world)))))
    = Ok (Some "epA") /\
  ~ In (EvRemove CURRENT_DEV_ENDPOINT_PATH)
       (trace (snd (disconnect_dev_endpoint "arn" "nb" "epA"
                      (snd (connect_dev_endpoint "arn" "nb" "epA" healthy_world))))).
Proof.
  vm_compute. repeat split; try reflexivity.
  intros H. repeat destruct H as [H|H]; try discriminate H. exact H.
Qed.

(** * Further properties of bootstrap.py *)

(** ** Reading the notebook's settings *)

(** X1.  [get_latest_dev_endpoint] answers the value of the first
    [aws-glue-dev-endpoint] tag of the notebook, whatever tags come before
    or after it, and raises [ValueError] when the notebook has no such
    tag. *)
Theorem get_latest_dev_endpoint_first_tag arn (w : World) :
  sm_fault (oracle w) (sm_calls w) = false ->
  (Forall (fun x => fst x <> "aws-glue-dev-endpoint") (notebook_tags w) ->
   fst (get_latest_dev_endpoint arn w)
   = Raise (ValueError "Unable to get latest DevEndpoint from notebook tag")) /\
  (forall before value after,
     notebook_tags w = (before ++ ("aws-glue-dev-endpoint", value) :: after)%list ->
     Forall (fun x => fst x <> "aws-glue-dev-endpoint") before ->
     fst (get_latest_dev_endpoint arn w) = Ok value).
Proof.
  intros Hfault.
  assert (Hrun : get_latest_dev_endpoint arn w =
                 (match List.filter (fun x => String.eqb (fst x) "aws-glue-dev-endpoint")
                                    (notebook_tags w) with
                  | (_, value) :: _ => Ok value
                  | [] => Raise (ValueError "Unable to get latest DevEndpoint from notebook tag")
                  end, perform EvListTags w)).
  { unfold get_latest_dev_endpoint, bind, sagemaker_list_tags. rewrite Hfault.
    by destruct (List.filter _ _) as [|[] ?]. }
  assert (Hnone : forall l, Forall (fun x : string * string => fst x <> "aws-glue-dev-endpoint") l ->
                  List.filter (fun x => String.eqb (fst x) "aws-glue-dev-endpoint") l = []).
  { induction 1 as [|x l Hx _ IH]; cbn [List.filter]; [done|].
    apply String.eqb_neq in Hx. by rewrite Hx. }
  split.
  - intros Hno. by rewrite Hrun, (Hnone _ Hno).
  - intros before value after Htags Hbefore. rewrite Hrun, Htags.
    rewrite List.filter_app, (Hnone _ Hbefore). cbn [List.filter app fst].
    by rewrite String.eqb_refl.
Qed.

Lemma get_latest_dev_endpoint_first_tag_witness :
  fst (get_latest_dev_endpoint "arn" switching_world) = Ok "epB".
Proof.
  destruct (get_latest_dev_endpoint_first_tag "arn" switching_world eq_refl) as [_ Hfirst].
  apply (Hfirst [] "epB" []); [reflexivity | constructor].
Defined.

(** ** The Glue service endpoint file *)

Lemma lstrip_head s :
  lstrip s = EmptyString \/ exists c s', lstrip s = String c s' /\ is_space c = false.
Proof.
  induction s as [|c s IH]; cbn [lstrip]; [by left|].
  destruct (is_space c) eqn:Hc; [exact IH|]. right. by exists c, s.
Qed.

Lemma lstrip_all_space s : all_space s = true -> lstrip s = EmptyString.
Proof.
  induction s as [|c s IH]; cbn [lstrip all_space]; [done|].
  intros [Hc Hs]%andb_true_iff. rewrite Hc. auto.
Qed.

Lemma rstrip_idem s : rstrip (rstrip s) = rstrip s.
Proof.
  induction s as [|c s IH]; cbn [rstrip]; [done|].
  destruct (rstrip s) as [|d rest] eqn:Hrest.
  - destruct (is_space c) eqn:Hc; cbn [rstrip]; [done|]. by rewrite Hc.
  - cbn [rstrip] in *. by rewrite IH.
Qed.

Lemma rstrip_keeps_head c s :
  is_space c = false -> exists rest, rstrip (String c s) = String c rest.
Proof.
  intros Hc. cbn [rstrip]. destruct (rstrip s); [rewrite Hc|]; by eexists.
Qed.

Lemma strip_stripped s : lstrip (strip s) = strip s /\ rstrip (strip s) = strip s.
Proof.
  unfold strip. split; [|apply rstrip_idem].
  destruct (lstrip_head s) as [->|(c & s' & -> & Hc)]; [done|].
  destruct (rstrip_keeps_head c s' Hc) as [rest ->]. cbn [lstrip]. by rewrite Hc.
Qed.

Lemma readline_blank blank rest :
  all_space blank = true ->
  all_space (readline (blank +:+ newline +:+ rest)) = true.
Proof.
  induction blank as [|c blank IH]; intros Hblank.
  - reflexivity.
  - cbn [all_space] in Hblank. apply andb_true_iff in Hblank as [Hc Hblank].
    change (String c blank +:+ newline +:+ rest)
      with (String c (blank +:+ newline +:+ rest)).
    cbn [readline]. destruct (is_line_end c); [reflexivity|].
    cbn [all_space]. rewrite Hc. by apply IH.
Qed.

(** X2.  What [get_glue_endpoint] returns is never empty and has no
    whitespace at either end; and when the first line of the file is blank
    it raises [ValueError], whatever the later lines hold. *)
Theorem get_glue_endpoint_stripped (w : World) :
  GLUE_ENDPOINT_PATH ∉ io_faulty w ->
  (forall result w', get_glue_endpoint w = (Ok result, w') ->
     result <> EmptyString /\ lstrip result = result /\ rstrip result = result) /\
  (forall blank rest,
     all_space blank = true ->
     fs w !! GLUE_ENDPOINT_PATH = Some (blank +:+ newline +:+ rest) ->
     fst (get_glue_endpoint w)
     = Raise (ValueError ("Glue endpoint is not set in " +:+ GLUE_ENDPOINT_PATH))).
Proof.
  intros Hok. rewrite <- bool_decide_eq_false in Hok.
  unfold get_glue_endpoint, bind, open_read. rewrite Hok. split.
  - intros result w'. destruct (fs w !! GLUE_ENDPOINT_PATH) as [content|]; [|discriminate].
    cbn zeta. destruct (truthy (strip (readline content))) eqn:Htruthy; [|discriminate].
    intros [= <- <-]. split; [|apply strip_stripped].
    intros Hempty. by rewrite Hempty in Htruthy.
  - intros blank rest Hblank ->. cbn zeta.
    unfold strip. by rewrite (lstrip_all_space _ (readline_blank blank rest Hblank)).
Qed.

Lemma get_glue_endpoint_stripped_witness :
  fst (get_glue_endpoint glue_endpoint_world) = Ok "https://glue.example" /\
  exists e, fst (get_glue_endpoint blank_first_line_world) = Raise e.
Proof.
  split; [reflexivity|].
  assert (Hok : GLUE_ENDPOINT_PATH ∉ io_faulty blank_first_line_world)
    by (apply (bool_decide_unpack _); vm_compute; exact I).
  destruct (get_glue_endpoint_stripped blank_first_line_world Hok) as [_ Hblank].
  eexists. apply (Hblank "   " "https://glue.example"); reflexivity.
Defined.

(** ** The binding file *)

Lemma save_current_dev_endpoint_run name w w' :
  save_current_dev_endpoint name w = (Ok tt, w') ->
  (CURRENT_DEV_ENDPOINT_PATH ∉ io_faulty w) /\
  w' = replay [EvLog INFO ("Saved current_dev_endpoint=" +:+ name);
               EvWrite CURRENT_DEV_ENDPOINT_PATH name;
               EvLog INFO ("Saving current_dev_endpoint=" +:+ name)] w.
Proof.
  unfold save_current_dev_endpoint, try_except, bind, open_write, logger, io_fail.
  change (io_faulty (perform _ w)) with (io_faulty w).
  change (write_faulty (perform _ w)) with (write_faulty w).
  destruct (bool_decide (CURRENT_DEV_ENDPOINT_PATH ∈ io_faulty w)) eqn:Hfaulty;
    cbn; [discriminate|].
  destruct (bool_decide (CURRENT_DEV_ENDPOINT_PATH ∈ write_faulty w));
    cbn; [discriminate|].
  intros [= <-]. split; [by apply bool_decide_eq_false in Hfaulty|reflexivity].
Qed.

(** X3.  The binding file is a faithful store: after
    [save_current_dev_endpoint] has returned, [get_current_dev_endpoint]
    answers the saved name (an earlier binding is overwritten); after
    [remove_dev_endpoint] has returned, it answers [None]. *)
Theorem binding_round_trip (name name' : string) (w w1 w2 : World) :
  save_current_dev_endpoint name w = (Ok tt, w1) ->
  remove_dev_endpoint name' w1 = (Ok tt, w2) ->
  fst (get_current_dev_endpoint w1) = Ok (Some name) /\
  fst (get_current_dev_endpoint w2) = Ok None.
Proof.
  intros [Hok ->]%save_current_dev_endpoint_run Hremove.
  set (w1 := replay _ w) in *.
  assert (Hfile : fs w1 !! CURRENT_DEV_ENDPOINT_PATH = Some name)
    by (subst w1; cbn; apply lookup_insert_eq).
  assert (Hok1 : CURRENT_DEV_ENDPOINT_PATH ∉ io_faulty w1) by exact Hok.
  split; [by rewrite (get_current_dev_endpoint_bound w1 name Hfile Hok1)|].
  rewrite (remove_dev_endpoint_bound name' w1 name Hfile Hok1) in Hremove.
  injection Hremove as Hw2.
  destruct (get_current_dev_endpoint_run w2) as (t & Hrun & _). rewrite Hrun. cbn [fst].
  case_bool_decide; [done|]. rewrite <- Hw2. cbn. apply f_equal, lookup_delete_eq.
Qed.

Lemma binding_round_trip_witness :
  fst (get_current_dev_endpoint
         (snd (save_current_dev_endpoint "epB" switching_world))) = Ok (Some "epB").
Proof.
  destruct (binding_round_trip "epB" "epB" switching_world
              (snd (save_current_dev_endpoint "epB" switching_world))
              (snd (remove_dev_endpoint "epB"
                      (snd (save_current_dev_endpoint "epB" switching_world)))))
    as [Hsaved _]; [vm_compute; reflexivity | vm_compute; reflexivity | exact Hsaved].
Defined.

(** ** The key pair *)

Lemma keygens_perform e w : is_keygen e = false -> keygens (perform e w) = keygens w.
Proof. destruct e; cbn; try done; repeat case_match; done. Qed.

Lemma keygens_replay t w :
  Forall (fun e => is_keygen e = false) t -> keygens (replay t w) = keygens w.
Proof.
  induction 1 as [|e t He _ IH]; cbn [replay]; [done|]. by rewrite keygens_perform.
Qed.

Lemma before_ssh_keygen_no_keygen :
  sat (fun e => is_keygen e = false)
      (logger INFO ("Generating SSH keypair at " +:+ SSH_KEY_PRIVATE_PATH) ;;
       dir_present <- os_path_exists SSH_KEY_DIR ;;
       if (dir_present : bool) then
         key_present <- os_path_exists SSH_KEY_PRIVATE_PATH ;;
         if (key_present : bool) then
           public_key <- get_public_key ;;
           logger WARNING ("Removing current SSH keypair " +:+ public_key) ;;
           os_remove SSH_KEY_PRIVATE_PATH ;;
           logger WARNING ("Removed current SSH keypair " +:+ public_key)
         else ret tt
       else
         logger INFO ("Creating directory at " +:+ SSH_KEY_DIR) ;;
         pathlib_mkdir SSH_KEY_DIR ;;
         logger INFO ("Created directory at " +:+ SSH_KEY_DIR)).
Proof. sat_walk; intros; reflexivity. Qed.

Lemma after_ssh_keygen_no_keygen output :
  sat (fun e => is_keygen e = false) (after_ssh_keygen output).
Proof. sat_walk; intros; reflexivity. Qed.

(** X4.  A [generate_ssh_keypair] that returns has made exactly one key
    pair: the private key file holds the material of this call's
    [ssh-keygen] and the public key file holds the line made from it, with
    the notebook name as its comment, whatever key pair was there before. *)
Theorem generate_ssh_keypair_rotates nb (w w' : World) :
  generate_ssh_keypair nb w = (Ok tt, w') ->
  fs w' !! SSH_KEY_PRIVATE_PATH = Some (keygen (oracle w) (keygens w)) /\
  fs w' !! SSH_KEY_PUBLIC_PATH
    = Some (public_key_line (keygen (oracle w) (keygens w)) nb) /\
  keygens w' = S (keygens w).
Proof.
  rewrite generate_ssh_keypair_split.
  intros ([] & w1 & Hbefore & (output & w2 & Hkeygen & Htail)%bind_Ok_inv)%bind_Ok_inv.
  destruct (sat_run _ _ _ _ _ before_ssh_keygen_no_keygen Hbefore) as (t1 & -> & Ht1).
  unfold ssh_keygen in Hkeygen.
  destruct (fs (replay t1 w) !! SSH_KEY_PRIVATE_PATH); [discriminate|].
  injection Hkeygen as _ <-.
  pose proof Htail as Htail'.
  destruct (sat_run _ _ _ _ _ (after_ssh_keygen_keeps_files output) Htail) as (t2 & -> & Ht2).
  destruct (sat_run _ _ _ _ _ (after_ssh_keygen_no_keygen output) Htail') as (t3 & Heq & Ht3).
  rewrite fs_replay_unchanged by done.
  assert (Hpriv : fs (perform (EvKeygen SSH_KEY_PRIVATE_PATH nb true) (replay t1 w))
                    !! SSH_KEY_PRIVATE_PATH = Some (keygen (oracle w) (keygens w))).
  { cbn [perform effect emit fs tick_keygens set_fs].
    rewrite lookup_insert_ne by (intros H; vm_compute in H; discriminate H).
    rewrite lookup_insert_eq.
    change (oracle (elapse ?x)) with (oracle x). change (keygens (elapse ?x)) with (keygens x).
    by rewrite oracle_replay, keygens_replay. }
  assert (Hpub : fs (perform (EvKeygen SSH_KEY_PRIVATE_PATH nb true) (replay t1 w))
                   !! SSH_KEY_PUBLIC_PATH
                 = Some (public_key_line (keygen (oracle w) (keygens w)) nb)).
  { cbn [perform effect emit fs tick_keygens set_fs].
    change (SSH_KEY_PRIVATE_PATH +:+ ".pub") with SSH_KEY_PUBLIC_PATH.
    rewrite lookup_insert_eq.
    change (oracle (elapse ?x)) with (oracle x). change (keygens (elapse ?x)) with (keygens x).
    by rewrite oracle_replay, keygens_replay. }
  split; [exact Hpriv|]. split; [exact Hpub|].
  rewrite Heq, keygens_replay by done. cbn. by rewrite keygens_replay.
Qed.

Lemma generate_ssh_keypair_rotates_witness :
  fs (snd (generate_ssh_keypair "nb" healthy_world)) !! SSH_KEY_PUBLIC_PATH
  = Some (public_key_line (keygen healthy_oracle 0) "nb").
Proof.
  assert (H : generate_ssh_keypair "nb" healthy_world
              = (Ok tt, snd (generate_ssh_keypair "nb" healthy_world)))
    by (vm_compute; reflexivity).
  destruct (generate_ssh_keypair_rotates "nb" healthy_world _ H) as (_ & Hpub & _).
  exact Hpub.
Defined.

(** X5.  When the private key is there and the public key file is missing,
    [generate_ssh_keypair] raises [IOError] before it removes or makes
    anything: the key directory is as it was, so the next call fails the
    same way. *)
Theorem generate_ssh_keypair_needs_public_key nb (w : World) (private : string) :
  SSH_KEY_DIR ∈ dirs w ->
  fs w !! SSH_KEY_PRIVATE_PATH = Some private ->
  fs w !! SSH_KEY_PUBLIC_PATH = None ->
  exists w',
    generate_ssh_keypair nb w = (Raise (IOError SSH_KEY_PUBLIC_PATH), w') /\
    fs w' = fs w /\ dirs w' = dirs w /\ keygens w' = keygens w /\
    fst (generate_ssh_keypair nb w') = Raise (IOError SSH_KEY_PUBLIC_PATH).
Proof.
  intros Hdir Hprivate Hpublic.
  assert (Hrun : forall w0, SSH_KEY_DIR ∈ dirs w0 ->
            fs w0 !! SSH_KEY_PRIVATE_PATH = Some private ->
            fs w0 !! SSH_KEY_PUBLIC_PATH = None ->
            generate_ssh_keypair nb w0 =
            (Raise (IOError SSH_KEY_PUBLIC_PATH),
             replay [EvLog ERROR ("Failed to read SSH public_key from " +:+ SSH_KEY_PUBLIC_PATH);
                     EvIOFail SSH_KEY_PUBLIC_PATH;
                     EvLog INFO ("Generating SSH keypair at " +:+ SSH_KEY_PRIVATE_PATH)] w0)).
  { intros w0 Hd Hpr Hpu.
    assert (Hkey : get_public_key (perform (EvLog INFO ("Generating SSH keypair at "
                                                        +:+ SSH_KEY_PRIVATE_PATH)) w0)
                   = (Raise (IOError SSH_KEY_PUBLIC_PATH),
                      replay [EvLog ERROR ("Failed to read SSH public_key from "
                                           +:+ SSH_KEY_PUBLIC_PATH);
                              EvIOFail SSH_KEY_PUBLIC_PATH;
                              EvLog INFO ("Generating SSH keypair at "
                                          +:+ SSH_KEY_PRIVATE_PATH)] w0)).
    { unfold get_public_key, try_except, bind, open_read, io_fail.
      change (fs (perform (EvLog ?l ?m) w0)) with (fs w0).
      rewrite Hpu. by destruct (bool_decide _). }
    unfold generate_ssh_keypair.
    rewrite (bind_ok _ _ _ _ _ (eq_refl : logger INFO _ w0 = (Ok tt, perform _ w0))).
    cbv beta.
    set (w1 := perform _ w0) in *.
    assert (Hexd : os_path_exists SSH_KEY_DIR w1 = (Ok true, w1)).
    { unfold os_path_exists. change (dirs w1) with (dirs w0).
      by rewrite (bool_decide_eq_true_2 _ Hd), orb_true_r. }
    assert (Hexk : os_path_exists SSH_KEY_PRIVATE_PATH w1 = (Ok true, w1)).
    { unfold os_path_exists. change (fs w1) with (fs w0).
      by rewrite Hpr, (bool_decide_eq_true_2 (is_Some (Some private))). }
    rewrite (bind_ok _ _ _ _ _ Hexd). cbv beta iota.
    rewrite (bind_bind_ok _ _ _ _ _ _ Hexk). cbv beta iota.
    apply bind_raise. by apply bind_raise. }
  eexists. split; [by apply Hrun|]. split; [done|]. split; [done|]. split; [done|].
  by rewrite Hrun.
Qed.

Lemma generate_ssh_keypair_needs_public_key_witness :
  exists w',
    generate_ssh_keypair "nb" half_key_world = (Raise (IOError SSH_KEY_PUBLIC_PATH), w') /\
    fs w' = fs half_key_world.
Proof.
  destruct (generate_ssh_keypair_needs_public_key "nb" half_key_world "AAAAold")
    as (w' & Hrun & Hfs & _).
  - apply (bool_decide_unpack _). vm_compute. exact I.
  - reflexivity.
  - reflexivity.
  - exists w'. by split.
Defined.

(** ** The tunnel *)

Lemma get_autossh_host_missing w :
  fs w !! AUTO_SSH_HOST_PATH = None ->
  get_autossh_host w =
  (Raise (IOError AUTO_SSH_HOST_PATH),
   replay [EvLog ERROR ("Failed to read autossh_host from " +:+ AUTO_SSH_HOST_PATH);
           EvIOFail AUTO_SSH_HOST_PATH] w).
Proof.
  intros Hmissing. unfold get_autossh_host, try_except, bind, open_read, io_fail.
  rewrite Hmissing. by destruct (bool_decide _).
Qed.

Lemma delete_public_keys_if_has_body_ends nb name :
  sat (fun e => glue_event e = true)
      (dev_endpoint <- glue_get_dev_endpoint name ;;
       delete_public_keys name (public_keys_to_delete nb dev_endpoint)).
Proof. sat_walk; intros; reflexivity. Qed.

(** [delete_public_keys_if_has] always returns, and only waits, describes
    and updates. *)
Lemma delete_public_keys_if_has_returns nb name w :
  exists t,
    delete_public_keys_if_has nb name w = (Ok tt, replay t w) /\
    Forall (fun e => glue_event e = true) t.
Proof.
  unfold delete_public_keys_if_has, try_except.
  destruct (delete_public_keys_if_has_body_ends nb name w) as [Hend (t & Hrun & Ht)].
  destruct ((dev_endpoint <- glue_get_dev_endpoint name ;;
             delete_public_keys name (public_keys_to_delete nb dev_endpoint)) w)
    as [[[]|e|] w1]; cbn [fst snd] in *; subst w1.
  - by exists t.
  - eexists (_ :: t). split; [reflexivity|]. by constructor.
  - done.
Qed.

Lemma glue_event_replay t w :
  Forall (fun e => glue_event e = true) t ->
  fs (replay t w) = fs w /\ io_faulty (replay t w) = io_faulty w /\
  autossh_running (replay t w) = autossh_running w /\
  notebook_tags (replay t w) = notebook_tags w.
Proof.
  induction 1 as [|e t He _ IH]; cbn [replay]; [done|].
  destruct e; try discriminate; cbn; repeat case_match; exact IH.
Qed.

(** X6.  With the tunnel-target file missing, [stop_autossh] and
    [start_autossh] raise [IOError] and run no command; so
    [disconnect_dev_endpoint] raises after the keys were dealt with: the
    tunnel is left as it was and the notebook tag is not written. *)
Theorem no_tunnel_command_without_host_file arn nb name (w : World) :
  fs w !! AUTO_SSH_HOST_PATH = None ->
  (fst (stop_autossh w) = Raise (IOError AUTO_SSH_HOST_PATH) /\
   autossh_running (snd (stop_autossh w)) = autossh_running w) /\
  (fst (start_autossh w) = Raise (IOError AUTO_SSH_HOST_PATH) /\
   autossh_running (snd (start_autossh w)) = autossh_running w) /\
  (fst (disconnect_dev_endpoint arn nb name w) = Raise (IOError AUTO_SSH_HOST_PATH) /\
   autossh_running (snd (disconnect_dev_endpoint arn nb name w)) = autossh_running w /\
   notebook_tags (snd (disconnect_dev_endpoint arn nb name w)) = notebook_tags w).
Proof.
  intros Hmissing.
  assert (Hstop : forall w0, fs w0 !! AUTO_SSH_HOST_PATH = None ->
            stop_autossh w0 = (Raise (IOError AUTO_SSH_HOST_PATH),
              replay [EvLog ERROR ("Failed to read autossh_host from " +:+ AUTO_SSH_HOST_PATH);
                      EvIOFail AUTO_SSH_HOST_PATH] w0)).
  { intros w0 H0. unfold stop_autossh. by rewrite (bind_raise _ _ _ _ _ (get_autossh_host_missing w0 H0)). }
  split; [by rewrite (Hstop w Hmissing)|]. split.
  { unfold start_autossh. by rewrite (bind_raise _ _ _ _ _ (get_autossh_host_missing w Hmissing)). }
  rewrite disconnect_dev_endpoint_split.
  set (w1 := perform (EvLog INFO _) w).
  destruct (delete_public_keys_if_has_returns nb name w1) as (t & Hrun & Ht).
  destruct (glue_event_replay t w1 Ht) as (Hfs & _ & Hrunning & Htags).
  rewrite (bind_ok _ _ _ _ _ Hrun). unfold disconnect_after_keys.
  rewrite (bind_raise _ _ _ _ _ (Hstop (replay t w1) ltac:(by rewrite Hfs))).
  cbn [fst snd replay]. split; [done|]. split.
  - change (autossh_running (replay t w1) = autossh_running w). exact Hrunning.
  - change (notebook_tags (replay t w1) = notebook_tags w). exact Htags.
Qed.

Lemma no_tunnel_command_without_host_file_witness :
  fst (disconnect_dev_endpoint "arn" "nb" "epA" hostless_world)
    = Raise (IOError AUTO_SSH_HOST_PATH) /\
  autossh_running (snd (disconnect_dev_endpoint "arn" "nb" "epA" hostless_world)) = true.
Proof.
  destruct (no_tunnel_command_without_host_file "arn" "nb" "epA" hostless_world eq_refl)
    as (_ & _ & Hraise & Hrunning & _).
  split; [exact Hraise | exact Hrunning].
Defined.

(** X7.  [delete_public_keys_if_has] never raises, whatever the Glue API
    does: it returns having only waited, described and updated the
    endpoint; and when the describe call fails it logs an error and makes
    no update. *)
Theorem delete_public_keys_if_has_is_best_effort nb name (w : World) :
  (exists t,
      delete_public_keys_if_has nb name w = (Ok tt, replay t w) /\
      Forall (fun e => glue_event e = true) t /\
      fs (replay t w) = fs w /\
      autossh_running (replay t w) = autossh_running w) /\
  (glue_fault (oracle w) (glue_calls w) = true \/ endpoints w !! name = None ->
   delete_public_keys_if_has nb name w =
   (Ok tt,
    replay [EvLog ERROR ("Failed to delete Public Keys from dev_endpoint=" +:+ name);
            EvGetDevEndpoint name] w)).
Proof.
  split.
  - destruct (delete_public_keys_if_has_returns nb name w) as (t & Hrun & Ht).
    destruct (glue_event_replay t w Ht) as (Hfs & _ & Hrunning & _).
    by exists t.
  - intros Hfail. unfold delete_public_keys_if_has, try_except, bind, glue_get_dev_endpoint.
    destruct Hfail as [-> | ->]; [done|]. by destruct (glue_fault _ _).
Qed.

(** ** The ready-wait is bounded *)

Lemma time_slept_app t1 t2 : time_slept (t1 ++ t2) = time_slept t1 + time_slept t2.
Proof. unfold time_slept. induction t1 as [|e t1 IH]; cbn [app foldr]; lia. Qed.

(** When no action takes time, the clock moves by the time slept. *)
Lemma clock_replay_no_latency t w :
  (forall k, duration (oracle w) k = 0%N) ->
  clock (replay t w) = clock w + time_slept t.
Proof.
  intros Hzero. induction t as [|e t IH]; cbn [replay]; [cbn; lia|].
  rewrite clock_perform, oracle_replay, Hzero, IH.
  change (time_slept (e :: t)) with (sleep_of e + time_slept t). lia.
Qed.

Lemma wait_loop_bounded name start fuel : forall w,
  UPDATE_DEV_ENDPOINT_TIMEOUT_IN_SEC - (clock w - start)
    <= WAIT_DEV_ENDPOINT_READY_INTERVAL_IN_SEC * Z.of_nat fuel ->
  fst (wait_dev_endpoint_ready_loop fuel name start w) <> Diverge /\
  (glue_calls (snd (wait_dev_endpoint_ready_loop fuel name start w))
   <= glue_calls w + fuel)%nat /\
  exists t,
    snd (wait_dev_endpoint_ready_loop fuel name start w) = replay t w /\
    Forall (fun e => wait_event e = true) t /\
    0 <= time_slept t <= WAIT_DEV_ENDPOINT_READY_INTERVAL_IN_SEC * Z.of_nat fuel /\
    clock w + time_slept t <= clock (replay t w).
Proof.
  induction fuel as [|fuel IH]; intros w Hfuel;
    rewrite wait_dev_endpoint_ready_loop_unfold;
    destruct (clock w - start <? UPDATE_DEV_ENDPOINT_TIMEOUT_IN_SEC) eqn:Hguard.
  - apply Z.ltb_lt in Hguard.
    unfold UPDATE_DEV_ENDPOINT_TIMEOUT_IN_SEC, WAIT_DEV_ENDPOINT_READY_INTERVAL_IN_SEC in *.
    lia.
  - cbn [fst snd]. split; [done|]. split; [cbn; lia|].
    eexists [_]. split; [reflexivity|]. split; [by repeat constructor|].
    cbn [replay time_slept foldr sleep_of]. rewrite clock_perform. cbn [sleep_of].
    unfold WAIT_DEV_ENDPOINT_READY_INTERVAL_IN_SEC. lia.
  - cbn zeta.
    pose proof (clock_after_poll name w) as Hclock.
    set (t1 := [EvGetDevEndpoint name;
                EvSleep WAIT_DEV_ENDPOINT_READY_INTERVAL_IN_SEC;
                EvLog INFO ("Waiting dev_endpoint=" +:+ name +:+ " ready")]).
    assert (Hw2 : forall x, snd (glue_get_dev_endpoint name x)
                            = perform (EvGetDevEndpoint name) x) by reflexivity.
    rewrite Hw2 in Hclock. change (perform (EvGetDevEndpoint name) _) with (replay t1 w) in Hclock.
    assert (Hg1 : glue_calls (replay t1 w) = S (glue_calls w)) by reflexivity.
    assert (Ht1 : Forall (fun e => wait_event e = true) t1) by (by repeat constructor).
    assert (Hs1 : time_slept t1 = WAIT_DEV_ENDPOINT_READY_INTERVAL_IN_SEC) by reflexivity.
    assert (Hdone : forall r : result unit, r <> Diverge ->
              fst (r, replay t1 w) <> Diverge /\
              (glue_calls (snd (r, replay t1 w)) <= glue_calls w + S fuel)%nat /\
              exists t, snd (r, replay t1 w) = replay t w /\
                Forall (fun e => wait_event e = true) t /\
                0 <= time_slept t <= WAIT_DEV_ENDPOINT_READY_INTERVAL_IN_SEC * Z.of_nat (S fuel) /\
                clock w + time_slept t <= clock (replay t w)).
    { intros r Hr. cbn [fst snd]. split; [done|]. split; [lia|].
      exists t1. split; [done|]. split; [done|]. rewrite Hs1.
      unfold WAIT_DEV_ENDPOINT_READY_INTERVAL_IN_SEC in *. lia. }
    destruct (glue_get_dev_endpoint name _) as [[d|e|] w2] eqn:Hget.
    + apply (f_equal snd) in Hget as Hsnd. rewrite Hw2 in Hsnd. cbn [snd] in Hsnd.
      change (perform (EvGetDevEndpoint name) _) with (replay t1 w) in Hsnd. subst w2.
      destruct (LastUpdateStatus d) as [status|]; [|by apply Hdone].
      destruct (String.eqb status COMPLETED).
      { cbn [fst snd]. split; [done|]. split; [cbn; lia|].
        eexists (_ :: t1). split; [reflexivity|]. split; [by constructor|].
        cbn [replay time_slept foldr]. fold (time_slept t1). rewrite Hs1, clock_perform.
        cbn [sleep_of]. unfold WAIT_DEV_ENDPOINT_READY_INTERVAL_IN_SEC in *. lia. }
      destruct (String.eqb status FAILED); [by apply Hdone|].
      destruct (IH (replay t1 w)) as (Hd & Hg & t & Ht & HPt & Hs & Hc).
      { unfold UPDATE_DEV_ENDPOINT_TIMEOUT_IN_SEC, WAIT_DEV_ENDPOINT_READY_INTERVAL_IN_SEC in *.
        lia. }
      split; [exact Hd|]. split; [lia|].
      exists (t ++ t1)%list. rewrite replay_app, time_slept_app, Hs1.
      split; [exact Ht|]. split; [by apply Forall_app|].
      unfold WAIT_DEV_ENDPOINT_READY_INTERVAL_IN_SEC in *. lia.
    + apply (f_equal snd) in Hget as Hsnd. rewrite Hw2 in Hsnd. cbn [snd] in Hsnd.
      change (perform (EvGetDevEndpoint name) _) with (replay t1 w) in Hsnd. subst w2.
      by apply Hdone.
    + exfalso. unfold glue_get_dev_endpoint in Hget. repeat case_match; congruence.
  - cbn [fst snd]. split; [done|]. split; [cbn; lia|].
    eexists [_]. split; [reflexivity|]. split; [by repeat constructor|].
    cbn [replay time_slept foldr sleep_of]. rewrite clock_perform. cbn [sleep_of].
    unfold WAIT_DEV_ENDPOINT_READY_INTERVAL_IN_SEC. lia.
Qed.

(** X8.  [wait_dev_endpoint_ready] always comes to an end: from any world,
    whatever the service answers and however long its answers take, it has
    slept at most 600 seconds and described the endpoint at most 120 times,
    and it has done nothing but log, sleep and describe.  The clock has
    moved by the time slept at least, and by just that time (so by 600
    seconds at most) when no action takes time. *)
Theorem wait_dev_endpoint_ready_bounded name (w : World) :
  fst (wait_dev_endpoint_ready name w) <> Diverge /\
  (glue_calls (snd (wait_dev_endpoint_ready name w)) <= glue_calls w + 120)%nat /\
  exists t, snd (wait_dev_endpoint_ready name w) = replay t w /\
            Forall (fun e => wait_event e = true) t /\
            0 <= time_slept t <= UPDATE_DEV_ENDPOINT_TIMEOUT_IN_SEC /\
            clock w + time_slept t <= clock (snd (wait_dev_endpoint_ready name w)) /\
            ((forall k, duration (oracle w) k = 0%N) ->
             clock (snd (wait_dev_endpoint_ready name w)) = clock w + time_slept t).
Proof.
  assert (Hfuel : Z.of_nat wait_fuel = 120) by reflexivity.
  destruct (wait_loop_bounded name (clock w) wait_fuel w) as (Hd & Hg & t & Ht & HPt & Hs & Hc).
  { unfold UPDATE_DEV_ENDPOINT_TIMEOUT_IN_SEC, WAIT_DEV_ENDPOINT_READY_INTERVAL_IN_SEC. lia. }
  unfold wait_dev_endpoint_ready, bind, time_time. cbn [fst snd].
  split; [exact Hd|]. split; [exact Hg|].
  exists t. rewrite Ht. split; [done|]. split; [done|].
  split; [|split; [exact Hc | by apply clock_replay_no_latency]].
  unfold UPDATE_DEV_ENDPOINT_TIMEOUT_IN_SEC, WAIT_DEV_ENDPOINT_READY_INTERVAL_IN_SEC in *. lia.
Qed.

(** ** No update of an endpoint whose update failed *)

Lemma delete_public_keys_nothing name :
  sat (fun e => wait_event e = true) (delete_public_keys name []).
Proof. sat_walk; intros; reflexivity. Qed.

Lemma wait_dev_endpoint_ready_failed name r w :
  endpoints w !! name = Some r ->
  glue_fault (oracle w) (glue_calls w) = false ->
  glue_status (oracle w) (glue_calls w) = Some FAILED ->
  wait_dev_endpoint_ready name w =
  (Raise (ValueError ("LastUpdateStatus is FAILED, dev_endpoint=" +:+ name)),
   poll_world name w).
Proof.
  intros Hr Hfault Hstatus. unfold wait_dev_endpoint_ready, bind, time_time.
  change wait_fuel with (S (Nat.pred wait_fuel)).
  rewrite (wait_loop_poll _ _ _ r); [by rewrite Hstatus | | done | done].
  unfold UPDATE_DEV_ENDPOINT_TIMEOUT_IN_SEC. lia.
Qed.

(** X9.  A [FAILED] endpoint keeps its keys: when the first poll of the
    ready-wait sees [FAILED], [delete_public_keys] raises [ValueError]
    having made no update, and [delete_public_keys_if_has] swallows it, so
    that every registered key stays.  And with nothing to delete,
    [delete_public_keys] only waits. *)
Theorem no_key_deletion_when_failed nb name (r : RemoteEndpoint) (w : World)
    (keys : list string) :
  endpoints w !! name = Some r ->
  glue_fault (oracle w) (glue_calls w) = false ->
  glue_fault (oracle w) (S (glue_calls w)) = false ->
  glue_status (oracle w) (glue_calls w) = Some FAILED ->
  glue_status (oracle w) (S (glue_calls w)) = Some FAILED ->
  delete_public_keys name keys w =
    (Raise (ValueError ("LastUpdateStatus is FAILED, dev_endpoint=" +:+ name)),
     poll_world name w) /\
  delete_public_keys_if_has nb name w =
    (Ok tt,
     perform (EvLog ERROR ("Failed to delete Public Keys from dev_endpoint=" +:+ name))
       (poll_world name (perform (EvGetDevEndpoint name) w))) /\
  endpoints (snd (delete_public_keys_if_has nb name w)) = endpoints w /\
  (exists t, snd (delete_public_keys name [] w) = replay t w /\
             Forall (fun e => wait_event e = true) t).
Proof.
  intros Hr Hfault Hfault' Hstatus Hstatus'.
  assert (Hdelete : forall w0 l, endpoints w0 !! name = Some r ->
            glue_fault (oracle w0) (glue_calls w0) = false ->
            glue_status (oracle w0) (glue_calls w0) = Some FAILED ->
            delete_public_keys name l w0 =
            (Raise (ValueError ("LastUpdateStatus is FAILED, dev_endpoint=" +:+ name)),
             poll_world name w0)).
  { intros w0 l H1 H2 H3. unfold delete_public_keys.
    by rewrite (bind_raise _ _ _ _ _ (wait_dev_endpoint_ready_failed name r w0 H1 H2 H3)). }
  assert (Hrun : delete_public_keys_if_has nb name w =
            (Ok tt,
             perform (EvLog ERROR ("Failed to delete Public Keys from dev_endpoint=" +:+ name))
               (poll_world name (perform (EvGetDevEndpoint name) w)))).
  { unfold delete_public_keys_if_has.
    assert (Hget : glue_get_dev_endpoint name w =
                   (Ok (mkDevEndpoint (remote_key r) (remote_keys r) (Some FAILED)
                          (remote_private_address r) (remote_public_address r)),
                    perform (EvGetDevEndpoint name) w)).
    { unfold glue_get_dev_endpoint. by rewrite Hfault, Hr, Hstatus. }
    rewrite (try_except_bind_ok _ _ _ _ _ _ _ Hget).
    by rewrite (try_except_caught _ _ _ _ _ _
                  (Hdelete (perform (EvGetDevEndpoint name) w) _ Hr Hfault' Hstatus') eq_refl). }
  split; [by apply Hdelete|]. split; [exact Hrun|]. split; [by rewrite Hrun|].
  destruct (delete_public_keys_nothing name w) as [_ Hsat]. exact Hsat.
Qed.

Lemma no_key_deletion_when_failed_witness :
  fst (delete_public_keys_if_has "nb" "epA" failed_world) = Ok tt /\
  endpoints (snd (delete_public_keys_if_has "nb" "epA" failed_world))
    = endpoints failed_world.
Proof.
  destruct (no_key_deletion_when_failed "nb" "epA"
              (mkRemoteEndpoint None (Some [old_key]) (Some "10.0.0.1") None)
              failed_world [] eq_refl eq_refl eq_refl eq_refl eq_refl)
    as (_ & Hrun & Hsame & _).
  split; [by rewrite Hrun | exact Hsame].
Defined.

(** ** An update after the ready-wait has timed out *)


(** ** Registering the key and choosing the address *)

Lemma add_public_key_split name w :
  add_public_key name w = bind (add_public_key_register name) (add_public_key_save name) w.
Proof.
  unfold add_public_key, add_public_key_register, add_public_key_save, bind.
  run_binds; reflexivity.
Qed.

Lemma get_public_key_readable w key :
  SSH_KEY_PUBLIC_PATH ∉ io_faulty w ->
  fs w !! SSH_KEY_PUBLIC_PATH = Some key ->
  truthy key = true ->
  get_public_key w = (Ok key, perform (EvRead SSH_KEY_PUBLIC_PATH) w).
Proof.
  intros Hok Hfile Htruthy. unfold get_public_key, try_except, bind, open_read.
  by rewrite (bool_decide_eq_false_2 _ Hok), Hfile, Htruthy.
Qed.

Lemma registered_after_add key r :
  In key (registered_keys (apply_update [key] [] r)).
Proof.
  unfold registered_keys, apply_update. cbn [remote_key remote_keys].
  apply in_or_app. right.
  assert (Hkept : forall l, List.filter (fun k => negb (str_mem k [])) l = l).
  { induction l as [|x l IH]; [done|]. cbn [List.filter].
    change (str_mem x []) with false. cbn [negb]. by rewrite IH. }
  rewrite Hkept. cbn [List.filter].
  destruct (str_mem key (default [] (remote_keys r))) eqn:Hmem; cbn [negb];
    destruct (remote_keys r) as [keys|]; cbn [default id] in *;
    rewrite ?app_nil_r; try (apply in_or_app; right; by left).
  - by apply str_mem_spec.
  - discriminate.
Qed.

Lemma register_event_replay t w :
  Forall (fun e => register_event e = true) t ->
  fs (replay t w) = fs w /\ io_faulty (replay t w) = io_faulty w.
Proof.
  induction 1 as [|e t He _ IH]; cbn [replay]; [done|].
  destruct e; try discriminate; cbn; repeat case_match; exact IH.
Qed.

Lemma add_public_key_register_healthy name r w key :
  glue_healthy (oracle w) ->
  endpoints w !! name = Some r ->
  SSH_KEY_PUBLIC_PATH ∉ io_faulty w ->
  fs w !! SSH_KEY_PUBLIC_PATH = Some key ->
  truthy key = true ->
  exists t status,
    add_public_key_register name w =
      (Ok (mkDevEndpoint (remote_key (apply_update [key] [] r))
                         (remote_keys (apply_update [key] [] r)) status
                         (remote_private_address r) (remote_public_address r)),
       replay t w) /\
    Forall (fun e => register_event e = true) t /\
    In (EvUpdateDevEndpoint name [key] [] true) t /\
    endpoints (replay t w) !! name = Some (apply_update [key] [] r).
Proof.
  intros Hh Hr Hok Hfile Htruthy. unfold add_public_key_register.
  rewrite (bind_ok _ _ _ _ _ (get_public_key_readable w key Hok Hfile Htruthy)). cbv beta.
  set (w0 := perform (EvRead SSH_KEY_PUBLIC_PATH) w).
  destruct (wait_dev_endpoint_ready_healthy name r w0 Hh Hr) as (ta & Hwait & Hta).
  rewrite (bind_ok _ _ _ _ _ Hwait). cbv beta.
  unfold logger at 1, bind at 1.
  set (w1 := perform (EvLog INFO _) (replay ta w0)).
  assert (Hh1 : glue_healthy (oracle w1)) by (subst w1; by rewrite oracle_perform, oracle_replay).
  assert (Hr1 : endpoints w1 !! name = Some r).
  { subst w1. rewrite endpoints_perform by done.
    rewrite endpoints_replay; [done|]. by apply Forall_wait_event_not_update. }
  rewrite (bind_ok _ _ _ _ _ (glue_update_dev_endpoint_healthy name [key] [] r w1 Hh1 Hr1)).
  cbv beta.
  set (w2 := perform (EvUpdateDevEndpoint name [key] [] true) w1).
  assert (Hh2 : glue_healthy (oracle w2)) by (subst w2; by rewrite oracle_perform).
  assert (Hr2 : endpoints w2 !! name = Some (apply_update [key] [] r))
    by (by apply endpoints_after_update).
  destruct (wait_dev_endpoint_ready_healthy name _ w2 Hh2 Hr2) as (tb & Hwait2 & Htb).
  rewrite (bind_ok _ _ _ _ _ Hwait2). cbv beta.
  unfold logger at 1, bind at 1.
  set (w3 := perform (EvLog INFO _) (replay tb w2)).
  assert (Hh3 : glue_healthy (oracle w3)) by (subst w3; by rewrite oracle_perform, oracle_replay).
  assert (Hr3 : endpoints w3 !! name = Some (apply_update [key] [] r)).
  { subst w3. rewrite endpoints_perform by done.
    rewrite endpoints_replay; [done|]. by apply Forall_wait_event_not_update. }
  rewrite (glue_get_dev_endpoint_healthy name _ w3 Hh3 Hr3).
  exists (EvGetDevEndpoint name
          :: EvLog INFO ("Added public_key=" +:+ key +:+ " to dev_endpoint=" +:+ name)
          :: tb ++ EvUpdateDevEndpoint name [key] [] true
          :: EvLog INFO ("Adding public_key=" +:+ key +:+ " to dev_endpoint=" +:+ name)
          :: ta ++ [EvRead SSH_KEY_PUBLIC_PATH])%list.
  eexists. split; [|split; [|split]].
  - f_equal. cbn [replay]. rewrite replay_app. cbn [replay]. rewrite replay_app. reflexivity.
  - assert (Hw : forall l, Forall (fun e => wait_event e = true) l ->
                           Forall (fun e => register_event e = true) l).
    { intros l Hl. eapply Forall_impl; [exact Hl|]. by intros []. }
    repeat first [apply Forall_cons_2; [reflexivity|] | apply Forall_app_2; [by apply Hw|]].
    by repeat constructor.
  - right. right. apply in_or_app. right. by left.
  - cbn [replay]. rewrite replay_app. cbn [replay]. rewrite replay_app. cbn [replay].
    exact Hr3.
Qed.

(** X10.  With a healthy Glue API and a readable key pair,
    [add_public_key] registers the notebook's public key on the endpoint
    and then saves the address for the tunnel: the private address when
    the endpoint has one, else the public one.  When the endpoint has
    neither it raises [KeyError], with the key already registered and the
    tunnel-target file untouched; and when the address cannot be written
    to the file once opened, it raises [IOError], with the key registered
    and the tunnel-target file left empty. *)
Theorem add_public_key_prefers_private_address name (r : RemoteEndpoint) (w : World)
    (key : string) :
  glue_healthy (oracle w) ->
  endpoints w !! name = Some r ->
  SSH_KEY_PUBLIC_PATH ∉ io_faulty w ->
  fs w !! SSH_KEY_PUBLIC_PATH = Some key ->
  truthy key = true ->
  AUTO_SSH_HOST_PATH ∉ io_faulty w ->
  exists r',
    endpoints (snd (add_public_key name w)) !! name = Some r' /\
    In key (registered_keys r') /\
    match tunnel_address r with
    | Some address =>
        if bool_decide (AUTO_SSH_HOST_PATH ∈ write_faulty w) then
          fst (add_public_key name w) = Raise (IOError AUTO_SSH_HOST_PATH) /\
          fs (snd (add_public_key name w)) !! AUTO_SSH_HOST_PATH = Some ""
        else
          fst (add_public_key name w) = Ok tt /\
          fs (snd (add_public_key name w)) !! AUTO_SSH_HOST_PATH = Some address
    | None =>
        fst (add_public_key name w) = Raise (KeyError "PublicAddress") /\
        fs (snd (add_public_key name w)) !! AUTO_SSH_HOST_PATH = fs w !! AUTO_SSH_HOST_PATH
    end.
Proof.
  intros Hh Hr Hok Hfile Htruthy Hhost.
  destruct (add_public_key_register_healthy name r w key Hh Hr Hok Hfile Htruthy)
    as (t & status & Hrun & Ht & _ & Hend).
  destruct (register_event_replay t w Ht) as [Hfs Hfaulty].
  exists (apply_update [key] [] r).
  rewrite add_public_key_split, (bind_ok _ _ _ _ _ Hrun).
  assert (Hhost' : bool_decide (AUTO_SSH_HOST_PATH ∈ io_faulty (replay t w)) = false)
    by (rewrite Hfaulty; by apply bool_decide_eq_false).
  assert (Hwf : write_faulty (replay t w) = write_faulty w) by apply write_faulty_replay.
  unfold tunnel_address, add_public_key_save, bind, logger, open_write.
  cbn [PrivateAddress PublicAddress fst snd].
  change (io_faulty (perform (EvLog ?l ?m) ?x)) with (io_faulty x).
  change (write_faulty (perform (EvLog ?l ?m) ?x)) with (write_faulty x).
  destruct (remote_private_address r) as [private|];
    [|destruct (remote_public_address r) as [public|]]; cbn [ret raise fst snd].
  - change (io_faulty (perform (EvLog ?l ?m) ?x)) with (io_faulty x). rewrite Hhost'.
    change (write_faulty (perform (EvLog ?l ?m) ?x)) with (write_faulty x). rewrite Hwf.
    destruct (bool_decide (AUTO_SSH_HOST_PATH ∈ write_faulty w)); cbn [fst snd];
      (split; [exact Hend|]; split; [apply registered_after_add|]; split; [done|]);
      cbn; apply lookup_insert_eq.
  - change (io_faulty (perform (EvLog ?l ?m) ?x)) with (io_faulty x). rewrite Hhost'.
    change (write_faulty (perform (EvLog ?l ?m) ?x)) with (write_faulty x). rewrite Hwf.
    destruct (bool_decide (AUTO_SSH_HOST_PATH ∈ write_faulty w)); cbn [fst snd];
      (split; [exact Hend|]; split; [apply registered_after_add|]; split; [done|]);
      cbn; apply lookup_insert_eq.
  - split; [exact Hend|]. split; [apply registered_after_add|]. split; [done|].
    change (fs (replay t w) !! AUTO_SSH_HOST_PATH = fs w !! AUTO_SSH_HOST_PATH).
    by rewrite Hfs.
Qed.

Lemma add_public_key_prefers_private_address_witness :
  fs (snd (add_public_key "epA" keyed_world)) !! AUTO_SSH_HOST_PATH = Some "10.0.0.1" /\
  fs (snd (add_public_key "epP" keyed_world)) !! AUTO_SSH_HOST_PATH = Some "203.0.113.8" /\
  fst (add_public_key "epN" keyed_world) = Raise (KeyError "PublicAddress") /\
  fst (add_public_key "epA" keyed_full_disk_world) = Raise (IOError AUTO_SSH_HOST_PATH) /\
  fs (snd (add_public_key "epA" keyed_full_disk_world)) !! AUTO_SSH_HOST_PATH = Some "".
Proof.
  assert (Hpub : SSH_KEY_PUBLIC_PATH ∉ io_faulty keyed_world)
    by (apply (bool_decide_unpack _); vm_compute; exact I).
  assert (Hhost : AUTO_SSH_HOST_PATH ∉ io_faulty keyed_world)
    by (apply (bool_decide_unpack _); vm_compute; exact I).
  assert (Hpub' : SSH_KEY_PUBLIC_PATH ∉ io_faulty keyed_full_disk_world)
    by (apply (bool_decide_unpack _); vm_compute; exact I).
  assert (Hhost' : AUTO_SSH_HOST_PATH ∉ io_faulty keyed_full_disk_world)
    by (apply (bool_decide_unpack _); vm_compute; exact I).
  split; [|split; [|split]].
  - destruct (add_public_key_prefers_private_address "epA"
                (mkRemoteEndpoint None None (Some "10.0.0.1") (Some "203.0.113.7"))
                keyed_world new_key healthy_oracle_healthy eq_refl Hpub eq_refl eq_refl Hhost)
      as (r' & _ & _ & _ & Haddress). exact Haddress.
  - destruct (add_public_key_prefers_private_address "epP"
                (mkRemoteEndpoint None None None (Some "203.0.113.8"))
                keyed_world new_key healthy_oracle_healthy eq_refl Hpub eq_refl eq_refl Hhost)
      as (r' & _ & _ & _ & Haddress). exact Haddress.
  - destruct (add_public_key_prefers_private_address "epN"
                (mkRemoteEndpoint None None None None)
                keyed_world new_key healthy_oracle_healthy eq_refl Hpub eq_refl eq_refl Hhost)
      as (r' & _ & _ & Hraise & _). exact Hraise.
  - destruct (add_public_key_prefers_private_address "epA"
                (mkRemoteEndpoint None None (Some "10.0.0.1") (Some "203.0.113.7"))
                keyed_full_disk_world new_key healthy_oracle_healthy eq_refl Hpub' eq_refl
                eq_refl Hhost')
      as (r' & _ & _ & Hcase). exact Hcase.
Defined.

(** * Further properties of the reconnect tick *)

Lemma not_mutating_replay_trace t w :
  Forall (fun e => is_mutating e = false) t ->
  fs (replay t w) = fs w /\ endpoints (replay t w) = endpoints w /\
  notebook_tags (replay t w) = notebook_tags w /\
  autossh_running (replay t w) = autossh_running w.
Proof. intros Ht. destruct (replay_not_mutating t w Ht) as (? & ? & ? & ? & ?). done. Qed.

(** X11.  A reconnect tick fails, without having changed anything, when
    the probe fails otherwise than by a refused connection (its exception
    is not caught) and when, the connection being refused, the endpoint
    cannot be described (it was deleted, or the call fails). *)
Theorem reconnect_raises_without_repair arn nb name (w : World) :
  truthy name = true ->
  (livy (oracle w) (probes w) = LivyOtherError ->
   reconnect_dev_endpoint arn nb (Some name) w =
   (Raise RequestException, perform (EvProbe LIVY_PING_TIMEOUT_IN_SEC LivyOtherError) w)) /\
  (livy (oracle w) (probes w) = LivyRefused ->
   glue_fault (oracle w) (glue_calls w) = true \/ endpoints w !! name = None ->
   exists t,
     reconnect_dev_endpoint arn nb (Some name) w
       = (Raise (ClientError "GetDevEndpoint"), replay t w) /\
     Forall (fun e => is_mutating e = false) t).
Proof.
  intros Htruthy. unfold reconnect_dev_endpoint. cbn [truthy_opt default].
  rewrite Htruthy. cbn [negb].
  pose proof (is_dev_endpoint_connected_run w) as Hprobe. split.
  - intros Ho. rewrite Ho in Hprobe. by rewrite (bind_raise _ _ _ _ _ Hprobe).
  - intros Ho Hgone. rewrite Ho in Hprobe. rewrite (bind_ok _ _ _ _ _ Hprobe). cbn [negb].
    unfold logger at 1, bind at 1.
    set (w1 := perform (EvLog WARNING _) _).
    assert (Hget : glue_get_dev_endpoint name w1
                   = (Raise (ClientError "GetDevEndpoint"), perform (EvGetDevEndpoint name) w1)).
    { unfold glue_get_dev_endpoint.
      change (oracle w1) with (oracle w). change (glue_calls w1) with (glue_calls w).
      change (endpoints w1) with (endpoints w).
      destruct Hgone as [-> | ->]; [done|]. by destruct (glue_fault _ _). }
    rewrite (bind_raise _ _ _ _ _ Hget).
    eexists [_; _; _]. split; [reflexivity|]. by repeat constructor.
Qed.

Lemma reconnect_raises_without_repair_witness :
  fst (reconnect_dev_endpoint "arn" "nb" (Some "epA") timeout_world) = Raise RequestException.
Proof.
  destruct (reconnect_raises_without_repair "arn" "nb" "epA" timeout_world eq_refl)
    as [Hother _].
  by rewrite (Hother eq_refl).
Defined.

(** X12.  When the connection is refused and the endpoint is being updated
    (its status is neither [COMPLETED] nor [FAILED]), the reconnect tick
    returns having changed nothing: it leaves the repair to a later
    tick. *)
Theorem reconnect_backs_off_while_updating arn nb name (r : RemoteEndpoint) (w : World) :
  truthy name = true ->
  livy (oracle w) (probes w) = LivyRefused ->
  glue_fault (oracle w) (glue_calls w) = false ->
  endpoints w !! name = Some r ->
  still_updating (glue_status (oracle w) (glue_calls w)) = true ->
  exists t,
    reconnect_dev_endpoint arn nb (Some name) w = (Ok tt, replay t w) /\
    Forall (fun e => is_mutating e = false) t /\
    fs (replay t w) = fs w /\ endpoints (replay t w) = endpoints w /\
    notebook_tags (replay t w) = notebook_tags w /\
    autossh_running (replay t w) = autossh_running w.
Proof.
  intros Htruthy Ho Hfault Hr Hupdating. unfold reconnect_dev_endpoint.
  cbn [truthy_opt default]. rewrite Htruthy. cbn [negb].
  pose proof (is_dev_endpoint_connected_run w) as Hprobe. rewrite Ho in Hprobe.
  rewrite (bind_ok _ _ _ _ _ Hprobe). cbn [negb].
  unfold logger at 1, bind at 1.
  set (w1 := perform (EvLog WARNING _) _).
  assert (Hget : glue_get_dev_endpoint name w1
                 = (Ok (mkDevEndpoint (remote_key r) (remote_keys r)
                          (glue_status (oracle w) (glue_calls w))
                          (remote_private_address r) (remote_public_address r)),
                    perform (EvGetDevEndpoint name) w1)).
  { unfold glue_get_dev_endpoint.
    change (oracle w1) with (oracle w). change (glue_calls w1) with (glue_calls w).
    change (endpoints w1) with (endpoints w). by rewrite Hfault, Hr. }
  rewrite (bind_ok _ _ _ _ _ Hget). cbv beta.
  change (is_dev_endpoint_updating _) with (still_updating (glue_status (oracle w) (glue_calls w))).
  rewrite Hupdating.
  eexists [_; _; _; _]. split; [reflexivity|].
  assert (Hquiet : Forall (fun e => is_mutating e = false)
            [EvLog WARNING ("dev_endpoint=" +:+ name +:+ " is updating, re-check in next round");
             EvGetDevEndpoint name;
             EvLog WARNING ("dev_endpoint=" +:+ name +:+ " disconnected, trying to reconnect...");
             EvProbe LIVY_PING_TIMEOUT_IN_SEC LivyRefused])
    by (by repeat constructor).
  split; [exact Hquiet|]. by apply not_mutating_replay_trace.
Qed.

Lemma reconnect_backs_off_while_updating_witness :
  fst (reconnect_dev_endpoint "arn" "nb" (Some "epA") updating_world) = Ok tt.
Proof.
  destruct (reconnect_backs_off_while_updating "arn" "nb" "epA"
              (mkRemoteEndpoint None None (Some "10.0.0.1") None) updating_world
              eq_refl eq_refl eq_refl eq_refl eq_refl) as (t & Hrun & _).
  by rewrite Hrun.
Defined.

(** ** Restarting the tunnel *)








(** ** The binding file under reconnect and connect *)

(** *** Footprints from the worlds that satisfy an invariant *)

Section SatFrom.

Context (I : World -> Prop) (P : event -> Prop).
Hypothesis I_perform : forall e w, I w -> I (perform e w).

Lemma sat_from_replay t w : I w -> I (replay t w).
Proof. intros Hw. induction t as [|e t IH]; cbn [replay]; [done | by apply I_perform]. Qed.

Lemma sat_from_sat {A} (m : M A) : sat P m -> sat_from I P m.
Proof. intros Hm w _. apply Hm. Qed.

Lemma sat_from_bind {A B} (m : M A) (k : A -> M B) :
  sat_from I P m -> (forall a, sat_from I P (k a)) -> sat_from I P (bind m k).
Proof.
  intros Hm Hk w Hw. unfold bind.
  destruct (Hm w Hw) as [Hd (t & Ht & HPt)].
  destruct (m w) as [[a|e|] w1]; cbn in *.
  - subst w1. destruct (Hk a (replay t w) (sat_from_replay t w Hw)) as [Hd' (t' & Ht' & HPt')].
    split; [done|]. exists (t' ++ t)%list. rewrite replay_app. split; [done|].
    by apply Forall_app.
  - split; [done|]. by exists t.
  - done.
Qed.

Lemma sat_from_try {A} (m : M A) (c : exn -> bool) (h : exn -> M A) :
  sat_from I P m -> (forall e, sat_from I P (h e)) -> sat_from I P (try_except m c h).
Proof.
  intros Hm Hh w Hw. unfold try_except.
  destruct (Hm w Hw) as [Hd (t & Ht & HPt)].
  destruct (m w) as [[a|e|] w1]; cbn in *.
  - split; [done|]. by exists t.
  - destruct (c e); cbn.
    + subst w1.
      destruct (Hh e (replay t w) (sat_from_replay t w Hw)) as [Hd' (t' & Ht' & HPt')].
      split; [done|]. exists (t' ++ t)%list. rewrite replay_app. split; [done|].
      by apply Forall_app.
    + split; [done|]. by exists t.
  - done.
Qed.

End SatFrom.

Lemma binding_writable_perform e w : binding_writable w -> binding_writable (perform e w).
Proof. unfold binding_writable. by rewrite write_faulty_perform. Qed.

(** On a binding file that takes the text, a write goes through or fails
    at [open], the file untouched. *)
Lemma sat_from_save_binding (P : event -> Prop) c :
  P (EvWrite CURRENT_DEV_ENDPOINT_PATH c) -> P (EvIOFail CURRENT_DEV_ENDPOINT_PATH) ->
  sat_from binding_writable P (open_write CURRENT_DEV_ENDPOINT_PATH c).
Proof.
  intros H1 H2 w Hw. unfold open_write.
  rewrite (bool_decide_eq_false_2 _ Hw).
  destruct (bool_decide (CURRENT_DEV_ENDPOINT_PATH ∈ io_faulty w)).
  - by apply sat_io_fail.
  - split; [done|]. exists [EvWrite CURRENT_DEV_ENDPOINT_PATH c]. split; [done|].
    by repeat constructor.
Qed.

(** As [sat_walk], from the worlds where the binding file takes the text:
    walks down to the primitives, which are left to [sat_walk]. *)
Ltac sat_from_walk :=
  repeat (intros; lazymatch goal with
    | |- sat_from _ _ (bind _ _) => apply (sat_from_bind _ _ binding_writable_perform)
    | |- sat_from _ _ (try_except _ _ _) => apply (sat_from_try _ _ binding_writable_perform)
    | |- sat_from _ _ (open_write CURRENT_DEV_ENDPOINT_PATH _) => apply sat_from_save_binding
    | |- sat_from _ _ (ret _) => apply sat_from_sat
    | |- sat_from _ _ (raise _) => apply sat_from_sat
    | |- sat_from _ _ (logger _ _) => apply sat_from_sat
    | |- sat_from _ _ time_time => apply sat_from_sat
    | |- sat_from _ _ (time_sleep _) => apply sat_from_sat
    | |- sat_from _ _ (os_path_exists _) => apply sat_from_sat
    | |- sat_from _ _ (open_read _) => apply sat_from_sat
    | |- sat_from _ _ (open_write _ _) => apply sat_from_sat
    | |- sat_from _ _ (os_remove _) => apply sat_from_sat
    | |- sat_from _ _ (pathlib_mkdir _) => apply sat_from_sat
    | |- sat_from _ _ (os_chmod _) => apply sat_from_sat
    | |- sat_from _ _ (ssh_keygen _ _) => apply sat_from_sat
    | |- sat_from _ _ (subprocess_call _) => apply sat_from_sat
    | |- sat_from _ _ (requests_get _) => apply sat_from_sat
    | |- sat_from _ _ (glue_get_dev_endpoint _) => apply sat_from_sat
    | |- sat_from _ _ (glue_update_dev_endpoint _ _ _) => apply sat_from_sat
    | |- sat_from _ _ (sagemaker_list_tags _) => apply sat_from_sat
    | |- sat_from _ _ (sagemaker_add_tags _ _ _) => apply sat_from_sat
    | |- sat_from _ _ (wait_dev_endpoint_ready _) => apply sat_from_sat
    | |- sat_from _ _ (if ?b then _ else _) => destruct b
    | |- sat_from _ _ (match ?x with _ => _ end) => destruct x
    | |- sat_from _ _ (let _ := _ in _) => cbv zeta
    | |- sat_from _ _ ?m => let h := head_of m in unfold h
    end).

(** *** The reconnect tick *)

Lemma keeps_binding_replay c t w :
  Forall (keeps_binding c) t ->
  fs w !! CURRENT_DEV_ENDPOINT_PATH = Some c ->
  fs (replay t w) !! CURRENT_DEV_ENDPOINT_PATH = Some c.
Proof.
  intros Ht Hfile. induction Ht as [|e t He _ IH]; cbn [replay]; [done|].
  destruct He as [He| ->].
  - by rewrite fs_perform.
  - cbn. apply lookup_insert_eq.
Qed.

Lemma keeps_or_empties_binding_replay c t w :
  Forall (keeps_or_empties_binding c) t ->
  fs w !! CURRENT_DEV_ENDPOINT_PATH = Some c ->
  fs (replay t w) !! CURRENT_DEV_ENDPOINT_PATH = Some c \/
  fs (replay t w) !! CURRENT_DEV_ENDPOINT_PATH = Some "".
Proof.
  intros Ht Hfile. induction Ht as [|e t He _ IH]; cbn [replay]; [by left|].
  destruct He as [[He| ->]| ->].
  - by rewrite fs_perform.
  - left. cbn. apply lookup_insert_eq.
  - right. cbn. apply lookup_insert_eq.
Qed.

Lemma reconnect_dev_endpoint_keeps_binding arn nb c :
  sat_from binding_writable (keeps_binding c) (reconnect_dev_endpoint arn nb (Some c)).
Proof.
  sat_from_walk; sat_walk; intros; first [left; reflexivity | right; reflexivity].
Qed.

Lemma reconnect_dev_endpoint_keeps_or_empties_binding arn nb c :
  sat (keeps_or_empties_binding c) (reconnect_dev_endpoint arn nb (Some c)).
Proof.
  sat_walk; intros;
    first [left; left; reflexivity | left; right; reflexivity | right; reflexivity].
Qed.

(** X14.  A reconnect tick never binds the notebook to another endpoint.
    Whatever it does (nothing, a tunnel restart, a full disconnect and
    connect) and however it ends, the binding file holds afterwards what
    it held before, as long as the file takes the text written to it; on a
    full disk, where the write of the name fails after [open] has
    truncated the file, the binding file may be left empty instead. *)
Theorem reconnect_tick_keeps_binding arn nb (w : World) :
  fst (reconnect_daemon_tick arn nb w) <> Diverge /\
  (CURRENT_DEV_ENDPOINT_PATH ∉ write_faulty w ->
   fs (snd (reconnect_daemon_tick arn nb w)) !! CURRENT_DEV_ENDPOINT_PATH
   = fs w !! CURRENT_DEV_ENDPOINT_PATH) /\
  (fs (snd (reconnect_daemon_tick arn nb w)) !! CURRENT_DEV_ENDPOINT_PATH
   = fs w !! CURRENT_DEV_ENDPOINT_PATH \/
   fs (snd (reconnect_daemon_tick arn nb w)) !! CURRENT_DEV_ENDPOINT_PATH = Some "").
Proof.
  split; [apply reconnect_daemon_tick_ends|].
  destruct (get_current_dev_endpoint_run w) as (t0 & Hcur & Ht0).
  assert (Hfs0 : fs (replay t0 w) = fs w)
    by (by destruct Ht0 as [->|[->| ->]]).
  unfold reconnect_daemon_tick. rewrite (bind_ok _ _ _ _ _ Hcur).
  destruct (bool_decide (CURRENT_DEV_ENDPOINT_PATH ∈ io_faulty w)).
  { cbn. rewrite Hfs0. by split; [|left]. }
  destruct (fs w !! CURRENT_DEV_ENDPOINT_PATH) as [c|] eqn:Hfile.
  2:{ cbn. rewrite Hfs0, Hfile. by split; [|left]. }
  split.
  - intros Hw.
    destruct (reconnect_dev_endpoint_keeps_binding arn nb c (replay t0 w))
      as [_ (t & -> & Ht)].
    { unfold binding_writable. by rewrite write_faulty_replay. }
    apply keeps_binding_replay; [done|]. by rewrite Hfs0.
  - destruct (reconnect_dev_endpoint_keeps_or_empties_binding arn nb c (replay t0 w))
      as [_ (t & -> & Ht)].
    apply keeps_or_empties_binding_replay; [done|]. by rewrite Hfs0.
Qed.

Lemma reconnect_tick_keeps_binding_witness :
  fs (snd (reconnect_daemon_tick "arn" "nb" tunnel_down_world)) !! CURRENT_DEV_ENDPOINT_PATH
  = Some "epA" /\
  fs (snd (reconnect_daemon_tick "arn" "nb" full_disk_tunnel_down_world))
    !! CURRENT_DEV_ENDPOINT_PATH = Some "".
Proof.
  split.
  - destruct (reconnect_tick_keeps_binding "arn" "nb" tunnel_down_world) as (_ & Hkept & _).
    rewrite Hkept; [reflexivity|]. apply (bool_decide_unpack _). vm_compute. exact I.
  - destruct (reconnect_tick_keeps_binding "arn" "nb" full_disk_tunnel_down_world)
      as (_ & _ & [Hkept|Hemptied]); [|exact Hemptied].
    vm_compute in Hkept. discriminate Hkept.
Defined.

(** *** connect *)

Lemma update_connection_tag_returns arn tag w :
  fst (update_connection_tag arn tag w) = Ok tt.
Proof.
  unfold update_connection_tag, try_except, sagemaker_add_tags.
  by destruct (sm_fault (oracle w) (sm_calls w)).
Qed.

Lemma bind_Raise_inv {A B} (m : M A) (k : A -> M B) w e w' :
  bind m k w = (Raise e, w') ->
  m w = (Raise e, w') \/ exists a w1, m w = (Ok a, w1) /\ k a w1 = (Raise e, w').
Proof.
  unfold bind. destruct (m w) as [[a|e0|] w1]; [|intros [= -> ->]; by left|discriminate].
  intros H. right. by exists a, w1.
Qed.

(** A save that raises has left the files as they were, or has failed
    after [open] and left the binding file empty. *)
Lemma save_current_dev_endpoint_raise name w e w' :
  save_current_dev_endpoint name w = (Raise e, w') ->
  fs w' = fs w \/
  (e = IOError CURRENT_DEV_ENDPOINT_PATH /\
   CURRENT_DEV_ENDPOINT_PATH ∈ write_faulty w /\
   fs w' = <[CURRENT_DEV_ENDPOINT_PATH := ""]> (fs w)).
Proof.
  unfold save_current_dev_endpoint, try_except, bind, open_write, logger, io_fail.
  change (io_faulty (perform _ w)) with (io_faulty w).
  change (write_faulty (perform _ w)) with (write_faulty w).
  destruct (bool_decide (CURRENT_DEV_ENDPOINT_PATH ∈ io_faulty w)); cbn.
  { intros [= _ <-]. by left. }
  destruct (bool_decide (CURRENT_DEV_ENDPOINT_PATH ∈ write_faulty w)) eqn:Hfull;
    cbn; [|discriminate].
  intros [= <- <-]. right. apply bool_decide_eq_true in Hfull. done.
Qed.

Lemma connect_suffix_raise arn name w e w' :
  connect_suffix arn name w = (Raise e, w') ->
  fs w' = fs w \/
  (e = IOError CURRENT_DEV_ENDPOINT_PATH /\
   CURRENT_DEV_ENDPOINT_PATH ∈ write_faulty w /\
   fs w' = <[CURRENT_DEV_ENDPOINT_PATH := ""]> (fs w)).
Proof.
  unfold connect_suffix.
  intros [Hsave|([] & w1 & _ & Htail)]%bind_Raise_inv;
    [by apply save_current_dev_endpoint_raise in Hsave|].
  exfalso. apply bind_Raise_inv in Htail as [Htag|([] & w2 & _ & Hlog)].
  - pose proof (update_connection_tag_returns arn "ready" w1) as Hok.
    by rewrite Htag in Hok.
  - discriminate.
Qed.

Lemma ping_livy_keeps_files :
  sat (fun e => changes_files e = false) ping_livy.
Proof. sat_walk; intros; reflexivity. Qed.

(** X15.  Only a connect that goes through binds the notebook: after a
    [connect_dev_endpoint] that returned the binding file holds the
    endpoint's name.  After one that raised, the binding file holds what
    it held before, with one exception: when the raise is the [IOError] of
    the write of the name, failing on a full disk after [open] has
    truncated the file, the binding file is left empty. *)
Theorem connect_binds_only_on_success arn nb name (w w' : World) (r : result unit) :
  connect_dev_endpoint arn nb name w = (r, w') ->
  match r with
  | Ok _ => fs w' !! CURRENT_DEV_ENDPOINT_PATH = Some name
  | Raise e =>
      fs w' !! CURRENT_DEV_ENDPOINT_PATH = fs w !! CURRENT_DEV_ENDPOINT_PATH \/
      (e = IOError CURRENT_DEV_ENDPOINT_PATH /\
       CURRENT_DEV_ENDPOINT_PATH ∈ write_faulty w /\
       fs w' !! CURRENT_DEV_ENDPOINT_PATH = Some "")
  | Diverge => False
  end.
Proof.
  intros Hconnect. destruct r as [[]|e|].
  - by apply connect_dev_endpoint_ok in Hconnect as (_ & Hbound & _).
  - rewrite connect_dev_endpoint_split in Hconnect.
    apply bind_Raise_inv in Hconnect as [Hprefix|([] & w1 & Hprefix & Hrest)].
    + destruct (sat_run _ _ _ _ _ (connect_prefix_quiet nb name) Hprefix) as (t & -> & Ht).
      left. by destruct (quiet_replay t w Ht) as (Hfs & _).
    + destruct (sat_run _ _ _ _ _ (connect_prefix_quiet nb name) Hprefix) as (t & -> & Ht).
      destruct (quiet_replay t w Ht) as (Hfs & _). rewrite <- Hfs.
      apply bind_Raise_inv in Hrest as [Hping|([] & w2 & Hping & Hsuffix)].
      * destruct (sat_run _ _ _ _ _ ping_livy_keeps_files Hping) as (t2 & -> & Ht2).
        left. by rewrite fs_replay_unchanged.
      * destruct (sat_run _ _ _ _ _ ping_livy_keeps_files Hping) as (t2 & -> & Ht2).
        apply connect_suffix_raise in Hsuffix as [Hsame|(-> & Hfull & Hempty)].
        { left. rewrite Hsame. by rewrite fs_replay_unchanged. }
        right. split; [done|]. rewrite !write_faulty_replay in Hfull. split; [done|].
        rewrite Hempty. apply lookup_insert_eq.
  - destruct (connect_dev_endpoint_ends arn nb name w) as [Hend _].
    by rewrite Hconnect in Hend.
Qed.

Lemma connect_binds_only_on_success_witness :
  fs (snd (connect_dev_endpoint "arn" "nb" "epA" healthy_world)) !! CURRENT_DEV_ENDPOINT_PATH
  = Some "epA" /\
  fs (snd (connect_dev_endpoint "arn" "nb" "epB" refused_world)) !! CURRENT_DEV_ENDPOINT_PATH
  = None /\
  fs (snd (connect_dev_endpoint "arn" "nb" "epA" full_disk_world)) !! CURRENT_DEV_ENDPOINT_PATH
  = Some "".
Proof.
  split; [|split].
  - assert (H : connect_dev_endpoint "arn" "nb" "epA" healthy_world
                = (Ok tt, snd (connect_dev_endpoint "arn" "nb" "epA" healthy_world)))
      by (vm_compute; reflexivity).
    exact (connect_binds_only_on_success "arn" "nb" "epA" healthy_world _ _ H).
  - assert (H : connect_dev_endpoint "arn" "nb" "epB" refused_world
                = (Raise (ClientError "GetDevEndpoint"),
                   snd (connect_dev_endpoint "arn" "nb" "epB" refused_world)))
      by (vm_compute; reflexivity).
    destruct (connect_binds_only_on_success "arn" "nb" "epB" refused_world _ _ H)
      as [Hkept|(Habs & _)]; [exact Hkept | discriminate Habs].
  - assert (H : connect_dev_endpoint "arn" "nb" "epA" full_disk_world
                = (Raise (IOError CURRENT_DEV_ENDPOINT_PATH),
                   snd (connect_dev_endpoint "arn" "nb" "epA" full_disk_world)))
      by (vm_compute; reflexivity).
    destruct (connect_binds_only_on_success "arn" "nb" "epA" full_disk_world _ _ H)
      as [Hkept|(_ & _ & Hemptied)]; [|exact Hemptied].
    vm_compute in Hkept. discriminate Hkept.
Defined.
(** * Further properties of the switch tick *)

(** X16.  When the binding file names the endpoint of the notebook's tag,
    the switch tick returns having only read the file, listed the tags and
    logged; and when the notebook has no [aws-glue-dev-endpoint] tag, the
    tick raises [ValueError], again without having changed anything: a
    bound notebook stays connected. *)
Theorem switch_tick_without_change arn nb (w : World) (current : string) :
  fs w !! CURRENT_DEV_ENDPOINT_PATH = Some current ->
  CURRENT_DEV_ENDPOINT_PATH ∉ io_faulty w ->
  sm_fault (oracle w) (sm_calls w) = false ->
  (forall key rest,
     List.filter (fun x => String.eqb (fst x) "aws-glue-dev-endpoint") (notebook_tags w)
       = (key, current) :: rest ->
     switch_daemon_tick arn nb w =
     (Ok tt,
      replay [EvLog INFO ("dev_endpoint=" +:+ current +:+ " not changed");
              EvListTags;
              EvRead CURRENT_DEV_ENDPOINT_PATH] w)) /\
  (List.filter (fun x => String.eqb (fst x) "aws-glue-dev-endpoint") (notebook_tags w) = [] ->
   switch_daemon_tick arn nb w =
   (Raise (ValueError "Unable to get latest DevEndpoint from notebook tag"),
    replay [EvListTags; EvRead CURRENT_DEV_ENDPOINT_PATH] w)).
Proof.
  intros Hfile Hok Hfault.
  pose proof (get_current_dev_endpoint_bound w current Hfile Hok) as Hcur.
  unfold switch_daemon_tick. rewrite (bind_ok _ _ _ _ _ Hcur). cbv beta. split.
  - intros key rest Htag.
    rewrite (bind_ok _ _ _ _ _
               (get_latest_dev_endpoint_tagged arn (perform (EvRead CURRENT_DEV_ENDPOINT_PATH) w)
                  key current rest Hfault Htag)).
    cbv beta zeta.
    by rewrite (bool_decide_eq_true_2 (Some current = Some current)).
  - intros Hnone. apply bind_raise.
    unfold get_latest_dev_endpoint, bind, sagemaker_list_tags.
    change (oracle (perform _ w)) with (oracle w).
    change (sm_calls (perform _ w)) with (sm_calls w).
    change (notebook_tags (perform _ w)) with (notebook_tags w).
    by rewrite Hfault, Hnone.
Qed.

Lemma switch_tick_without_change_witness :
  fst (switch_daemon_tick "arn" "nb" settled_world) = Ok tt /\
  (exists e, fst (switch_daemon_tick "arn" "nb" untagged_world) = Raise e) /\
  fs (snd (switch_daemon_tick "arn" "nb" untagged_world)) !! CURRENT_DEV_ENDPOINT_PATH
    = Some "epA".
Proof.
  assert (H1 : CURRENT_DEV_ENDPOINT_PATH ∉ io_faulty settled_world)
    by (apply (bool_decide_unpack _); vm_compute; exact I).
  assert (H2 : CURRENT_DEV_ENDPOINT_PATH ∉ io_faulty untagged_world)
    by (apply (bool_decide_unpack _); vm_compute; exact I).
  destruct (switch_tick_without_change "arn" "nb" settled_world "epA" eq_refl H1 eq_refl)
    as [Hsame _].
  destruct (switch_tick_without_change "arn" "nb" untagged_world "epA" eq_refl H2 eq_refl)
    as [_ Hnotag].
  rewrite (Hsame "aws-glue-dev-endpoint" [] eq_refl), (Hnotag eq_refl).
  split; [reflexivity|]. split; [by eexists | reflexivity].
Defined.

Lemma get_latest_dev_endpoint_ok arn w latest w' :
  get_latest_dev_endpoint arn w = (Ok latest, w') ->
  w' = perform EvListTags w /\
  exists key rest,
    List.filter (fun x => String.eqb (fst x) "aws-glue-dev-endpoint") (notebook_tags w)
    = (key, latest) :: rest.
Proof.
  unfold get_latest_dev_endpoint, bind, sagemaker_list_tags.
  destruct (sm_fault (oracle w) (sm_calls w)); [discriminate|].
  destruct (List.filter _ (notebook_tags w)) as [|[key value] rest]; [discriminate|].
  intros [= -> <-]. split; [reflexivity|]. by exists key, rest.
Qed.

(** X17.  A switch tick that returns has reconciled the binding with the
    tag: when the first [aws-glue-dev-endpoint] tag of the notebook names
    an endpoint (a non-empty value), the binding file holds that name
    afterwards, whatever it held before. *)
Theorem switch_tick_binds_to_tag arn nb (w w' : World) :
  switch_daemon_tick arn nb w = (Ok tt, w') ->
  exists key latest rest,
    List.filter (fun x => String.eqb (fst x) "aws-glue-dev-endpoint") (notebook_tags w)
      = (key, latest) :: rest /\
    (truthy latest = true -> fs w' !! CURRENT_DEV_ENDPOINT_PATH = Some latest).
Proof.
  intros Htick.
  destruct (get_current_dev_endpoint_run w) as (t0 & Hcur & Ht0).
  assert (Hfs0 : fs (replay t0 w) = fs w) by (by destruct Ht0 as [->|[->| ->]]).
  assert (Htags0 : notebook_tags (replay t0 w) = notebook_tags w)
    by (by destruct Ht0 as [->|[->| ->]]).
  unfold switch_daemon_tick in Htick. rewrite (bind_ok _ _ _ _ _ Hcur) in Htick.
  cbv beta in Htick.
  apply bind_Ok_inv in Htick as (latest & w2 & Hlatest & Hbody).
  apply get_latest_dev_endpoint_ok in Hlatest as (-> & key & rest & Htag).
  rewrite Htags0 in Htag. exists key, latest, rest. split; [exact Htag|].
  intros Htruthy. cbv zeta in Hbody.
  set (current := if bool_decide (CURRENT_DEV_ENDPOINT_PATH ∈ io_faulty w) then None
                  else fs w !! CURRENT_DEV_ENDPOINT_PATH) in *.
  destruct (bool_decide (current = Some latest)) eqn:Hsame; cbn [negb] in Hbody.
  - apply bool_decide_eq_true in Hsame. unfold logger in Hbody.
    injection Hbody as <-.
    change (fs (replay t0 w) !! CURRENT_DEV_ENDPOINT_PATH = Some latest).
    rewrite Hfs0. subst current. by destruct (bool_decide _).
  - apply bind_Ok_inv in Hbody as ([] & w3 & _ & Hbody).
    apply bind_Ok_inv in Hbody as ([] & w4 & _ & Hbody).
    rewrite Htruthy in Hbody.
    apply bind_Ok_inv in Hbody as ([] & w5 & Hconnect & Hlog).
    unfold logger in Hlog. injection Hlog as <-.
    by apply connect_dev_endpoint_ok in Hconnect as (_ & Hbound & _).
Qed.

Lemma switch_tick_binds_to_tag_witness :
  exists w', switch_daemon_tick "arn" "nb" healthy_world = (Ok tt, w') /\
             fs w' !! CURRENT_DEV_ENDPOINT_PATH = Some "epA".
Proof.
  assert (H : switch_daemon_tick "arn" "nb" healthy_world
              = (Ok tt, snd (switch_daemon_tick "arn" "nb" healthy_world)))
    by (vm_compute; reflexivity).
  exists (snd (switch_daemon_tick "arn" "nb" healthy_world)). split; [exact H|].
  destruct (switch_tick_binds_to_tag "arn" "nb" healthy_world _ H)
    as (key & latest & rest & Htag & Hbound).
  injection Htag as _ <- _. by apply Hbound.
Defined.

(** * The circuit breaker of the reconnect daemon *)

Lemma reconnect_daemon_run_S arn nb n s :
  reconnect_daemon_run arn nb (S n) s
  = reconnect_daemon_run arn nb n (reconnect_daemon_step arn nb s).
Proof. unfold reconnect_daemon_run. by rewrite Nat.iter_succ_r. Qed.

Lemma reconnect_daemon_loop_failing arn nb n : forall failed_count w,
  reconnect_ticks_fail arn nb n (failed_count, w) = true ->
  (failed_count + n <= RECONNECT_THRESHOLD)%nat ->
  fst (reconnect_daemon_run arn nb n (failed_count, w)) = (failed_count + n)%nat /\
  (forall fuel,
      reconnect_daemon_loop arn nb (n + fuel) failed_count w =
      reconnect_daemon_loop arn nb fuel
        (fst (reconnect_daemon_run arn nb n (failed_count, w)))
        (snd (reconnect_daemon_run arn nb n (failed_count, w)))) /\
  (forall fuel, (fuel < n)%nat ->
      fst (reconnect_daemon_loop arn nb fuel failed_count w) = Diverge).
Proof.
  induction n as [|n IH]; intros failed_count w Hfail Hle.
  - cbn. split; [lia|]. split; [done|]. intros fuel Hlt. lia.
  - cbn [reconnect_ticks_fail] in Hfail. apply andb_true_iff in Hfail as [Htick Hrest].
    assert (Hguard : int_lt_float failed_count RECONNECT_MAX_FAIL_COUNT = true).
    { rewrite reconnect_guard. apply Nat.ltb_lt. lia. }
    pose proof (reconnect_daemon_iteration_eq arn nb failed_count w) as Hit.
    cbn [logger fst snd] in Htick.
    assert (Hstep : exists w',
               reconnect_daemon_iteration arn nb failed_count w = (Ok (failed_count + 1)%nat, w')
               /\ reconnect_daemon_step arn nb (failed_count, w) = ((failed_count + 1)%nat, w')).
    { unfold reconnect_daemon_step. cbn [fst snd].
      destruct (reconnect_daemon_tick arn nb _) as [[[]|e|] w1]; try discriminate.
      rewrite Hit. eauto. }
    destruct Hstep as (w' & Hiter & Hstep).
    rewrite reconnect_daemon_run_S, Hstep. rewrite Hstep in Hrest.
    destruct (IH (failed_count + 1)%nat w' Hrest ltac:(lia)) as (Hcount & Hloop & Hdiv).
    split; [lia|]. split.
    + intros fuel. cbn [Nat.add reconnect_daemon_loop]. rewrite Hguard.
      unfold bind at 1. rewrite Hiter. apply Hloop.
    + intros [|fuel] Hlt; cbn [reconnect_daemon_loop]; rewrite Hguard; [done|].
      unfold bind at 1. rewrite Hiter. apply Hdiv. lia.
Qed.

(** X18.  When its ticks keep raising, [reconnect_daemon] is still running
    after any number of iterations below 576 and stops after exactly 576
    of them, logging the count. *)
Theorem reconnect_daemon_halts_at_threshold arn nb (w : World) :
  reconnect_ticks_fail arn nb RECONNECT_THRESHOLD (reconnect_daemon_start w) = true ->
  Z.of_nat RECONNECT_THRESHOLD = 576 /\
  fst (reconnect_daemon_run arn nb RECONNECT_THRESHOLD (reconnect_daemon_start w))
    = RECONNECT_THRESHOLD /\
  (forall fuel, (fuel < RECONNECT_THRESHOLD)%nat ->
     fst (reconnect_daemon arn nb fuel w) = Diverge) /\
  (forall fuel, (RECONNECT_THRESHOLD <= fuel)%nat ->
     reconnect_daemon arn nb fuel w =
     (Ok tt,
      perform (EvLog ERROR "reconnect_daemon stopped, failed_count=576")
        (snd (reconnect_daemon_run arn nb RECONNECT_THRESHOLD (reconnect_daemon_start w))))).
Proof.
  intros Hfail. split; [reflexivity|].
  unfold reconnect_daemon_start in *. cbn [logger snd] in *.
  destruct (reconnect_daemon_loop_failing arn nb RECONNECT_THRESHOLD 0%nat _ Hfail ltac:(lia))
    as (Hcount & Hloop & Hdiv).
  split; [exact Hcount|]. split.
  - intros fuel Hlt. unfold reconnect_daemon, bind, logger. cbn [fst snd].
    specialize (Hdiv fuel Hlt).
    destruct (reconnect_daemon_loop arn nb fuel 0%nat _) as [[|?|] ?]; cbn [fst] in Hdiv;
      try discriminate; reflexivity.
  - intros fuel Hle. unfold reconnect_daemon, bind at 1, logger.
    replace fuel with (RECONNECT_THRESHOLD + (fuel - RECONNECT_THRESHOLD))%nat at 1 by lia.
    unfold bind. rewrite Hloop, Hcount.
    destruct (fuel - RECONNECT_THRESHOLD)%nat; cbn [reconnect_daemon_loop];
      rewrite reconnect_guard, Nat.ltb_irrefl; reflexivity.
Qed.

Lemma reconnect_daemon_halts_at_threshold_witness :
  fst (reconnect_daemon "arn" "nb" (RECONNECT_THRESHOLD - 1) timeout_world) = Diverge /\
  fst (reconnect_daemon "arn" "nb" RECONNECT_THRESHOLD timeout_world) = Ok tt.
Proof.
  assert (H : reconnect_ticks_fail "arn" "nb" RECONNECT_THRESHOLD
                (reconnect_daemon_start timeout_world) = true)
    by (vm_compute; reflexivity).
  destruct (reconnect_daemon_halts_at_threshold "arn" "nb" timeout_world H)
    as (_ & _ & Hbefore & Hafter).
  split.
  - apply Hbefore. vm_compute. lia.
  - rewrite (Hafter RECONNECT_THRESHOLD (Nat.le_refl _)). reflexivity.
Defined.

(** * The heartbeat *)

(** X19.  A heartbeat that returns has either made no call and returned
    the time it was given, or made one describe call and returned the time
    at which it was called; the time it returns was at most
    [DEV_ENDPOINT_HEARTBEAT_INTERVAL_IN_SEC] seconds old at the call, and a
    heartbeat from that time, at any moment within the interval, calls
    nothing and returns the same time. *)
Theorem dev_endpoint_heartbeat_rate_limited name last (w w1 : World) checked :
  dev_endpoint_heartbeat name last w = (Ok checked, w1) ->
  (checked = last /\ w1 = w \/
   checked = clock w /\ w1 = perform (EvGetDevEndpoint name) w) /\
  clock w - checked <= DEV_ENDPOINT_HEARTBEAT_INTERVAL_IN_SEC /\
  (forall w2,
      clock w2 - checked <= DEV_ENDPOINT_HEARTBEAT_INTERVAL_IN_SEC ->
      dev_endpoint_heartbeat name checked w2 = (Ok checked, w2)).
Proof.
  assert (Hquiet : forall w2,
            clock w2 - checked <= DEV_ENDPOINT_HEARTBEAT_INTERVAL_IN_SEC ->
            dev_endpoint_heartbeat name checked w2 = (Ok checked, w2)).
  { intros w2 Hle. unfold dev_endpoint_heartbeat, bind, time_time, ret.
    destruct (Z.ltb_spec DEV_ENDPOINT_HEARTBEAT_INTERVAL_IN_SEC (clock w2 - checked));
      [lia | reflexivity]. }
  unfold dev_endpoint_heartbeat, bind, time_time, ret.
  destruct (DEV_ENDPOINT_HEARTBEAT_INTERVAL_IN_SEC <? clock w - last) eqn:Hdue.
  - destruct (glue_get_dev_endpoint name w) as [[d|e|] w2] eqn:Hget; try discriminate.
    intros [= <- <-].
    assert (Hw2 : w2 = perform (EvGetDevEndpoint name) w).
    { unfold glue_get_dev_endpoint in Hget. by injection Hget as _ <-. }
    split; [by right|]. split; [|exact Hquiet].
    unfold DEV_ENDPOINT_HEARTBEAT_INTERVAL_IN_SEC. lia.
  - intros [= <- <-]. apply Z.ltb_ge in Hdue.
    split; [by left|]. split; [lia | exact Hquiet].
Qed.

Lemma dev_endpoint_heartbeat_rate_limited_witness :
  exists w1,
    dev_endpoint_heartbeat "epA" (-4000) healthy_world = (Ok 0, w1) /\
    dev_endpoint_heartbeat "epA" 0 (perform (EvSleep 3600) w1)
    = (Ok 0, perform (EvSleep 3600) w1).
Proof.
  eexists. split; [reflexivity|].
  eapply (dev_endpoint_heartbeat_rate_limited "epA" (-4000) healthy_world);
    [reflexivity | vm_compute; discriminate].
Defined.

(** * The connection checker *)

Lemma replay_refused_attempts k w :
  replay (refused_attempts k)
    (perform (EvSleep Checker.LIVY_PING_TIMEOUT_IN_SEC)
       (perform (EvProbe Checker.LIVY_PING_TIMEOUT_IN_SEC LivyRefused) w))
  = replay (refused_attempts (S k)) w.
Proof. cbn [refused_attempts]. by rewrite replay_app. Qed.

(** A refused attempt takes its sleep at least. *)
Lemma clock_refused_attempts k : forall w,
  clock w + Checker.LIVY_PING_TIMEOUT_IN_SEC * Z.of_nat k
  <= clock (replay (refused_attempts k) w).
Proof.
  induction k as [|k IH]; intros w; [cbn; lia|].
  rewrite <- replay_refused_attempts.
  pose proof (IH (perform (EvSleep Checker.LIVY_PING_TIMEOUT_IN_SEC)
                    (perform (EvProbe Checker.LIVY_PING_TIMEOUT_IN_SEC LivyRefused) w)))
    as Hk.
  rewrite !clock_perform in Hk. cbn [sleep_of] in Hk.
  unfold Checker.LIVY_PING_TIMEOUT_IN_SEC in *. lia.
Qed.

(** One attempt, seen from the loop. *)
Lemma wait_for_livy_connection_loop_attempt fuel start w :
  clock w - start < Checker.LIVY_SERVER_TIMEOUT_IN_SEC ->
  Checker.wait_for_livy_connection_loop (S fuel) start w =
  match livy (oracle w) (probes w) with
  | LivyResponse =>
      (Ok true, perform (EvProbe Checker.LIVY_PING_TIMEOUT_IN_SEC LivyResponse) w)
  | LivyRefused =>
      Checker.wait_for_livy_connection_loop fuel start
        (perform (EvSleep Checker.LIVY_PING_TIMEOUT_IN_SEC)
           (perform (EvProbe Checker.LIVY_PING_TIMEOUT_IN_SEC LivyRefused) w))
  | LivyOtherError =>
      (Raise RequestException,
       perform (EvProbe Checker.LIVY_PING_TIMEOUT_IN_SEC LivyOtherError) w)
  end.
Proof.
  intros Hguard. apply Z.ltb_lt in Hguard.
  cbn [Checker.wait_for_livy_connection_loop].
  unfold bind at 1. unfold time_time at 1. rewrite Hguard.
  unfold bind at 1. unfold try_except, bind at 1, requests_get at 1.
  destruct (livy (oracle w) (probes w)); reflexivity.
Qed.

Lemma wait_for_livy_connection_loop_timeout fuel start w :
  Checker.LIVY_SERVER_TIMEOUT_IN_SEC <= clock w - start ->
  Checker.wait_for_livy_connection_loop fuel start w = (Ok false, w).
Proof.
  intros Hover. apply Z.ltb_ge in Hover.
  destruct fuel; cbn [Checker.wait_for_livy_connection_loop];
    unfold bind, time_time; by rewrite Hover.
Qed.

(** [k] attempts that were started in time and refused. *)
Lemma wait_for_livy_connection_loop_refused k start : forall fuel w,
  (forall i, (i < k)%nat -> livy (oracle w) (probes w + i) = LivyRefused) ->
  (forall i, (i < k)%nat ->
     clock (replay (refused_attempts i) w) - start < Checker.LIVY_SERVER_TIMEOUT_IN_SEC) ->
  Checker.wait_for_livy_connection_loop (k + fuel) start w =
  Checker.wait_for_livy_connection_loop fuel start (replay (refused_attempts k) w).
Proof.
  induction k as [|k IH]; intros fuel w Hrefused Htime; [done|].
  cbn [Nat.add].
  rewrite wait_for_livy_connection_loop_attempt by exact (Htime 0%nat ltac:(lia)).
  pose proof (Hrefused 0%nat ltac:(lia)) as H0. rewrite Nat.add_0_r in H0. rewrite H0.
  rewrite IH.
  - by rewrite replay_refused_attempts.
  - intros i Hi.
    change (oracle (perform _ (perform _ w))) with (oracle w).
    change (probes (perform _ (perform _ w))) with (S (probes w)).
    replace (S (probes w) + i)%nat with (probes w + S i)%nat by lia.
    apply Hrefused. lia.
  - intros i Hi. rewrite replay_refused_attempts. apply Htime. lia.
Qed.

Lemma wait_for_livy_connection_loop_ends fuel start : forall w,
  Checker.LIVY_SERVER_TIMEOUT_IN_SEC - (clock w - start)
    <= Checker.LIVY_PING_TIMEOUT_IN_SEC * Z.of_nat fuel ->
  fst (Checker.wait_for_livy_connection_loop fuel start w) <> Diverge.
Proof.
  induction fuel as [|fuel IH]; intros w Hfuel;
    destruct (Z.lt_ge_cases (clock w - start) Checker.LIVY_SERVER_TIMEOUT_IN_SEC)
      as [Hguard|Hover];
    try (by rewrite wait_for_livy_connection_loop_timeout).
  - unfold Checker.LIVY_SERVER_TIMEOUT_IN_SEC, Checker.LIVY_PING_TIMEOUT_IN_SEC in *. lia.
  - rewrite wait_for_livy_connection_loop_attempt by done.
    destruct (livy (oracle w) (probes w)); try done.
    apply IH. rewrite !clock_perform. cbn [sleep_of].
    unfold Checker.LIVY_SERVER_TIMEOUT_IN_SEC, Checker.LIVY_PING_TIMEOUT_IN_SEC in *. lia.
Qed.

Lemma wait_for_livy_connection_run w :
  Checker.wait_for_livy_connection w =
  match Checker.wait_for_livy_connection_loop Checker.wait_fuel (clock w) w with
  | (Ok true, w') => (Ok tt, w')
  | (Ok false, w') =>
      (Raise (ValueError "Livy connection timeout after 1800 seconds"), w')
  | (Raise e, w') => (Raise e, w')
  | (Diverge, w') => (Diverge, w')
  end.
Proof.
  unfold Checker.wait_for_livy_connection.
  unfold bind at 1, Checker.print at 1, ret at 1.
  unfold bind at 1, time_time at 1. unfold bind at 1.
  destruct (Checker.wait_for_livy_connection_loop _ _ _) as [[[]|e|] w']; reflexivity.
Qed.

(** X20.  [wait_for_livy_connection] always ends.  It starts a probe only
    while less than 1800 seconds have passed on the clock since it was
    called, and a refused probe is followed by a sleep of 5 seconds, so
    that at most 360 probes are refused.  After [k] refused probes: if a
    further probe is started, it ends the wait, which returns when the
    probe is answered and lets the probe's exception through when it is
    not; and if the 1800 seconds have passed, the wait raises
    [ValueError]. *)
Theorem wait_for_livy_connection_outcomes (w : World) (k : nat) :
  (forall i, (i < k)%nat -> livy (oracle w) (probes w + i) = LivyRefused) ->
  (forall i, (i < k)%nat ->
     clock (replay (refused_attempts i) w) - clock w < Checker.LIVY_SERVER_TIMEOUT_IN_SEC) ->
  fst (Checker.wait_for_livy_connection w) <> Diverge /\
  (k <= 360)%nat /\
  (clock (replay (refused_attempts k) w) - clock w < Checker.LIVY_SERVER_TIMEOUT_IN_SEC ->
   livy (oracle w) (probes w + k) <> LivyRefused ->
   Checker.wait_for_livy_connection w =
   (checker_result (livy (oracle w) (probes w + k)),
    perform (EvProbe Checker.LIVY_PING_TIMEOUT_IN_SEC (livy (oracle w) (probes w + k)))
      (replay (refused_attempts k) w))) /\
  (Checker.LIVY_SERVER_TIMEOUT_IN_SEC <= clock (replay (refused_attempts k) w) - clock w ->
   Checker.wait_for_livy_connection w =
   (Raise (ValueError "Livy connection timeout after 1800 seconds"),
    replay (refused_attempts k) w)).
Proof.
  intros Hrefused Htime.
  assert (Hfuel : Z.of_nat Checker.wait_fuel = 360) by reflexivity.
  assert (Hk : (k <= Checker.wait_fuel)%nat).
  { destruct k as [|k]; [lia|].
    pose proof (Htime k ltac:(lia)) as Hlast.
    pose proof (clock_refused_attempts k w) as Hclock.
    unfold Checker.LIVY_SERVER_TIMEOUT_IN_SEC, Checker.LIVY_PING_TIMEOUT_IN_SEC in *. lia. }
  assert (Hrun : Checker.wait_for_livy_connection_loop Checker.wait_fuel (clock w) w =
                 Checker.wait_for_livy_connection_loop (Checker.wait_fuel - k) (clock w)
                   (replay (refused_attempts k) w)).
  { replace Checker.wait_fuel with (k + (Checker.wait_fuel - k))%nat at 1 by lia.
    by apply wait_for_livy_connection_loop_refused. }
  split; [|split; [lia|split]].
  - rewrite wait_for_livy_connection_run.
    pose proof (wait_for_livy_connection_loop_ends Checker.wait_fuel (clock w) w) as Hends.
    destruct (Checker.wait_for_livy_connection_loop _ _ _) as [[[]|e|] w']; try done.
    exfalso. apply Hends; [|reflexivity].
    unfold Checker.LIVY_SERVER_TIMEOUT_IN_SEC, Checker.LIVY_PING_TIMEOUT_IN_SEC. lia.
  - intros Hguard Hanswer.
    pose proof (clock_refused_attempts k w) as Hclock.
    destruct (Checker.wait_fuel - k)%nat as [|fuel] eqn:Hleft.
    { unfold Checker.LIVY_SERVER_TIMEOUT_IN_SEC, Checker.LIVY_PING_TIMEOUT_IN_SEC in *. lia. }
    rewrite wait_for_livy_connection_run, Hrun.
    rewrite wait_for_livy_connection_loop_attempt by done.
    rewrite oracle_replay.
    assert (Hprobes : probes (replay (refused_attempts k) w) = (probes w + k)%nat).
    { clear. revert w. induction k as [|k IH]; intros w; [cbn; lia|].
      rewrite <- replay_refused_attempts, IH.
      change (probes (perform _ (perform _ w))) with (S (probes w)). lia. }
    rewrite Hprobes.
    destruct (livy (oracle w) (probes w + k)); done.
  - intros Hover.
    rewrite wait_for_livy_connection_run, Hrun.
    by rewrite wait_for_livy_connection_loop_timeout.
Qed.

Lemma wait_for_livy_connection_outcomes_witness :
  fst (Checker.wait_for_livy_connection slow_start_world) = Ok tt /\
  probes (snd (Checker.wait_for_livy_connection slow_start_world)) = 4%nat /\
  fst (Checker.wait_for_livy_connection refused_world)
    = Raise (ValueError "Livy connection timeout after 1800 seconds") /\
  probes (snd (Checker.wait_for_livy_connection refused_world)) = 360%nat /\
  fst (Checker.wait_for_livy_connection slow_refusing_world)
    = Raise (ValueError "Livy connection timeout after 1800 seconds") /\
  probes (snd (Checker.wait_for_livy_connection slow_refusing_world)) = 72%nat.
Proof.
  assert (Htime : forall w n,
            forallb (fun i => clock (replay (refused_attempts i) w) - clock w
                              <? Checker.LIVY_SERVER_TIMEOUT_IN_SEC) (seq 0 n) = true ->
            forall i, (i < n)%nat ->
              clock (replay (refused_attempts i) w) - clock w
              < Checker.LIVY_SERVER_TIMEOUT_IN_SEC).
  { intros w n H i Hi. apply Z.ltb_lt. by apply (below_forallb n _ H). }
  assert (Hslow : Checker.wait_for_livy_connection slow_start_world =
                  (Ok tt, perform (EvProbe Checker.LIVY_PING_TIMEOUT_IN_SEC LivyResponse)
                            (replay (refused_attempts 3) slow_start_world))).
  { destruct (wait_for_livy_connection_outcomes slow_start_world 3) as (_ & _ & Hnext & _).
    - intros i Hi.
      change ((if (i <? 3)%nat then LivyRefused else LivyResponse) = LivyRefused).
      apply Nat.ltb_lt in Hi. by rewrite Hi.
    - apply (Htime slow_start_world 3%nat). vm_compute. reflexivity.
    - apply Hnext; [vm_compute; reflexivity | discriminate]. }
  assert (Hrefusing : Checker.wait_for_livy_connection refused_world =
                      (Raise (ValueError "Livy connection timeout after 1800 seconds"),
                       replay (refused_attempts 360) refused_world)).
  { destruct (wait_for_livy_connection_outcomes refused_world 360) as (_ & _ & _ & Hover).
    - intros i Hi. reflexivity.
    - apply (Htime refused_world 360%nat). vm_compute. reflexivity.
    - apply Hover. vm_compute. discriminate. }
  assert (Hslower : Checker.wait_for_livy_connection slow_refusing_world =
                    (Raise (ValueError "Livy connection timeout after 1800 seconds"),
                     replay (refused_attempts 72) slow_refusing_world)).
  { destruct (wait_for_livy_connection_outcomes slow_refusing_world 72) as (_ & _ & _ & Hover).
    - intros i Hi. reflexivity.
    - apply (Htime slow_refusing_world 72%nat). vm_compute. reflexivity.
    - apply Hover. vm_compute. discriminate. }
  rewrite Hslow, Hrefusing, Hslower. cbn [fst snd].
  split; [reflexivity|]. split; [vm_compute; reflexivity|].
  split; [reflexivity|]. split; [vm_compute; reflexivity|].
  split; [reflexivity|]. vm_compute. reflexivity.
Defined.
